(** * Project-GeoFence: a shallow embedding of the geofencing engine

    The development follows the TypeScript sources of the backend package:
    the shared types ([types/geofencing]), [GeospatialValidator],
    [Tile38Service], [ConnectionManager], [ZoneManagementService],
    [GeofenceWebhookService], [LoadBalancer] and the chunking of
    [BulkLocationProcessor].

    Conventions of the embedding.
    - A JavaScript [number] that holds a measurement (degrees, metres, a risk
      level, an average) is a rational [Q]; finite doubles are read as the
      rationals they denote and rounding is not modelled.  Clock readings
      ([Date.now()]), counters and health scores are integers [Z].
    - An exception is a value of [Exn]; a function that may throw returns
      [Result A].  Stateful methods thread their object explicitly.
    - An optional field [f?: T] is [option T]; JavaScript truthiness is
      written out at every place the source relies on it. *)

From stdpp Require Import gmap strings list fin_maps pretty.
From Stdlib Require Import QArith Qabs Qminmax ZArith Lia Sorted.

Local Open Scope string_scope.
Local Open Scope Z_scope.
Local Open Scope list_scope.

(** ** Errors and results *)

Inductive ErrorKind :=
| GeofencingError
| ZoneValidationError
| LocationValidationError
| Tile38ConnectionError
| PlainError.

Record Exn := mkExn { exn_kind : ErrorKind; exn_message : string }.

Inductive Result (A : Type) :=
| Ok (a : A)
| Throw (e : Exn).
Arguments Ok {A} a.
Arguments Throw {A} e.

Global Instance Result_bind : MBind Result := fun A B k r =>
  match r with
  | Ok a => k a
  | Throw e => Throw e
  end.
Global Instance Result_ret : MRet Result := fun A a => Ok a.

Definition throwKind {A} (k : ErrorKind) (msg : string) : Result A :=
  Throw (mkExn k msg).

Definition isOk {A} (r : Result A) : bool :=
  match r with Ok _ => true | Throw _ => false end.

Definition throwsKind {A} (k : ErrorKind) (r : Result A) : Prop :=
  exists msg, r = Throw (mkExn k msg).

(** ** Numbers *)

Definition Qlt_bool (a b : Q) : bool := negb (Qle_bool b a).
Definition Qgt_bool (a b : Q) : bool := Qlt_bool b a.
Definition Qge_bool (a b : Q) : bool := Qle_bool b a.

(** [!x] on a number: true exactly for zero (NaN does not arise in [Q]). *)
Definition falsyQ (x : Q) : bool := Qeq_bool x 0.
Definition falsyZ (x : Z) : bool := Z.eqb x 0.
(** [!s] on a string: true exactly for the empty string. *)
Definition falsyS (s : string) : bool := if decide (s = "") then true else false.

(** ** Shared types ([types/geofencing]) *)

Inductive ZoneType :=
| SAFE | CAUTION | RESTRICTED | HIGH_RISK | EMERGENCY | TOURIST_FRIENDLY.

Inductive ZoneStatus := ACTIVE | INACTIVE | MAINTENANCE.

Inductive GeofenceEventType := ENTER | EXIT | INSIDE | OUTSIDE.

Inductive AlertLevel := low | medium | high | critical.

Global Instance ZoneType_eq_dec : EqDecision ZoneType.
Proof. solve_decision. Defined.
Global Instance ZoneStatus_eq_dec : EqDecision ZoneStatus.
Proof. solve_decision. Defined.
Global Instance GeofenceEventType_eq_dec : EqDecision GeofenceEventType.
Proof. solve_decision. Defined.

Record Coordinate := mkCoord { latitude : Q; longitude : Q }.

Record BoundingBox := mkBBox { minLat : Q; minLon : Q; maxLat : Q; maxLon : Q }.

Record ZoneMetadata := mkZoneMeta {
  riskLevel : Q;
  alertMessage : option string;
  emergencyContacts : option (list string);
  createdBy : string;
  createdAt : Z;
  updatedAt : Z }.

(** [geometry] is the GeoJSON polygon: a list of rings of [lon, lat] pairs. *)
Record Zone := mkZone {
  zone_id : string;
  zone_name : string;
  zone_type : ZoneType;
  zone_status : ZoneStatus;
  zone_description : option string;
  zone_geometry : list (list (Q * Q));
  zone_coordinates : list Coordinate;
  zone_boundingBox : BoundingBox;
  zone_metadata : option ZoneMetadata }.

Record LocationPoint := mkLocation {
  loc_userId : string;
  loc_coordinates : Coordinate;
  loc_timestamp : Z }.

Record EventMetadata := mkEventMeta { alertLevel : option AlertLevel }.

(** The event shape built by [GeofenceWebhookService] (it carries the user's
    [location]). *)
Record GeofenceEvent := mkEvent {
  ev_id : string;
  ev_userId : string;
  ev_zoneId : string;
  ev_zoneName : option string;
  ev_zoneType : option ZoneType;
  ev_eventType : GeofenceEventType;
  ev_location : LocationPoint;
  ev_timestamp : Z;
  ev_processed : bool;
  ev_metadata : option EventMetadata }.

Record RetryConfig := mkRetryConfig {
  rc_maxRetries : Z; rc_retryDelay : Z; rc_exponentialBackoff : bool }.

Record WebhookConfig := mkWebhook {
  wh_id : string;
  wh_name : string;
  wh_url : string;
  wh_secret : option string;
  wh_enabled : bool;
  wh_zoneIds : option (list string);
  wh_zoneTypes : option (list ZoneType);
  wh_eventTypes : list GeofenceEventType;
  wh_retryConfig : RetryConfig;
  wh_headers : list (string * string);
  wh_createdAt : Z;
  wh_updatedAt : Z }.

Record PayloadUser := mkPayloadUser { pu_id : string; pu_name : option string }.

Record WebhookPayload := mkPayload {
  pl_event : GeofenceEvent;
  pl_zone : Zone;
  pl_user : PayloadUser;
  pl_timestamp : Z;
  pl_signature : option string }.

(** [Array.prototype.includes] on the element types used by the filters. *)
Definition includes {A} `{EqDecision A} (l : list A) (x : A) : bool :=
  existsb (fun y => if decide (y = x) then true else false) l.

(** ** Tile38Service: the typed wrapper over the spatial index *)

Module Tile38Service.

Record HealthStats := mkHealthStats {
  requestCount : Z; errorCount : Z; totalLatency : Z }.

(** [zonesColl] is what the server holds in the zones collection. *)
Record t := mkService {
  isConnected : bool;
  healthStats : HealthStats;
  zonesColl : gmap string (list Coordinate) }.

(** [validateZone]: the three guards and the per-vertex check
    [!coord.latitude || !coord.longitude].  The [Array.isArray] guard
    cannot fail on a typed zone. *)
Fixpoint validateVertices (coords : list Coordinate) (index : nat) : Result unit :=
  match coords with
  | [] => Ok tt
  | coord :: rest =>
      if falsyQ (latitude coord) || falsyQ (longitude coord)
      then throwKind ZoneValidationError ("Invalid coordinate at index " ++ pretty index)
      else validateVertices rest (S index)
  end.

Definition validateZone (zone : Zone) : Result unit :=
  if falsyS (zone_id zone)
  then throwKind ZoneValidationError "Invalid or missing zone ID"
  else if (length (zone_coordinates zone) <? 3)%nat
  then throwKind ZoneValidationError "Zone must have at least 3 coordinates"
  else validateVertices (zone_coordinates zone) 0.

(** [executeCommand]: refuses when disconnected, counts the request, and
    wraps a failing command in a connection error.  [outcome] is what the
    server call does: [None] when it resolves, [Some msg] when it rejects
    (or the query timeout fires first). *)
Definition executeCommand (svc : t) (operation : string)
    (outcome : option string) (latency : Z) (commit : t -> t) : Result unit * t :=
  if negb (isConnected svc)
  then (throwKind Tile38ConnectionError "Not connected to Tile38 server", svc)
  else
    let hs := healthStats svc in
    let svc1 := mkService (isConnected svc)
                  (mkHealthStats (requestCount hs + 1) (errorCount hs) (totalLatency hs))
                  (zonesColl svc) in
    match outcome with
    | None =>
        let svc2 := commit svc1 in
        let hs2 := healthStats svc2 in
        (Ok tt,
         mkService (isConnected svc2)
           (mkHealthStats (requestCount hs2) (errorCount hs2) (totalLatency hs2 + latency))
           (zonesColl svc2))
    | Some _ =>
        let hs1 := healthStats svc1 in
        (throwKind Tile38ConnectionError (operation ++ " failed"),
         mkService (isConnected svc1)
           (mkHealthStats (requestCount hs1) (errorCount hs1 + 1) (totalLatency hs1))
           (zonesColl svc1))
    end.

(** [createZone]: validation runs first, outside any handler, so its
    error reaches the caller as thrown. *)
Definition createZone (svc : t) (outcome : option string) (latency : Z)
    (zone : Zone) : Result unit * t :=
  match validateZone zone with
  | Throw e => (Throw e, svc)
  | Ok _ =>
      executeCommand svc "createZone" outcome latency
        (fun s => mkService (isConnected s) (healthStats s)
                    (<[zone_id zone := zone_coordinates zone]> (zonesColl s)))
  end.

Definition deleteZone (svc : t) (outcome : option string) (latency : Z)
    (zoneId : string) : Result unit * t :=
  executeCommand svc "deleteZone" outcome latency
    (fun s => mkService (isConnected s) (healthStats s) (delete zoneId (zonesColl s))).

End Tile38Service.

(** ** GeospatialValidator: pure geometry and the polygon rules *)

(** The part of JavaScript's [Math] the validator calls.  The trigonometric
    functions are not computed here; every definition below is written over
    an arbitrary implementation of them. *)
Record MathLib := mkMath {
  Math_PI : Q;
  Math_sin : Q -> Q;
  Math_cos : Q -> Q;
  Math_sqrt : Q -> Q;
  Math_atan2 : Q -> Q -> Q }.

Module GeospatialValidator.

Definition validateCoordinate (coord : Coordinate) : Result bool :=
  if Qlt_bool (latitude coord) (-90) || Qgt_bool (latitude coord) 90
  then throwKind LocationValidationError "Latitude must be between -90 and 90 degrees"
  else if Qlt_bool (longitude coord) (-180) || Qgt_bool (longitude coord) 180
  then throwKind LocationValidationError "Longitude must be between -180 and 180 degrees"
  else Ok true.

(** [orientation]: 0 collinear, 1 clockwise, 2 counterclockwise. *)
Definition orientation (p q r : Coordinate) : Z :=
  let val := ((latitude q - latitude p) * (longitude r - longitude q) -
              (longitude q - longitude p) * (latitude r - latitude q))%Q in
  if Qlt_bool (Qabs val) (1 # 10000000000) then 0
  else if Qgt_bool val 0 then 1 else 2.

Definition onSegment (p q r : Coordinate) : bool :=
  Qle_bool (longitude q) (Qmax (longitude p) (longitude r)) &&
  Qge_bool (longitude q) (Qmin (longitude p) (longitude r)) &&
  Qle_bool (latitude q) (Qmax (latitude p) (latitude r)) &&
  Qge_bool (latitude q) (Qmin (latitude p) (latitude r)).

Definition linesIntersect (line1 line2 : Coordinate * Coordinate) : bool :=
  let '(p1, q1) := line1 in
  let '(p2, q2) := line2 in
  let o1 := orientation p1 q1 p2 in
  let o2 := orientation p1 q1 q2 in
  let o3 := orientation p2 q2 p1 in
  let o4 := orientation p2 q2 q1 in
  if negb (o1 =? o2)%Z && negb (o3 =? o4)%Z then true
  else if (o1 =? 0)%Z && onSegment p1 p2 q1 then true
  else if (o2 =? 0)%Z && onSegment p1 q2 q1 then true
  else if (o3 =? 0)%Z && onSegment p2 p1 q2 then true
  else if (o4 =? 0)%Z && onSegment p2 q1 q2 then true
  else false.

(** The edge from [coordinates[i]] to [coordinates[i + 1]]. *)
Definition edge (coordinates : list Coordinate) (i : nat)
  : option (Coordinate * Coordinate) :=
  match coordinates !! i, coordinates !! S i with
  | Some a, Some b => Some (a, b)
  | _, _ => None
  end.

Definition edgesIntersect (c1 : list Coordinate) (i : nat)
    (c2 : list Coordinate) (j : nat) : bool :=
  match edge c1 i, edge c2 j with
  | Some line1, Some line2 => linesIntersect line1 line2
  | _, _ => false
  end.

(** The two nested loops run [i] over [0 .. n-2] and [j] over
    [i+2 .. n-2]; the first intersecting pair returns [true]. *)
Definition isSelfIntersecting (coordinates : list Coordinate) : bool :=
  let n := length coordinates in
  if (n <? 4)%nat then false
  else
    existsb (fun i =>
      existsb (fun j =>
        if (Z.abs (Z.of_nat i - Z.of_nat j) <=? 1)%Z
           || ((i =? 0)%nat && (j =? n - 2)%nat)
        then false
        else edgesIntersect coordinates i coordinates j)
        (seq (i + 2) (n - 1 - (i + 2))))
      (seq 0 (n - 1)).

Fixpoint boundingBoxLoop (coordinates : list Coordinate) (acc : BoundingBox)
  : BoundingBox :=
  match coordinates with
  | [] => acc
  | coord :: rest =>
      boundingBoxLoop rest
        (mkBBox (Qmin (minLat acc) (latitude coord))
                (Qmin (minLon acc) (longitude coord))
                (Qmax (maxLat acc) (latitude coord))
                (Qmax (maxLon acc) (longitude coord)))
  end.

Definition calculateBoundingBox (coordinates : list Coordinate) : Result BoundingBox :=
  match coordinates with
  | [] => throwKind ZoneValidationError
            "Cannot calculate bounding box for empty coordinates"
  | c0 :: _ =>
      Ok (boundingBoxLoop coordinates
            (mkBBox (latitude c0) (longitude c0) (latitude c0) (longitude c0)))
  end.

(** Ray casting; [prev] is [polygon[j]], which trails the loop index. *)
Fixpoint pointInPolygonLoop (point prev : Coordinate) (rest : list Coordinate)
    (inside : bool) : bool :=
  match rest with
  | [] => inside
  | cur :: rest' =>
      let xi := longitude cur in
      let yi := latitude cur in
      let xj := longitude prev in
      let yj := latitude prev in
      let crosses :=
        negb (Bool.eqb (Qgt_bool yi (latitude point)) (Qgt_bool yj (latitude point)))
        && Qlt_bool (longitude point)
             ((xj - xi) * (latitude point - yi) / (yj - yi) + xi)%Q in
      pointInPolygonLoop point cur rest' (if crosses then negb inside else inside)
  end.

Definition isPointInPolygon (point : Coordinate) (polygon : list Coordinate) : bool :=
  match last polygon with
  | None => false
  | Some lastVertex => pointInPolygonLoop point lastVertex polygon false
  end.

Definition polygonsOverlap (polygon1 polygon2 : list Coordinate) : bool :=
  if existsb (fun point => isPointInPolygon point polygon2) polygon1 then true
  else if existsb (fun point => isPointInPolygon point polygon1) polygon2 then true
  else
    existsb (fun i =>
      existsb (fun j => edgesIntersect polygon1 i polygon2 j)
        (seq 0 (length polygon2 - 1)))
      (seq 0 (length polygon1 - 1)).

(** [/^[a-zA-Z0-9\s\-_]+$/] on a string of one-byte characters. *)
Definition zoneNameChar (a : Ascii.ascii) : bool :=
  let n := Ascii.nat_of_ascii a in
  ((65 <=? n) && (n <=? 90) || (97 <=? n) && (n <=? 122)
   || (48 <=? n) && (n <=? 57)
   || (9 <=? n) && (n <=? 13) || (n =? 32) || (n =? 45) || (n =? 95))%nat.

Definition validateZoneName (name : string) : Result bool :=
  if falsyS name then throwKind ZoneValidationError "Zone name is required"
  else if (String.length name <? 3)%nat
  then throwKind ZoneValidationError "Zone name must be at least 3 characters"
  else if (100 <? String.length name)%nat
  then throwKind ZoneValidationError "Zone name cannot exceed 100 characters"
  else if negb (forallb zoneNameChar (String.list_ascii_of_string name))
  then throwKind ZoneValidationError
         "Zone name can only contain letters, numbers, spaces, hyphens, and underscores"
  else Ok true.

(** [validateFourCoordinatePolygon]: the ring must hold 4 coordinates, or 5
    with the fifth within 0.0001 degrees of the first. *)
Definition validateFourCoordinatePolygon (coordinates : list Coordinate) : Result bool :=
  if negb (length coordinates =? 4)%nat && negb (length coordinates =? 5)%nat
  then throwKind ZoneValidationError
         "Zone must have exactly 4 coordinates (plus optional closing coordinate)"
  else
    match (length coordinates =? 5)%nat, coordinates !! 0%nat, coordinates !! 4%nat with
    | true, Some first, Some lastc =>
        if Qgt_bool (Qabs (latitude first - latitude lastc)) (1 # 10000)
           || Qgt_bool (Qabs (longitude first - longitude lastc)) (1 # 10000)
        then throwKind ZoneValidationError
               "Closing coordinate must match the first coordinate"
        else Ok true
    | _, _, _ => Ok true
    end.

Section WithMath.
Variable M : MathLib.

Definition toRadians (degrees : Q) : Q := (degrees * (Math_PI M / 180))%Q.

(** Haversine distance in metres. *)
Definition calculateDistance (coord1 coord2 : Coordinate) : Q :=
  let R := 6371000%Q in
  let lat1 := toRadians (latitude coord1) in
  let lat2 := toRadians (latitude coord2) in
  let deltaLat := toRadians (latitude coord2 - latitude coord1) in
  let deltaLon := toRadians (longitude coord2 - longitude coord1) in
  let a := (Math_sin M (deltaLat / 2) * Math_sin M (deltaLat / 2) +
            Math_cos M lat1 * Math_cos M lat2 *
            Math_sin M (deltaLon / 2) * Math_sin M (deltaLon / 2))%Q in
  let c := (2 * Math_atan2 M (Math_sqrt M a) (Math_sqrt M (1 - a)))%Q in
  (R * c)%Q.

Fixpoint areaLoop (coordinates : list Coordinate) (area : Q) : Q :=
  match coordinates with
  | coord1 :: ((coord2 :: _) as rest) =>
      let lat1 := toRadians (latitude coord1) in
      let lat2 := toRadians (latitude coord2) in
      let lon1 := toRadians (longitude coord1) in
      let lon2 := toRadians (longitude coord2) in
      areaLoop rest
        (area + (lon2 - lon1) * (2 + Math_sin M lat1 + Math_sin M lat2))%Q
  | _ => area
  end.

Definition calculatePolygonArea (coordinates : list Coordinate) : Q :=
  if (length coordinates <? 3)%nat then 0%Q
  else
    let earthRadius := 6371000%Q in
    Qabs (areaLoop coordinates 0 * earthRadius * earthRadius / 2)%Q.

(** The same sum with the accumulator kept in lowest terms: equal to
    [areaLoop] as a rational (lemma [areaLoop_reduced]) and cheap to
    evaluate on long rings. *)
Fixpoint areaLoopReduced (coordinates : list Coordinate) (area : Q) : Q :=
  match coordinates with
  | coord1 :: ((coord2 :: _) as rest) =>
      let lat1 := toRadians (latitude coord1) in
      let lat2 := toRadians (latitude coord2) in
      let lon1 := toRadians (longitude coord1) in
      let lon2 := toRadians (longitude coord2) in
      areaLoopReduced rest
        (Qred (area + (lon2 - lon1) * (2 + Math_sin M lat1 + Math_sin M lat2)))%Q
  | _ => area
  end.

(** The [forEach] of [validateZonePolygon]: a failing vertex is reported
    as a [ZoneValidationError] carrying its index. *)
Fixpoint validateEach (coordinates : list Coordinate) (index : nat) : Result unit :=
  match coordinates with
  | [] => Ok tt
  | coord :: rest =>
      match validateCoordinate coord with
      | Throw e =>
          throwKind ZoneValidationError
            ("Invalid coordinate at index " ++ pretty index ++ ": " ++ exn_message e)
      | Ok _ => validateEach rest (S index)
      end
  end.

(** [isClosedPolygon]: first and last point less than a millimetre apart. *)
Definition isClosedPolygon (coordinates : list Coordinate) : bool :=
  match coordinates !! 0%nat, last coordinates with
  | Some firstPoint, Some lastPoint =>
      Qlt_bool (calculateDistance firstPoint lastPoint) (1 # 1000)
  | _, _ => true
  end.

(** The closing vertex pushed onto the array when the ring is open. *)
Definition autoClose (coordinates : list Coordinate) : list Coordinate :=
  if isClosedPolygon coordinates then coordinates
  else coordinates ++ take 1 coordinates.

(** [validateZonePolygon] pushes onto [zone.coordinates]; the result is
    the array as the call leaves it, which is what the caller's zone
    object holds afterwards. *)
Definition validateZonePolygon (coordinates : list Coordinate)
  : Result (list Coordinate) :=
  if (length coordinates <? 3)%nat
  then throwKind ZoneValidationError "Polygon must have at least 3 coordinates"
  else if (100 <? length coordinates)%nat
  then throwKind ZoneValidationError "Polygon cannot have more than 100 coordinates"
  else
    match validateEach coordinates 0 with
    | Throw e => Throw e
    | Ok _ =>
        let ring := autoClose coordinates in
        if isSelfIntersecting ring
        then throwKind ZoneValidationError "Polygon cannot be self-intersecting"
        else
          let area := calculatePolygonArea ring in
          if Qlt_bool area 100
          then throwKind ZoneValidationError
                 "Zone area is too small (minimum 100 square meters)"
          else if Qgt_bool area 1000000000
          then throwKind ZoneValidationError
                 "Zone area is too large (maximum 1000 square kilometers)"
          else Ok ring
    end.
End WithMath.

End GeospatialValidator.

(** ** The world outside the process

    The connection pool's view of its connections, the zones collection of
    the spatial-index server (one data set, read through any handle), and the
    clock.  What the server keeps for a zone is the field list and the ring
    that [storeZoneInTile38] sends.  A connection that is down shows when a
    handle is acquired; a command sent through an acquired handle is
    answered. *)

Inductive Handle := Primary | Replica (i : nat).

Record ZoneFields := mkZoneFields {
  f_name : string;
  f_type : ZoneType;
  f_status : ZoneStatus;
  f_description : string;
  f_riskLevel : Q;
  f_createdBy : string;
  f_createdAt : Z;
  f_updatedAt : Z }.

Record Pool := mkPool {
  primaryConnected : bool;
  replicasConnected : list bool;
  roundRobinIndex : nat }.

Record World := mkWorld {
  pool : Pool;
  serverZones : gmap string (ZoneFields * list Coordinate);
  clock : Z }.

(** What a manager call does that its caller can observe from outside. *)
Inductive Effect :=
| EvAcquired (h : Handle)
| EvAcquireFailed
| EvInvoked (h : Handle) (succeeded : bool)
| EvDelay (ms : Z).

(** ** ConnectionManager *)

Module ConnectionManager.

Definition MAX_CONNECTION_ATTEMPTS : nat := 3.

(** An operation handed to [executeRead]/[executeWrite]: it receives the
    handle and either resolves or rejects, possibly changing the world. *)
Definition Operation (T : Type) : Type := Handle -> World -> Result T * World.

Definition setPool (w : World) (p : Pool) : World :=
  mkWorld p (serverZones w) (clock w).

(** [delay ms]: the timer elapses. *)
Definition delay (ms : Z) (w : World) : World :=
  mkWorld (pool w) (serverZones w) (clock w + ms).

(** The replicas that are connected, with their positions. *)
Definition connectedReplicas (p : Pool) : list Handle :=
  omap (fun '(i, c) => if c : bool then Some (Replica i) else None)
       (imap (fun i c => (i, c)) (replicasConnected p)).

(** [getReadConnection]: round robin over the primary (when connected)
    followed by the connected replicas. *)
Definition getReadConnection (w : World) : Result Handle * World :=
  let p := pool w in
  let availableConnections :=
    (if primaryConnected p then [Primary] else []) ++ connectedReplicas p in
  match availableConnections !! (roundRobinIndex p mod length availableConnections)%nat with
  | None =>
      (throwKind Tile38ConnectionError
         "No healthy connections available for read operations", w)
  | Some connection =>
      (Ok connection,
       setPool w (mkPool (primaryConnected p) (replicasConnected p)
                         (S (roundRobinIndex p))))
  end.

Definition getWriteConnection (w : World) : Result Handle * World :=
  if negb (primaryConnected (pool w))
  then (throwKind Tile38ConnectionError
          "Primary connection not available for write operations", w)
  else (Ok Primary, w).

Record Run (T : Type) := mkRun {
  run_result : Result T;
  run_world : World;
  run_log : list Effect }.
Arguments mkRun {T} _ _ _.
Arguments run_result {T} _.
Arguments run_world {T} _.
Arguments run_log {T} _.

Section Retry.
Context {T : Type}.
Variable acquire : World -> Result Handle * World.
Variable exhausted : string.
Variable operation : Operation T.

(** The body of the [for] loop, entered with [attempt] and with
    [remaining = MAX_CONNECTION_ATTEMPTS - attempt] iterations to go.
    A failed attempt sleeps [1000 * (attempt + 1)] ms unless it was the
    last one. *)
Fixpoint attemptLoop (remaining : nat) (attempt : nat) (w : World)
    (log : list Effect) : Run T :=
  match remaining with
  | O => mkRun (throwKind Tile38ConnectionError exhausted) w log
  | S remaining' =>
      let retry (w' : World) (log' : list Effect) :=
        if (attempt <? MAX_CONNECTION_ATTEMPTS - 1)%nat
        then
          let ms := 1000 * (Z.of_nat attempt + 1) in
          attemptLoop remaining' (S attempt) (delay ms w') (log' ++ [EvDelay ms])
        else attemptLoop remaining' (S attempt) w' log' in
      match acquire w with
      | (Throw _, w1) => retry w1 (log ++ [EvAcquireFailed])
      | (Ok connection, w1) =>
          match operation connection w1 with
          | (Ok v, w2) =>
              mkRun (Ok v) w2 (log ++ [EvAcquired connection; EvInvoked connection true])
          | (Throw _, w2) =>
              retry w2 (log ++ [EvAcquired connection; EvInvoked connection false])
          end
      end
  end.
End Retry.

Definition executeRead {T} (operation : Operation T) (w : World) : Run T :=
  attemptLoop getReadConnection "All read operation attempts failed"
    operation MAX_CONNECTION_ATTEMPTS 0 w [].

Definition executeWrite {T} (operation : Operation T) (w : World) : Run T :=
  attemptLoop getWriteConnection "All write operation attempts failed"
    operation MAX_CONNECTION_ATTEMPTS 0 w [].

(** Reading a log. *)
Definition delaysOf (log : list Effect) : list Z :=
  omap (fun e => match e with EvDelay ms => Some ms | _ => None end) log.

Definition isAcquisition (e : Effect) : bool :=
  match e with EvAcquired _ | EvAcquireFailed => true | _ => false end.

Definition attemptsOf (log : list Effect) : nat :=
  length (filter (fun e => isAcquisition e = true) log).

(** One attempt, as it shows in the log: the handle could not be had, or
    a handle was acquired and the operation invoked on that handle. *)
Inductive AttemptBlock : bool -> list Effect -> Prop :=
| AttemptNoHandle : AttemptBlock false [EvAcquireFailed]
| AttemptInvoked h ok : AttemptBlock ok [EvAcquired h; EvInvoked h ok].

(** Attempts in sequence, the [k]-th followed by a sleep of [1000 * k] ms
    when another attempt comes after it. *)
Fixpoint joinAttempts (k : Z) (blocks : list (list Effect)) : list Effect :=
  match blocks with
  | [] => []
  | [b] => b
  | b :: rest => b ++ EvDelay (1000 * k) :: joinAttempts (k + 1) rest
  end.

End ConnectionManager.

(** ** ZoneManagementService *)

Module ZoneManagementService.

Record ZoneCreationRequest := mkRequest {
  req_name : string;
  req_type : ZoneType;
  req_description : option string;
  req_coordinates : list Coordinate;
  req_riskLevel : option Q;
  req_alertMessage : option string;
  req_emergencyContacts : option (list string);
  req_createdBy : string }.

Record t := mkService {
  zoneCache : gmap string Zone;
  cacheTimestamps : gmap string Z }.

Definition CACHE_TTL : Z := 300000.

Definition Outcome (A : Type) : Type := Result A * t * World.

(** *** Cache *)

Definition cacheZone (svc : t) (now : Z) (zone : Zone) : t :=
  mkService (<[zone_id zone := zone]> (zoneCache svc))
            (<[zone_id zone := now]> (cacheTimestamps svc)).

Definition removeCachedZone (svc : t) (zoneId : string) : t :=
  mkService (delete zoneId (zoneCache svc)) (delete zoneId (cacheTimestamps svc)).

(** [!timestamp] holds for a missing stamp and for the stamp 0. *)
Definition getCachedZone (svc : t) (now : Z) (zoneId : string) : option Zone * t :=
  match cacheTimestamps svc !! zoneId with
  | Some timestamp =>
      if falsyZ timestamp || (CACHE_TTL <? now - timestamp)
      then (None, removeCachedZone svc zoneId)
      else (zoneCache svc !! zoneId, svc)
  | None => (None, removeCachedZone svc zoneId)
  end.

(** *** The index protocol *)

Definition getDefaultRiskLevel (type : ZoneType) : Q :=
  match type with
  | SAFE => 2
  | TOURIST_FRIENDLY => 3
  | CAUTION => 5
  | RESTRICTED => 7
  | HIGH_RISK => 9
  | EMERGENCY => 10
  end.

(** [x || 5] on a risk level. *)
Definition orFive (x : Q) : Q := if falsyQ x then 5 else x.

Definition metadataRiskLevel (zone : Zone) : Q :=
  match zone_metadata zone with
  | Some md => orFive (riskLevel md)
  | None => 5
  end.

(** The field list of the [SET] command. *)
Definition fieldsOf (zone : Zone) : ZoneFields :=
  mkZoneFields (zone_name zone) (zone_type zone) (zone_status zone)
    (default "" (zone_description zone))
    (metadataRiskLevel zone)
    (from_option createdBy "" (zone_metadata zone))
    (from_option createdAt 0 (zone_metadata zone))
    (from_option updatedAt 0 (zone_metadata zone)).

(** [parseInt] of a number printed in decimal notation: the integer part. *)
Definition parseIntQ (x : Q) : Q := inject_Z (Z.quot (Qnum x) (Zpos (Qden x))).

Definition coordinatesToRing (coordinates : list Coordinate) : list (Q * Q) :=
  map (fun coord => (longitude coord, latitude coord)) coordinates.

(** [parseZoneFromTile38]: [fields] is [None] when the reply carries no
    field array, which is the case for every search reply.  A failure while
    parsing (here: the bounding box of an empty ring) yields [null]. *)
Definition parseZoneFromTile38 (zoneId : string) (fields : option ZoneFields)
    (ring : list Coordinate) : option Zone :=
  match GeospatialValidator.calculateBoundingBox ring with
  | Throw _ => None
  | Ok bbox =>
      Some (mkZone zoneId
              (from_option f_name "" fields)
              (from_option f_type SAFE fields)
              (from_option f_status ACTIVE fields)
              (f_description <$> fields)
              [coordinatesToRing ring]
              ring
              bbox
              (Some (mkZoneMeta
                       (orFive (from_option (fun f => parseIntQ (f_riskLevel f)) 0%Q fields))
                       None None
                       (from_option f_createdBy "" fields)
                       (from_option f_createdAt 0 fields)
                       (from_option f_updatedAt 0 fields))))
  end.

(** [GET zones <id> WITHFIELDS] on an acquired handle. *)
Definition opGet (zoneId : string) : ConnectionManager.Operation (option Zone) :=
  fun _ w =>
    match serverZones w !! zoneId with
    | None => (Ok None, w)
    | Some (fields, ring) => (Ok (parseZoneFromTile38 zoneId (Some fields) ring), w)
    end.

(** [DEL zones <id>]. *)
Definition opDel (zoneId : string) : ConnectionManager.Operation unit :=
  fun _ w => (Ok tt, mkWorld (pool w) (delete zoneId (serverZones w)) (clock w)).

(** [SET zones <id> FIELD ... POLYGON ...]. *)
Definition opSet (zone : Zone) : ConnectionManager.Operation unit :=
  fun _ w =>
    (Ok tt,
     mkWorld (pool w)
       (<[zone_id zone := (fieldsOf zone, zone_coordinates zone)]> (serverZones w))
       (clock w)).

(** [parseZonesFromTile38Results] on the entries of a search reply, which
    lists ids and objects without fields: an entry is parsed when
    [zoneId && zoneData] holds, that is when its id is not the empty string
    (its object, a GeoJSON text, never is), and kept when it parses. *)
Definition parseZonesFromTile38Results
    (objects : list (string * (ZoneFields * list Coordinate))) : list Zone :=
  omap (fun '(zoneId, (_, ring)) =>
          if falsyS zoneId then None else parseZoneFromTile38 zoneId None ring)
       objects.

Section WithIndex.
(** The server's own test for [INTERSECTS ... BOUNDS]. *)
Variable serverIntersects : BoundingBox -> list Coordinate -> bool.
Variable M : MathLib.

(** [INTERSECTS zones LIMIT n BOUNDS ...], with the reply parsed. *)
Definition opIntersectsBounds (limit : nat) (bbox : BoundingBox)
  : ConnectionManager.Operation (list Zone) :=
  fun _ w =>
    (Ok (parseZonesFromTile38Results
           (take limit
              (filter (fun entry => serverIntersects bbox entry.2.2 = true)
                 (map_to_list (serverZones w))))), w).

Definition getZone (svc : t) (w : World) (zoneId : string) : Outcome (option Zone) :=
  match getCachedZone svc (clock w) zoneId with
  | (Some cached, svc1) => (Ok (Some cached), svc1, w)
  | (None, svc1) =>
      let run := ConnectionManager.executeRead (opGet zoneId) w in
      let w1 := ConnectionManager.run_world run in
      match ConnectionManager.run_result run with
      | Ok (Some zone) => (Ok (Some zone), cacheZone svc1 (clock w1) zone, w1)
      | Ok None => (Ok None, svc1, w1)
      | Throw _ => (Ok None, svc1, w1)
      end
  end.

(** The [catch] of the public methods: a [GeofencingError] (any of its
    subclasses) is rethrown, anything else is wrapped. *)
Definition rethrow (wrapped : string) (e : Exn) : Exn :=
  match exn_kind e with
  | PlainError => mkExn ZoneValidationError wrapped
  | _ => e
  end.

(** [deleteZone]; its second argument [deletedBy] only travels in the
    emitted [zoneDeleted] event and is left out. *)
Definition deleteZone (svc : t) (w : World) (zoneId : string) : Outcome bool :=
  let '(found, svc1, w1) := getZone svc w zoneId in
  match found with
  | Ok (Some zone) =>
      let run := ConnectionManager.executeWrite (opDel zoneId) w1 in
      let w2 := ConnectionManager.run_world run in
      match ConnectionManager.run_result run with
      | Ok _ => (Ok true, removeCachedZone svc1 zoneId, w2)
      | Throw e => (Throw (rethrow "Failed to delete zone" e), svc1, w2)
      end
  | _ => (throwKind ZoneValidationError ("Zone not found: " ++ zoneId), svc1, w1)
  end.

Definition validateZoneCreationRequest (request : ZoneCreationRequest) : Result unit :=
  if falsyS (req_name request)
  then throwKind ZoneValidationError "Zone name is required"
  else
    _ ← GeospatialValidator.validateZoneName (req_name request);
    if falsyS (req_createdBy request)
    then throwKind ZoneValidationError "Created by field is required"
    else
      match req_riskLevel request with
      | Some r =>
          if Qlt_bool r 1 || Qgt_bool r 10
          then throwKind ZoneValidationError "Risk level must be between 1 and 10"
          else Ok tt
      | None => Ok tt
      end.

(** [coordinatesToGeoJSON]: the ring, closed by a copy of its first pair
    when first and last differ. *)
Definition coordinatesToGeoJSON (coordinates : list Coordinate) : list (list (Q * Q)) :=
  let coords := coordinatesToRing coordinates in
  match coords !! 0%nat, last coords with
  | Some c0, Some cl =>
      if negb (Qeq_bool c0.1 cl.1) || negb (Qeq_bool c0.2 cl.2)
      then [coords ++ [c0]]
      else [coords]
  | _, _ => [coords]
  end.

Definition searchByBounds (w : World) (bbox : BoundingBox)
  : Result (list Zone) * World :=
  let run := ConnectionManager.executeRead (opIntersectsBounds 100 bbox) w in
  match ConnectionManager.run_result run with
  | Ok zones =>
      (Ok (filter (fun zone => zone_status zone = ACTIVE) zones),
       ConnectionManager.run_world run)
  | Throw _ =>
      (throwKind ZoneValidationError "Failed to search zones",
       ConnectionManager.run_world run)
  end.

Fixpoint overlapLoop (coordinates : list Coordinate) (excludeZoneId : option string)
    (existing : list Zone) : Result unit :=
  match existing with
  | [] => Ok tt
  | existingZone :: rest =>
      if match excludeZoneId with
         | Some ex => negb (falsyS ex) && bool_decide (zone_id existingZone = ex)
         | None => false
         end
      then overlapLoop coordinates excludeZoneId rest
      else if GeospatialValidator.polygonsOverlap coordinates
                (zone_coordinates existingZone)
      then throwKind ZoneValidationError
             ("Zone overlaps with existing zone: " ++ zone_name existingZone
              ++ " (" ++ zone_id existingZone ++ ")")
      else overlapLoop coordinates excludeZoneId rest
  end.

Definition checkZoneOverlaps (w : World) (zone : Zone) (excludeZoneId : option string)
  : Result unit * World :=
  match searchByBounds w (zone_boundingBox zone) with
  | (Ok overlappingZones, w1) =>
      (overlapLoop (zone_coordinates zone) excludeZoneId overlappingZones, w1)
  | (Throw e, w1) => (Throw e, w1)
  end.

Definition storeZoneInTile38 (w : World) (zone : Zone) : Result unit * World :=
  let run := ConnectionManager.executeWrite (opSet zone) w in
  (ConnectionManager.run_result run, ConnectionManager.run_world run).

(** [createZone]; [uuid] is the identifier [uuidv4()] hands out.  In the
    source the zone object is built first and [validateZonePolygon] may then
    push onto its coordinate array, which every later step reads; here the
    record is assembled once that array has its final content.  The bounding
    box and the geometry are computed from the request's own array. *)
Definition createZone (svc : t) (w : World) (uuid : string)
    (request : ZoneCreationRequest) : Outcome Zone :=
  let fail (e : Exn) (w' : World) : Outcome Zone :=
    (Throw (rethrow "Failed to create zone" e), svc, w') in
  match validateZoneCreationRequest request with
  | Throw e => fail e w
  | Ok _ =>
  match GeospatialValidator.calculateBoundingBox (req_coordinates request) with
  | Throw e => fail e w
  | Ok bbox =>
  let metadata :=
    mkZoneMeta
      (match req_riskLevel request with
       | Some r => if falsyQ r then getDefaultRiskLevel (req_type request) else r
       | None => getDefaultRiskLevel (req_type request)
       end)
      (req_alertMessage request)
      (Some (default [] (req_emergencyContacts request)))
      (req_createdBy request) (clock w) (clock w) in
  match GeospatialValidator.validateZonePolygon M (req_coordinates request) with
  | Throw e => fail e w
  | Ok coordinates =>
  let zone :=
    mkZone uuid (req_name request) (req_type request) ACTIVE
      (req_description request)
      (coordinatesToGeoJSON (req_coordinates request))
      coordinates bbox (Some metadata) in
  match GeospatialValidator.validateFourCoordinatePolygon coordinates with
  | Throw e => fail e w
  | Ok _ =>
  match checkZoneOverlaps w zone None with
  | (Throw e, w1) => fail e w1
  | (Ok _, w1) =>
  match storeZoneInTile38 w1 zone with
  | (Throw e, w2) => fail e w2
  | (Ok _, w2) => (Ok zone, cacheZone svc (clock w2) zone, w2)
  end end end end end end.
End WithIndex.

End ZoneManagementService.

(** ** GeofenceWebhookService *)

(** What one [axios.post] does: it resolves with a 2xx status, or rejects
    (transport error, timeout, or a status outside 2xx); [elapsed] is the
    time the call took. *)
Inductive HttpOutcome :=
| Resolved (status : Z) (elapsed : Z)
| Rejected (status : option Z) (message : string) (elapsed : Z).

Module GeofenceWebhookService.

Record WebhookDeliveryResult := mkDelivery {
  dr_webhookId : string;
  dr_url : string;
  dr_success : bool;
  dr_statusCode : option Z;
  dr_responseTime : Z;
  dr_error : option string;
  dr_retryCount : Z }.

Record GeofenceDetectionConfig := mkConfig {
  enabled : bool;
  checkInterval : Z;
  batchSize : Z;
  enableHistory : bool;
  maxRetries : Z;
  retryDelay : Z;
  timeoutMs : Z }.

Definition defaultConfig : GeofenceDetectionConfig :=
  mkConfig true 1000 100 true 3 5000 10000.

Record Stats := mkStats {
  eventsDetected : Z;
  webhooksDelivered : Z;
  deliveryFailures : Z;
  averageDeliveryTime : Q }.

Inductive Emission :=
| geofenceEventDetected (event : GeofenceEvent)
| webhookDelivered (result : WebhookDeliveryResult)
| webhookDeliveryFailed (result : WebhookDeliveryResult).

(** [webhooks] is the [Map] in insertion order. *)
Record t := mkService {
  config : GeofenceDetectionConfig;
  webhooks : list (string * WebhookConfig);
  deliveryQueue : list (GeofenceEvent * list WebhookConfig);
  stats : Stats;
  emitted : list Emission }.

Definition setStats (svc : t) (st : Stats) : t :=
  mkService (config svc) (webhooks svc) (deliveryQueue svc) st (emitted svc).

Definition emit (svc : t) (e : Emission) : t :=
  mkService (config svc) (webhooks svc) (deliveryQueue svc) (stats svc)
    (emitted svc ++ [e]).

(** [this.webhooks.get(id)]. *)
Fixpoint webhooksGet (m : list (string * WebhookConfig)) (webhookId : string)
  : option WebhookConfig :=
  match m with
  | [] => None
  | (k, v) :: rest => if decide (k = webhookId) then Some v else webhooksGet rest webhookId
  end.

(** *** Matching *)

Definition isApplicable (event : GeofenceEvent) (webhook : WebhookConfig) : bool :=
  if negb (wh_enabled webhook) then false
  else if match wh_zoneIds webhook with
          | Some zoneIds => negb (includes zoneIds (ev_zoneId event))
          | None => false
          end
  then false
  else if match wh_zoneTypes webhook with
          | Some zoneTypes =>
              negb (match ev_zoneType event with
                    | Some zoneType => includes zoneTypes zoneType
                    | None => false
                    end)
          | None => false
          end
  then false
  else if negb (includes (wh_eventTypes webhook) (ev_eventType event)) then false
  else true.

Definition getApplicableWebhooks (svc : t) (event : GeofenceEvent) : list WebhookConfig :=
  List.filter (isApplicable event) (map snd (webhooks svc)).

Definition processGeofenceEvent (svc : t) (event : GeofenceEvent) : t :=
  let applicableWebhooks := getApplicableWebhooks svc event in
  if (0 <? length applicableWebhooks)%nat
  then
    let st := stats svc in
    mkService (config svc) (webhooks svc)
      (deliveryQueue svc ++ [(event, applicableWebhooks)])
      (mkStats (eventsDetected st + 1) (webhooksDelivered st) (deliveryFailures st)
               (averageDeliveryTime st))
      (emitted svc ++ [geofenceEventDetected event])
  else svc.

(** *** The detector *)

Definition calculateAlertLevel (zone : Zone) : AlertLevel :=
  let riskLevel := ZoneManagementService.metadataRiskLevel zone in
  if Qge_bool riskLevel 9 then critical
  else if Qge_bool riskLevel 7 then high
  else if Qge_bool riskLevel 5 then medium
  else low.

Section Detector.
(** [JSON.parse] of the index's point object, giving its [lon, lat]
    pair, or failing. *)
Variable parsePoint : string -> option (Q * Q).

Definition parseLocationFromTile38Data (now : Z) (userId data : string)
  : LocationPoint :=
  match parsePoint data with
  | Some (lon, lat) => mkLocation userId (mkCoord lat lon) now
  | None => mkLocation userId (mkCoord 0 0) now
  end.

Definition buildEvent (now : Z) (zone : Zone) (userId locationData : string)
  : GeofenceEvent :=
  mkEvent (zone_id zone ++ "-" ++ userId ++ "-" ++ pretty now)
    userId (zone_id zone) (Some (zone_name zone)) (Some (zone_type zone))
    INSIDE
    (parseLocationFromTile38Data now userId locationData)
    now false
    (Some (mkEventMeta (Some (calculateAlertLevel zone)))).

(** [processZoneIntersections]: [users] alternates user ids and location
    objects; [now i] is the clock when the pair at index [i] is handled.
    The second component lists the events constructed, in order. *)
Fixpoint processZoneIntersections (now : nat -> Z) (i : nat) (svc : t) (zone : Zone)
    (users : list string) : t * list GeofenceEvent :=
  match users with
  | userId :: locationData :: rest =>
      if negb (falsyS userId) && negb (falsyS locationData)
      then
        let event := buildEvent (now i) zone userId locationData in
        let '(svc', events) :=
          processZoneIntersections now (i + 2) (processGeofenceEvent svc event)
            zone rest in
        (svc', event :: events)
      else processZoneIntersections now (i + 2) svc zone rest
  | _ => (svc, [])
  end.
End Detector.

(** *** Delivery *)

Definition updateDeliveryStats (svc : t) (responseTime : Z) : t :=
  let st := stats svc in
  let count := webhooksDelivered st + 1 in
  setStats svc
    (mkStats (eventsDetected st) (webhooksDelivered st) (deliveryFailures st)
       ((averageDeliveryTime st * inject_Z (webhooksDelivered st) + inject_Z responseTime)
        / inject_Z count)%Q).

Section Delivery.
(** The outcome of the [n]-th POST of a delivery (counted from 0). *)
Variable http : nat -> HttpOutcome.

(** The [while] loop of [deliverWebhook], entered with [retryCount] and
    with [remaining = maxRetries + 1 - retryCount] iterations left, so
    that [remaining = 0] is the loop condition turned false.  [now] is
    the clock; the call returns it advanced by the POSTs and sleeps. *)
Fixpoint deliverLoop (remaining : nat) (webhook : WebhookConfig) (isTest : bool)
    (startTime : Z) (retryCount : Z) (svc : t) (now : Z)
  : Result WebhookDeliveryResult * t * Z :=
  match remaining with
  | O => (throwKind PlainError "Unexpected webhook delivery state", svc, now)
  | S remaining' =>
      match http (Z.to_nat retryCount) with
      | Resolved status elapsed =>
          let now1 := now + elapsed in
          let responseTime := now1 - startTime in
          let svc1 := updateDeliveryStats svc responseTime in
          let result :=
            mkDelivery (wh_id webhook) (wh_url webhook) true (Some status)
              responseTime None retryCount in
          if negb isTest
          then
            let st := stats svc1 in
            (Ok result,
             emit (setStats svc1
                     (mkStats (eventsDetected st) (webhooksDelivered st + 1)
                              (deliveryFailures st) (averageDeliveryTime st)))
                  (webhookDelivered result),
             now1)
          else (Ok result, svc1, now1)
      | Rejected status message elapsed =>
          let retryCount1 := retryCount + 1 in
          let now1 := now + elapsed in
          let responseTime := now1 - startTime in
          if retryCount1 <=? maxRetries (config svc)
          then
            deliverLoop remaining' webhook isTest startTime retryCount1 svc
              (now1 + retryDelay (config svc) * retryCount1)
          else
            let st := stats svc in
            let svc1 :=
              setStats svc
                (mkStats (eventsDetected st) (webhooksDelivered st)
                         (deliveryFailures st + 1) (averageDeliveryTime st)) in
            let result :=
              mkDelivery (wh_id webhook) (wh_url webhook) false status
                responseTime (Some message) (retryCount1 - 1) in
            if negb isTest
            then (Ok result, emit svc1 (webhookDeliveryFailed result), now1)
            else (Ok result, svc1, now1)
      end
  end.

Definition deliverWebhook (svc : t) (now : Z) (webhook : WebhookConfig)
    (payload : WebhookPayload) (isTest : bool)
  : Result WebhookDeliveryResult * t * Z :=
  deliverLoop (Z.to_nat (maxRetries (config svc) + 1)) webhook isTest now 0 svc now.
End Delivery.

Section Signing.
(** [crypto.createHmac('sha256', secret).update(data).digest('hex')] and
    [JSON.stringify] on an event. *)
Variable hmacSha256Hex : string -> string -> string.
Variable stringify : GeofenceEvent -> string.

Definition generateSignature (event : GeofenceEvent) (secret : option string) : string :=
  match secret with
  | Some s => if falsyS s then "" else hmacSha256Hex s (stringify event)
  | None => ""
  end.

Definition setSignature (payload : WebhookPayload) (signature : string)
  : WebhookPayload :=
  mkPayload (pl_event payload) (pl_zone payload) (pl_user payload)
    (pl_timestamp payload) (Some signature).

(** One callback of the [webhooks.map] in [deliverEventToWebhooks]: the
    one [payload] object is written when the webhook has a (non-empty)
    secret, and then handed to [deliverWebhook], whose first POST is
    issued before the next callback runs.  The state is the payload
    object as it stands; the list collects the bodies of those first
    POSTs. *)
Definition signAndPost (event : GeofenceEvent)
    (acc : WebhookPayload * list (WebhookConfig * WebhookPayload))
    (webhook : WebhookConfig)
  : WebhookPayload * list (WebhookConfig * WebhookPayload) :=
  let '(payload, posts) := acc in
  let payload' :=
    match wh_secret webhook with
    | Some s =>
        if falsyS s then payload
        else setSignature payload (generateSignature event (wh_secret webhook))
    | None => payload
    end in
  (payload', posts ++ [(webhook, payload')]).

(** [deliverEventToWebhooks] up to the first POST of every webhook;
    [zone] is what [zoneService.getZone(event.zoneId)] resolved to. *)
Definition deliverEventToWebhooks (now : Z) (zone : option Zone)
    (event : GeofenceEvent) (webhooks : list WebhookConfig)
  : list (WebhookConfig * WebhookPayload) :=
  match zone with
  | None => []
  | Some zone =>
      let payload :=
        mkPayload event zone (mkPayloadUser (ev_userId event) None) now None in
      (fold_left (signAndPost event) webhooks (payload, [])).2
  end.

Section Test.
Variable http : nat -> HttpOutcome.

Definition testEvent (now : Z) : GeofenceEvent :=
  mkEvent ("test-" ++ pretty now) "test-user" "test-zone" (Some "Test Zone")
    (Some SAFE) ENTER
    (mkLocation "test-user" (mkCoord 28.6129 77.2295) now)
    now false (Some (mkEventMeta (Some low))).

Definition testZone : Zone :=
  mkZone "test-zone" "Test Zone" SAFE ACTIVE None [[]] []
    (mkBBox 0 0 0 0) None.

(** [testWebhook]: any failure inside is rethrown wrapped. *)
Definition testWebhook (svc : t) (now : Z) (webhookId : string)
  : Result WebhookDeliveryResult * t * Z :=
  match webhooksGet (webhooks svc) webhookId with
  | None => (throwKind GeofencingError "Failed to test webhook", svc, now)
  | Some webhook =>
      let payload :=
        mkPayload (testEvent now) testZone
          (mkPayloadUser "test-user" (Some "Test User")) now
          (Some (generateSignature (testEvent now) (wh_secret webhook))) in
      match deliverWebhook http svc now webhook payload true with
      | (Throw _, svc', now') =>
          (throwKind GeofencingError "Failed to test webhook", svc', now')
      | ok => ok
      end
  end.
End Test.
End Signing.

End GeofenceWebhookService.

(** The matching rule in the specification's words: enabled, the event type
    listed, and each of the two filters either empty or containing the
    event's value.  A filter is empty when it is absent or lists nothing. *)
Definition filterEmptyOrHas {A} `{EqDecision A} (filter : option (list A))
    (value : option A) : bool :=
  match filter with
  | None | Some [] => true
  | Some l => match value with Some v => includes l v | None => false end
  end.

Definition specMatches (event : GeofenceEvent) (webhook : WebhookConfig) : bool :=
  wh_enabled webhook
  && includes (wh_eventTypes webhook) (ev_eventType event)
  && filterEmptyOrHas (wh_zoneIds webhook) (Some (ev_zoneId event))
  && filterEmptyOrHas (wh_zoneTypes webhook) (ev_zoneType event).

(** The alert-level table of the specification. *)
Definition alertLevelTable (riskLevel : Q) : AlertLevel :=
  if Qle_bool 9 riskLevel then critical
  else if Qle_bool 7 riskLevel then high
  else if Qle_bool 5 riskLevel then medium
  else low.

(** ** LoadBalancer: the request governor *)

Module LoadBalancer.

Record LoadBalancerConfig := mkConfig {
  maxRequestsPerSecond : Z;
  windowSizeMs : Z;
  retryAttempts : Z;
  retryDelayMs : Z;
  healthCheckIntervalMs : Z }.

Definition defaultConfig : LoadBalancerConfig := mkConfig 1000 1000 3 100 30000.

(** A queued request; the operation it wraps and its promise callbacks
    are not represented. *)
Record RequestQueue := mkRequest {
  rq_id : string;
  rq_priority : Z;
  rq_timestamp : Z;
  rq_retryCount : Z }.

Record LoadBalancerStats := mkStats {
  totalRequests : Z;
  completedRequests : Z;
  failedRequests : Z;
  queuedRequests : Z;
  averageResponseTime : Q;
  requestsPerSecond : Z;
  activeConnections : Z }.

(** [dispatched] records, for every request handed to [processRequest],
    its id and the clock at that moment. *)
Record t := mkBalancer {
  config : LoadBalancerConfig;
  requestQueue : list RequestQueue;
  requestWindow : list Z;
  connectionHealthScores : gmap string Z;
  stats : LoadBalancerStats;
  responseTimes : list Z;
  dispatched : list (string * Z) }.

(** [Array.prototype.sort] with a comparator [key b - key a]: a stable
    sort by decreasing key. *)
Fixpoint insertByKey {A} (key : A -> Z) (x : A) (sorted : list A) : list A :=
  match sorted with
  | [] => [x]
  | y :: rest =>
      if key y <? key x then x :: y :: rest
      else y :: insertByKey key x rest
  end.

Definition sortByKeyDesc {A} (key : A -> Z) (l : list A) : list A :=
  fold_left (fun sorted x => insertByKey key x sorted) l [].

(** *** Health scores *)

(** [this.connectionHealthScores.get(id) || 50]. *)
Definition scoreOrDefault (scores : gmap string Z) (connectionId : string) : Z :=
  match scores !! connectionId with
  | Some score => if falsyZ score then 50 else score
  | None => 50
  end.

Definition updateConnectionHealth (scores : gmap string Z) (connectionId : string)
    (success : bool) (responseTime : Z) : gmap string Z :=
  let currentScore := scoreOrDefault scores connectionId in
  let adjustment :=
    if success
    then if responseTime <? 100 then 5
         else if responseTime <? 500 then 2
         else 1
    else -10 in
  let newScore := Z.max 0 (Z.min 100 (currentScore + adjustment)) in
  <[connectionId := newScore]> scores.

(** The penalty of [performHealthCheck] for one unhealthy connection. *)
Definition penalizeUnhealthy (scores : gmap string Z) (connectionId : string)
  : gmap string Z :=
  <[connectionId := Z.max 0 (scoreOrDefault scores connectionId - 20)]> scores.

(** [getBestConnection]; [availableConnections] is the list of connection
    ids the connection manager reports. *)
Definition getBestConnection (scores : gmap string Z)
    (availableConnections : list string) : Result string :=
  match sortByKeyDesc (scoreOrDefault scores) availableConnections with
  | [] => throwKind PlainError "No connections available"
  | best :: _ => Ok best
  end.

(** *** Rate limiting *)

Definition setWindow (lb : t) (window : list Z) : t :=
  mkBalancer (config lb) (requestQueue lb) window (connectionHealthScores lb)
    (stats lb) (responseTimes lb) (dispatched lb).

Definition canProcessRequest (lb : t) (now : Z) : bool * t :=
  let windowStart := now - windowSizeMs (config lb) in
  let window := List.filter (fun time => windowStart <? time) (requestWindow lb) in
  ((Z.of_nat (length window) <? maxRequestsPerSecond (config lb)), setWindow lb window).

Definition recordRequest (lb : t) (now : Z) : t :=
  setWindow lb (requestWindow lb ++ [now]).

Definition sumZ (l : list Z) : Z := fold_left Z.add l 0.

(** [recordResponseTime], called when a request has completed or failed;
    it is the only caller of [recordRequest]. *)
Definition recordResponseTime (lb : t) (now : Z) (responseTime : Z) : t :=
  let times0 := responseTimes lb ++ [responseTime] in
  let times := if (1000 <? length times0)%nat then drop 1 times0 else times0 in
  let st := stats lb in
  let average :=
    if (0 <? length times)%nat
    then (inject_Z (sumZ times) / inject_Z (Z.of_nat (length times)))%Q
    else averageResponseTime st in
  let recent :=
    Z.of_nat (length (List.filter (fun time => now - time <? 1000) (requestWindow lb))) in
  recordRequest
    (mkBalancer (config lb) (requestQueue lb) (requestWindow lb)
       (connectionHealthScores lb)
       (mkStats (totalRequests st) (completedRequests st) (failedRequests st)
                (queuedRequests st) average recent (activeConnections st))
       times (dispatched lb))
    now.

(** [execute]: enqueue and keep the queue sorted by priority. *)
Definition execute (lb : t) (now : Z) (requestId : string) (priority : Z) : t :=
  let st := stats lb in
  mkBalancer (config lb)
    (sortByKeyDesc rq_priority (requestQueue lb ++ [mkRequest requestId priority now 0]))
    (requestWindow lb) (connectionHealthScores lb)
    (mkStats (totalRequests st + 1) (completedRequests st) (failedRequests st)
             (queuedRequests st + 1) (averageResponseTime st) (requestsPerSecond st)
             (activeConnections st))
    (responseTimes lb) (dispatched lb).

(** How a run of [processQueue] between two sleeps ends. *)
Inductive Pause :=
| QueueEmpty (sleepMs : Z)
| RateLimited (sleepMs : Q).

(** [processQueue] from one [await sleep] to the next.  The loop body has
    no other suspension point: a request is shifted off the queue and
    [processRequest] is started without being awaited, so every iteration
    of such a run sees the clock [now] and the window as the previous one
    left it.  [fuel] bounds the iterations; the queue length plus one is
    enough. *)
Fixpoint processQueueRun (fuel : nat) (lb : t) (now : Z) : t * option Pause :=
  match fuel with
  | O => (lb, None)
  | S fuel' =>
      match requestQueue lb with
      | [] => (lb, Some (QueueEmpty 10))
      | request :: rest =>
          let '(allowed, lb1) := canProcessRequest lb now in
          if negb allowed
          then (lb1,
                Some (RateLimited (inject_Z (windowSizeMs (config lb))
                                   / inject_Z (maxRequestsPerSecond (config lb)))%Q))
          else
            let st := stats lb1 in
            processQueueRun fuel'
              (mkBalancer (config lb1) rest (requestWindow lb1)
                 (connectionHealthScores lb1)
                 (mkStats (totalRequests st) (completedRequests st) (failedRequests st)
                          (queuedRequests st - 1) (averageResponseTime st)
                          (requestsPerSecond st) (activeConnections st))
                 (responseTimes lb1)
                 (dispatched lb1 ++ [(rq_id request, now)]))
              now
      end
  end.

Definition processQueue (lb : t) (now : Z) : t * option Pause :=
  processQueueRun (S (length (requestQueue lb))) lb now.

(** The requests dispatched in the window [(from, from + windowSizeMs]]. *)
Definition dispatchedWithin (lb : t) (from : Z) : nat :=
  length (List.filter
            (fun entry => (from <? entry.2) && (entry.2 <=? from + windowSizeMs (config lb)))
            (dispatched lb)).

End LoadBalancer.

(** The retry protocol of [executeRead] and [executeWrite], read off a run:
    between one and three attempts, each acquiring its own handle; after the
    first attempt a sleep of 1000 ms and after the second one of 2000 ms when
    another attempt follows; a result as soon as an attempt succeeds, and the
    connection error only when three attempts have failed. *)
Definition retryProtocol {T} (exhausted : string) (run : ConnectionManager.Run T) : Prop :=
  exists (outcomes : list bool) (blocks : list (list Effect)),
    Forall2 ConnectionManager.AttemptBlock outcomes blocks /\
    (1 <= length blocks <= 3)%nat /\
    ConnectionManager.run_log run = ConnectionManager.joinAttempts 1 blocks /\
    ConnectionManager.attemptsOf (ConnectionManager.run_log run) = length blocks /\
    ConnectionManager.delaysOf (ConnectionManager.run_log run)
      = take (length blocks - 1) [1000; 2000] /\
    match ConnectionManager.run_result run with
    | Ok _ => exists k, outcomes = replicate k false ++ [true]
    | Throw e =>
        outcomes = [false; false; false] /\
        e = mkExn Tile38ConnectionError exhausted
    end.

(** The polygon invariants other than the vertex count, for a creation
    request in a given world: the request passes the field checks, every
    vertex is in range, the ring is open (so that it is closed
    automatically), the closed ring does not intersect itself, its area lies
    in [100, 10^9] square metres, no zone held by the index overlaps it, and
    the primary connection is up. *)
Definition acceptable (M : MathLib) (w : World)
    (request : ZoneManagementService.ZoneCreationRequest) : Prop :=
  let coordinates := ZoneManagementService.req_coordinates request in
  let ring := GeospatialValidator.autoClose M coordinates in
  ZoneManagementService.validateZoneCreationRequest request = Ok tt
  /\ Forall (fun coord => GeospatialValidator.validateCoordinate coord = Ok true) coordinates
  /\ GeospatialValidator.isClosedPolygon M coordinates = false
  /\ GeospatialValidator.isSelfIntersecting ring = false
  /\ (100 <= GeospatialValidator.calculatePolygonArea M ring <= 1000000000)%Q
  /\ (forall zoneId fields existing,
        serverZones w !! zoneId = Some (fields, existing) ->
        GeospatialValidator.polygonsOverlap ring existing = false)
  /\ primaryConnected (pool w) = true.

(** The head of the list carries a largest key. *)
Definition headLargest {A} (key : A -> Z) (l : list A) : Prop :=
  match l with
  | [] => True
  | h :: _ => forall y, In y l -> key y <= key h
  end.

(** ** Concrete data used by the examples *)

Module Examples.

(** The square of the test suite ([geofencing.test.ts]), in New Delhi. *)
Definition delhiSquare : list Coordinate :=
  [mkCoord 28.6139 77.2090; mkCoord 28.6139 77.2100;
   mkCoord 28.6149 77.2100; mkCoord 28.6149 77.2090].

Definition delhiFields : ZoneFields :=
  mkZoneFields "Test Safety Zone" SAFE ACTIVE "Test zone for validation" 2
    "test" 1700000000000 1700000000000.

(** A pool with its primary connected and no replica, an empty index. *)
Definition worldUp : World := mkWorld (mkPool true [] 0) ∅ 1700000000000.

(** The same with the test zone stored in the index. *)
Definition worldWithZone : World :=
  mkWorld (mkPool true [] 0) {[ "test-zone-1" := (delhiFields, delhiSquare) ]}
    1700000000000.

Definition freshService : ZoneManagementService.t :=
  ZoneManagementService.mkService ∅ ∅.

(** Small-angle forms of the [Math] functions, accurate to about 1e-9 for
    the rings below, which lie within a tenth of a degree of the equator:
    [sin x = x], [cos x = 1 - x^2/2], [atan2 y x = y / x] for [x > 0], and
    the square root to twelve decimals. *)
Definition smallAngleMath : MathLib :=
  mkMath (355 # 113)
    (fun x => x)
    (fun x => 1 - x * x / 2)%Q
    (fun x => if Qle_bool x 0 then 0%Q
              else Qred (Z.sqrt (Qnum x * 10 ^ 24 / Zpos (Qden x)) # 1000000000000))
    (fun y x => if Qle_bool x 0 then 0 else y / x)%Q.

(** The server's bounds test, here answering with every stored zone. *)
Definition everyZone : BoundingBox -> list Coordinate -> bool := fun _ _ => true.

(** Three vertices about 111 m apart: an open ring of some 6000 m^2. *)
Definition triangle : list Coordinate :=
  [mkCoord 0.001 0.001; mkCoord 0.001 0.002; mkCoord 0.002 0.002].

(** One hundred vertices in units of 1/64 degree: a saw blade whose 98
    teeth points alternate between latitudes 2/64 and 3/64 while the longitude
    runs from 0 to 97/64, closed below by the corners (0, 97/64) and (0, 0).
    An open, simple ring of some 730 km^2. *)
Definition ring100 : list Coordinate :=
  map (fun i => mkCoord (inject_Z (2 + Z.of_nat (i mod 2)) / 64)
                        (inject_Z (Z.of_nat i) / 64))
      (seq 0 98)
  ++ [mkCoord 0 (97 # 64); mkCoord 0 0].

Definition requestFor (coordinates : list Coordinate)
  : ZoneManagementService.ZoneCreationRequest :=
  ZoneManagementService.mkRequest "Equator Zone" SAFE None coordinates
    (Some 2%Q) None None "admin".

(** A webhook subscribed to [inside] events, with the given secret and
    zone-id filter. *)
Definition webhook (webhookId : string) (secret : option string)
    (zoneIds : option (list string)) : WebhookConfig :=
  mkWebhook webhookId "ops" ("https://hooks.example/" ++ webhookId) secret true
    zoneIds None [INSIDE] (mkRetryConfig 3 5000 false) [] 1700000000000 1700000000000.

Definition insideEvent : GeofenceEvent :=
  mkEvent "test-zone-1-U1-1700000000000" "U1" "test-zone-1" (Some "Test Safety Zone")
    (Some SAFE) INSIDE (mkLocation "U1" (mkCoord 28.6144 77.2095) 1700000000000)
    1700000000000 false (Some (mkEventMeta (Some low))).

Definition webhookService (hooks : list WebhookConfig) : GeofenceWebhookService.t :=
  GeofenceWebhookService.mkService GeofenceWebhookService.defaultConfig
    (map (fun w => (wh_id w, w)) hooks) []
    (GeofenceWebhookService.mkStats 0 0 0 0) [].

Definition riskyZone : Zone :=
  mkZone "zone-9" "Cliff Edge" HIGH_RISK ACTIVE None [] delhiSquare
    (mkBBox 28.6139 77.2090 28.6149 77.2100)
    (Some (mkZoneMeta 9 None None "admin" 1700000000000 1700000000000)).

(** [WITHIN] reply for one user, and a parser that knows that one point. *)
Definition usersInZone : list string :=
  ["U1"; "{'type':'Point','coordinates':[77.2095,28.6144]}"].

Definition parsePoint (data : string) : option (Q * Q) :=
  if decide (data = "{'type':'Point','coordinates':[77.2095,28.6144]}")
  then Some (77.2095, 28.6144)%Q else None.

(** Every POST rejected with a 500 after 120 ms; every POST answered 200
    after 40 ms. *)
Definition rejectingHttp : nat -> HttpOutcome :=
  fun _ => Rejected (Some 500) "Request failed with status code 500" 120.

Definition resolvingHttp : nat -> HttpOutcome := fun _ => Resolved 200 40.

(** Scenario 6 of the specification: a cap of 10 requests per second and
    100 reads queued at once. *)
Definition cappedAtTen : LoadBalancer.LoadBalancerConfig :=
  LoadBalancer.mkConfig 10 1000 3 100 30000.

Definition hundredQueued : LoadBalancer.t :=
  LoadBalancer.mkBalancer cappedAtTen
    (map (fun i => LoadBalancer.mkRequest ("req_" ++ pretty i) 0 5000 0) (seq 0 100))
    [] ∅ (LoadBalancer.mkStats 100 0 0 100 0 0 1) [] [].

(** Five failed requests in a row on a connection not seen before. *)
Definition afterFiveFailures : gmap string Z :=
  Nat.iter 5 (fun scores => LoadBalancer.updateConnectionHealth scores "primary" false 800)
    ∅.

(** An operation whose every call rejects. *)
Definition alwaysRejects : ConnectionManager.Operation unit :=
  fun _ w => (throwKind PlainError "Query timeout", w).

End Examples.

(** ** ConnectionManager: the list a read chooses from, and reads in a row *)

Module ReadConnections.

(** [availableConnections] of [getReadConnection]: the primary when it is
    connected, then the connected replicas in pool order. *)
Definition availableConnections (p : Pool) : list Handle :=
  (if primaryConnected p then [Primary] else []) ++ ConnectionManager.connectedReplicas p.

(** [k] calls of [getReadConnection], one after the other; what each
    returned, in call order. *)
Fixpoint consecutiveReads (k : nat) (w : World) : list (Result Handle) :=
  match k with
  | O => []
  | S k' =>
      let '(r, w') := ConnectionManager.getReadConnection w in
      r :: consecutiveReads k' w'
  end.

End ReadConnections.

(** ** [Array.prototype.slice] *)

(** The relative index of [slice]: a negative argument counts from the end,
    and the result is clamped to [0 .. len]. *)
Definition relativeIndex (len : nat) (k : Z) : nat :=
  if k <? 0 then Z.to_nat (Z.max (Z.of_nat len + k) 0)
  else Nat.min (Z.to_nat k) len.

(** [l.slice(start, end)] on integer arguments; [None] is an omitted [end]. *)
Definition slice {A} (l : list A) (start : Z) (finish : option Z) : list A :=
  let from := relativeIndex (length l) start in
  let to := match finish with
            | Some e => relativeIndex (length l) e
            | None => length l
            end in
  take (to - from) (drop from l).

(** ** Tile38Service: connecting *)

Module Tile38Connection.

(** The fields of the service that [connect] reads and writes.  [slept]
    lists the delays awaited so far and [pings] counts the connection
    attempts made; both are there to be observed. *)
Record t := mkConnection {
  isConnected : bool;
  connectionRetries : Z;
  retryDelay : Z;
  slept : list Z;
  pings : nat }.

Definition maxRetries : Z := 5.

(** A service as its constructor leaves it. *)
Definition initial : t := mkConnection false 0 1000 [] 0.

(** [connect]; [ping n] tells whether the [n]-th connection attempt of the
    service's life succeeds.  The method calls itself after a failure while
    [connectionRetries < maxRetries]; [fuel] bounds that recursion and
    [None] is returned when it runs out before the method has returned. *)
Fixpoint connectLoop (fuel : nat) (ping : nat -> bool) (c : t)
  : option (Result unit * t) :=
  match fuel with
  | O => None
  | S fuel' =>
      if ping (pings c)
      then Some (Ok tt, mkConnection true 0 (retryDelay c) (slept c) (S (pings c)))
      else
        let retries := connectionRetries c + 1 in
        if retries <? maxRetries
        then
          connectLoop fuel' ping
            (mkConnection false retries (retryDelay c * 2)
               (slept c ++ [retryDelay c]) (S (pings c)))
        else
          Some (throwKind Tile38ConnectionError "Max connection retries exceeded",
                mkConnection false retries (retryDelay c) (slept c) (S (pings c)))
  end.

(** Five calls are enough from any non-negative retry count. *)
Definition connect (ping : nat -> bool) (c : t) : option (Result unit * t) :=
  connectLoop (Z.to_nat maxRetries) ping c.

(** [handleReconnection]: a failure of [connect] is logged and dropped. *)
Definition handleReconnection (ping : nat -> bool) (c : t) : option t :=
  if negb (isConnected c) && (connectionRetries c <? maxRetries)
  then
    snd <$> connect ping
              (mkConnection (isConnected c) (connectionRetries c) (retryDelay c)
                 (slept c ++ [retryDelay c]) (pings c))
  else Some c.

End Tile38Connection.

(** ** GeospatialValidator: simplification *)

Module Simplification.
Section WithMath.
Variable M : MathLib.

Definition pointToLineDistance (point lineStart lineEnd : Coordinate) : Q :=
  let A := (longitude point - longitude lineStart)%Q in
  let B := (latitude point - latitude lineStart)%Q in
  let C := (longitude lineEnd - longitude lineStart)%Q in
  let D := (latitude lineEnd - latitude lineStart)%Q in
  let dot := (A * C + B * D)%Q in
  let lenSq := (C * C + D * D)%Q in
  let param := if negb (Qeq_bool lenSq 0) then (dot / lenSq)%Q else (-1)%Q in
  let '(xx, yy) :=
    if Qlt_bool param 0 then (longitude lineStart, latitude lineStart)
    else if Qgt_bool param 1 then (longitude lineEnd, latitude lineEnd)
    else ((longitude lineStart + param * C)%Q, (latitude lineStart + param * D)%Q) in
  let dx := (longitude point - xx)%Q in
  let dy := (latitude point - yy)%Q in
  Math_sqrt M (dx * dx + dy * dy).

(** The [for] loop of [simplifyPolygon] and the [push] after it: [prev] is
    the last coordinate kept, [pending] holds [coordinates[i ..]]; the last
    coordinate is never tested and always kept. *)
Fixpoint simplifyLoop (tolerance : Q) (prev : Coordinate) (pending : list Coordinate)
  : list Coordinate :=
  match pending with
  | [] => []
  | [lastCoordinate] => [lastCoordinate]
  | current :: ((next :: _) as rest) =>
      if Qgt_bool (pointToLineDistance current prev next) tolerance
      then current :: simplifyLoop tolerance current rest
      else simplifyLoop tolerance prev rest
  end.

Definition simplifyPolygon (coordinates : list Coordinate) (tolerance : Q)
  : list Coordinate :=
  if (length coordinates <=? 3)%nat then coordinates
  else
    match coordinates with
    | [] => []
    | first :: rest => first :: simplifyLoop tolerance first rest
    end.

End WithMath.
End Simplification.

(** ** BulkLocationProcessor: cutting a batch into chunks *)

Module BulkLocationProcessor.

Record QueueItem := mkItem {
  item_location : LocationPoint;
  item_timestamp : Z;
  item_retryCount : Z }.

Record BatchConfig := mkBatchConfig {
  batchSize : Z;
  maxWaitTime : Z;
  maxRetries : Z;
  concurrency : Z }.

Definition defaultConfig : BatchConfig := mkBatchConfig 100 1000 3 5.

(** [Math.ceil(length / concurrency)] on integers; [None] is [Infinity],
    the quotient of a positive length by zero. *)
Definition chunkSize (len : nat) (concurrency : Z) : option Z :=
  if concurrency =? 0 then None
  else Some (- ((- Z.of_nat len) / concurrency)).

(** [chunkArray]: the loop [for (i = 0; i < array.length; i += size)].
    [fuel] bounds the iterations; [None] is returned when it runs out,
    which is the case for every amount of fuel when the loop does not
    end. *)
Fixpoint chunkLoop {A} (fuel : nat) (array : list A) (size : option Z) (i : Z)
  : option (list (list A)) :=
  match fuel with
  | O => None
  | S fuel' =>
      if i <? Z.of_nat (length array)
      then
        match size with
        | None => Some [slice array i None]
        | Some n =>
            chunks ← chunkLoop fuel' array size (i + n);
            Some (slice array i (Some (i + n)) :: chunks)
        end
      else Some []
  end.

Definition chunkArray {A} (array : list A) (size : option Z) : option (list (list A)) :=
  chunkLoop (S (length array)) array size 0.

(** [processLocationBatch] up to the calls of [processChunk]: the chunks
    that are handed to it, each to be run on its own. *)
Definition processLocationBatch (config : BatchConfig) (batch : list QueueItem)
  : option (list (list QueueItem)) :=
  chunkArray batch (chunkSize (length batch) (concurrency config)).

End BulkLocationProcessor.

(** ** ZoneManagementService: searching and updating *)

Module ZoneSearch.

Record RiskLevelRange := mkRiskRange { rl_min : option Q; rl_max : option Q }.

Record ZoneSearchQuery := mkQuery {
  q_type : option ZoneType;
  q_status : option ZoneStatus;
  q_boundingBox : option BoundingBox;
  q_intersectsPoint : option Coordinate;
  q_intersectsPolygon : option (list Coordinate);
  q_riskLevel : option RiskLevelRange;
  q_createdBy : option string;
  q_limit : option Z;
  q_offset : option Z }.

Definition riskLevelInRange (range : RiskLevelRange) (zone : Zone) : bool :=
  let riskLevel := ZoneManagementService.metadataRiskLevel zone in
  if match rl_min range with Some lowest => Qlt_bool riskLevel lowest | None => false end
  then false
  else if match rl_max range with Some highest => Qgt_bool riskLevel highest | None => false end
  then false
  else true.

Definition createdByIs (creator : string) (zone : Zone) : bool :=
  match zone_metadata zone with
  | Some metadata => bool_decide (createdBy metadata = creator)
  | None => false
  end.

(** The four filters of [applyZoneFilters], before pagination.  The zone
    types and statuses are non-empty strings, so a present [type] or
    [status] is truthy; an empty [createdBy] is not. *)
Definition matching (zones : list Zone) (query : ZoneSearchQuery) : list Zone :=
  let filtered := zones in
  let filtered :=
    match q_type query with
    | Some type => List.filter (fun zone => bool_decide (zone_type zone = type)) filtered
    | None => filtered
    end in
  let filtered :=
    match q_status query with
    | Some status => List.filter (fun zone => bool_decide (zone_status zone = status)) filtered
    | None => filtered
    end in
  let filtered :=
    match q_riskLevel query with
    | Some range => List.filter (riskLevelInRange range) filtered
    | None => filtered
    end in
  match q_createdBy query with
  | Some creator =>
      if falsyS creator then filtered else List.filter (createdByIs creator) filtered
  | None => filtered
  end.

Definition applyZoneFilters (zones : list Zone) (query : ZoneSearchQuery) : list Zone :=
  let filtered := matching zones query in
  let filtered :=
    match q_offset query with
    | Some offset => if falsyZ offset then filtered else slice filtered offset None
    | None => filtered
    end in
  match q_limit query with
  | Some limit => if falsyZ limit then filtered else slice filtered 0 (Some limit)
  | None => filtered
  end.

(** The query with its pagination fields replaced. *)
Definition paged (query : ZoneSearchQuery) (offset limit : option Z) : ZoneSearchQuery :=
  mkQuery (q_type query) (q_status query) (q_boundingBox query) (q_intersectsPoint query)
    (q_intersectsPolygon query) (q_riskLevel query) (q_createdBy query) limit offset.

End ZoneSearch.

Module ZoneUpdate.

Record ZoneUpdateRequest := mkUpdate {
  upd_id : string;
  upd_name : option string;
  upd_type : option ZoneType;
  upd_status : option ZoneStatus;
  upd_description : option string;
  upd_coordinates : option (list Coordinate);
  upd_riskLevel : option Q;
  upd_alertMessage : option string;
  upd_emergencyContacts : option (list string);
  upd_updatedBy : string }.

(** The [updatedZone] object but for its coordinates, bounding box and
    geometry.  The spread of the existing metadata keeps [createdBy] and
    [createdAt]; a zone without metadata, which [getZone] never returns,
    has them missing, which shows here as the empty string and 0, the
    values [storeZoneInTile38] sends for them. *)
Definition updatedMetadata (existingZone : Zone) (request : ZoneUpdateRequest) (now : Z)
  : ZoneMetadata :=
  mkZoneMeta
    (match upd_riskLevel request with
     | Some r => r
     | None => ZoneManagementService.metadataRiskLevel existingZone
     end)
    (match upd_alertMessage request with
     | Some message => Some message
     | None => zone_metadata existingZone ≫= alertMessage
     end)
    (Some (match upd_emergencyContacts request with
           | Some contacts => contacts
           | None => default [] (zone_metadata existingZone ≫= emergencyContacts)
           end))
    (from_option createdBy "" (zone_metadata existingZone))
    (from_option createdAt 0 (zone_metadata existingZone))
    now.

Section WithIndex.
Variable serverIntersects : BoundingBox -> list Coordinate -> bool.
Variable M : MathLib.

(** [updateZone].  As in [createZone], [validateZonePolygon] may push the
    closing coordinate onto the array that the zone object shares with the
    request; the record is assembled once that array has its final
    content, while the bounding box and the geometry come from the array
    as the request had it. *)
Definition updateZone (svc : ZoneManagementService.t) (w : World)
    (request : ZoneUpdateRequest) : ZoneManagementService.Outcome Zone :=
  let '(found, svc1, w1) := ZoneManagementService.getZone svc w (upd_id request) in
  let fail (e : Exn) (w' : World) : ZoneManagementService.Outcome Zone :=
    (Throw (ZoneManagementService.rethrow "Failed to update zone" e), svc1, w') in
  match found with
  | Ok (Some existingZone) =>
      let assemble (coordinates : list Coordinate) (bbox : BoundingBox)
          (geometry : list (list (Q * Q))) : Zone :=
        mkZone (zone_id existingZone)
          (match upd_name request with
           | Some name => if falsyS name then zone_name existingZone else name
           | None => zone_name existingZone
           end)
          (default (zone_type existingZone) (upd_type request))
          (default (zone_status existingZone) (upd_status request))
          (match upd_description request with
           | Some description => Some description
           | None => zone_description existingZone
           end)
          geometry coordinates bbox
          (Some (updatedMetadata existingZone request (clock w1))) in
      let store (updatedZone : Zone) (w' : World) : ZoneManagementService.Outcome Zone :=
        match ZoneManagementService.storeZoneInTile38 w' updatedZone with
        | (Throw e, w2) => fail e w2
        | (Ok _, w2) =>
            (Ok updatedZone,
             ZoneManagementService.cacheZone svc1 (clock w2) updatedZone, w2)
        end in
      match upd_coordinates request with
      | None =>
          store (assemble (zone_coordinates existingZone) (zone_boundingBox existingZone)
                   (zone_geometry existingZone)) w1
      | Some requested =>
          match GeospatialValidator.calculateBoundingBox requested with
          | Throw e => fail e w1
          | Ok bbox =>
          match GeospatialValidator.validateZonePolygon M requested with
          | Throw e => fail e w1
          | Ok coordinates =>
          let updatedZone :=
            assemble coordinates bbox
              (ZoneManagementService.coordinatesToGeoJSON requested) in
          match GeospatialValidator.validateFourCoordinatePolygon coordinates with
          | Throw e => fail e w1
          | Ok _ =>
          match ZoneManagementService.checkZoneOverlaps serverIntersects w1 updatedZone
                  (Some (upd_id request)) with
          | (Throw e, w2) => fail e w2
          | (Ok _, w2) => store updatedZone w2
          end end end end
      end
  | Ok None =>
      (throwKind ZoneValidationError ("Zone not found: " ++ upd_id request), svc1, w1)
  | Throw e => fail e w1
  end.
End WithIndex.

End ZoneUpdate.

(** ** A server that may fail to answer

    The operations of [ZoneManagementService] above are those of a server
    that answers every command it is sent.  Here a command may also be
    rejected: the server applies it and the answer is lost, or the server
    does not apply it.  What the server does is a function of the clock
    reading at which the command is sent, one function for reads and one
    for writes; the attempts of a retry loop are separated by sleeps and so
    meet the server at different readings. *)

Inductive ServerReply := Answered | AppliedUnanswered | Unapplied.

Module Unreliable.
Section WithServer.
Variable readReply : Z -> ServerReply.
Variable writeReply : Z -> ServerReply.
Variable serverIntersects : BoundingBox -> list Coordinate -> bool.
Variable M : MathLib.

(** The rejection of [client.call]. *)
Definition rejection {T} : Result T := throwKind PlainError "Connection is closed.".

(** [SET zones <id> FIELD ... POLYGON ...]. *)
Definition opSet (zone : Zone) : ConnectionManager.Operation unit :=
  fun h w =>
    match writeReply (clock w) with
    | Answered => ZoneManagementService.opSet zone h w
    | AppliedUnanswered => (rejection, (ZoneManagementService.opSet zone h w).2)
    | Unapplied => (rejection, w)
    end.

(** [INTERSECTS zones LIMIT n BOUNDS ...], with the reply parsed; a read
    changes nothing on the server, answered or not. *)
Definition opIntersectsBounds (limit : nat) (bbox : BoundingBox)
  : ConnectionManager.Operation (list Zone) :=
  fun h w =>
    match readReply (clock w) with
    | Answered => ZoneManagementService.opIntersectsBounds serverIntersects limit bbox h w
    | AppliedUnanswered | Unapplied => (rejection, w)
    end.

Definition searchByBounds (w : World) (bbox : BoundingBox)
  : Result (list Zone) * World :=
  let run := ConnectionManager.executeRead (opIntersectsBounds 100 bbox) w in
  match ConnectionManager.run_result run with
  | Ok zones =>
      (Ok (filter (fun zone => zone_status zone = ACTIVE) zones),
       ConnectionManager.run_world run)
  | Throw _ =>
      (throwKind ZoneValidationError "Failed to search zones",
       ConnectionManager.run_world run)
  end.

Definition checkZoneOverlaps (w : World) (zone : Zone) (excludeZoneId : option string)
  : Result unit * World :=
  match searchByBounds w (zone_boundingBox zone) with
  | (Ok overlappingZones, w1) =>
      (ZoneManagementService.overlapLoop (zone_coordinates zone) excludeZoneId
         overlappingZones, w1)
  | (Throw e, w1) => (Throw e, w1)
  end.

Definition storeZoneInTile38 (w : World) (zone : Zone) : Result unit * World :=
  let run := ConnectionManager.executeWrite (opSet zone) w in
  (ConnectionManager.run_result run, ConnectionManager.run_world run).

(** [createZone], as in [ZoneManagementService] but for the server. *)
Definition createZone (svc : ZoneManagementService.t) (w : World) (uuid : string)
    (request : ZoneManagementService.ZoneCreationRequest)
  : ZoneManagementService.Outcome Zone :=
  let fail (e : Exn) (w' : World) : ZoneManagementService.Outcome Zone :=
    (Throw (ZoneManagementService.rethrow "Failed to create zone" e), svc, w') in
  match ZoneManagementService.validateZoneCreationRequest request with
  | Throw e => fail e w
  | Ok _ =>
  match GeospatialValidator.calculateBoundingBox
          (ZoneManagementService.req_coordinates request) with
  | Throw e => fail e w
  | Ok bbox =>
  let metadata :=
    mkZoneMeta
      (match ZoneManagementService.req_riskLevel request with
       | Some r =>
           if falsyQ r
           then ZoneManagementService.getDefaultRiskLevel
                  (ZoneManagementService.req_type request)
           else r
       | None =>
           ZoneManagementService.getDefaultRiskLevel
             (ZoneManagementService.req_type request)
       end)
      (ZoneManagementService.req_alertMessage request)
      (Some (default [] (ZoneManagementService.req_emergencyContacts request)))
      (ZoneManagementService.req_createdBy request) (clock w) (clock w) in
  match GeospatialValidator.validateZonePolygon M
          (ZoneManagementService.req_coordinates request) with
  | Throw e => fail e w
  | Ok coordinates =>
  let zone :=
    mkZone uuid (ZoneManagementService.req_name request)
      (ZoneManagementService.req_type request) ACTIVE
      (ZoneManagementService.req_description request)
      (ZoneManagementService.coordinatesToGeoJSON
         (ZoneManagementService.req_coordinates request))
      coordinates bbox (Some metadata) in
  match GeospatialValidator.validateFourCoordinatePolygon coordinates with
  | Throw e => fail e w
  | Ok _ =>
  match checkZoneOverlaps w zone None with
  | (Throw e, w1) => fail e w1
  | (Ok _, w1) =>
  match storeZoneInTile38 w1 zone with
  | (Throw e, w2) => fail e w2
  | (Ok _, w2) => (Ok zone, ZoneManagementService.cacheZone svc (clock w2) zone, w2)
  end end end end end end.

End WithServer.
End Unreliable.

(** ** GeofenceWebhookService: the periodic sweep *)

Module Detection.
Section WithServer.
Variable parsePoint : string -> option (Q * Q).
(** The reply to [WITHIN tourists POLYGON ...] for a ring: its users
    array, alternating user ids and location objects, or [None] when the
    reply is no array of more than one element. *)
Variable serverWithin : list Coordinate -> option (list string).

(** [SCAN zones LIMIT n], with the reply parsed. *)
Definition opScan (limit : Z) : ConnectionManager.Operation (list Zone) :=
  fun _ w =>
    (Ok (ZoneManagementService.parseZonesFromTile38Results
           (take (Z.to_nat limit) (map_to_list (serverZones w)))), w).

(** [getActiveZones(limit)], that is [searchZones] on the query
    [{status: ACTIVE, limit}]: with neither a point nor a bounding box the
    zones come from [SCAN ... LIMIT (limit || 100)], and the filters are
    applied to what was parsed. *)
Definition getActiveZones (w : World) (limit : Z) : Result (list Zone) * World :=
  let query :=
    ZoneSearch.mkQuery None (Some ACTIVE) None None None None None (Some limit) None in
  let run :=
    ConnectionManager.executeRead (opScan (if falsyZ limit then 100 else limit)) w in
  match ConnectionManager.run_result run with
  | Ok zones =>
      (Ok (ZoneSearch.applyZoneFilters zones query), ConnectionManager.run_world run)
  | Throw _ =>
      (throwKind ZoneValidationError "Failed to search zones",
       ConnectionManager.run_world run)
  end.

Definition opWithin (zone : Zone) : ConnectionManager.Operation (option (list string)) :=
  fun _ w => (Ok (serverWithin (zone_coordinates zone)), w).

(** The [for] loop of [checkGeofenceEvents] over the zones; a read that
    fails throws out of the loop into the method's [catch], which ends the
    sweep.  The clock does not move while the users of one zone are
    handled.  The third component lists the events constructed. *)
Fixpoint sweepZones (svc : GeofenceWebhookService.t) (w : World) (zones : list Zone)
  : GeofenceWebhookService.t * World * list GeofenceEvent :=
  match zones with
  | [] => (svc, w, [])
  | zone :: rest =>
      let run := ConnectionManager.executeRead (opWithin zone) w in
      let w1 := ConnectionManager.run_world run in
      match ConnectionManager.run_result run with
      | Throw _ => (svc, w1, [])
      | Ok None => sweepZones svc w1 rest
      | Ok (Some users) =>
          let '(svc1, events) :=
            GeofenceWebhookService.processZoneIntersections parsePoint
              (fun _ => clock w1) 0 svc zone users in
          let '(svc2, w2, later) := sweepZones svc1 w1 rest in
          (svc2, w2, events ++ later)
      end
  end.

(** [checkGeofenceEvents]: one tick of the detector. *)
Definition checkGeofenceEvents (svc : GeofenceWebhookService.t) (w : World)
  : GeofenceWebhookService.t * World * list GeofenceEvent :=
  match getActiveZones w (GeofenceWebhookService.batchSize
                            (GeofenceWebhookService.config svc)) with
  | (Ok zones, w1) => sweepZones svc w1 zones
  | (Throw _, w1) => (svc, w1, [])
  end.

End WithServer.
End Detection.

(** ** Further data for the examples *)

Module Scenarios.

(** No connection up, and the test zone in the index. *)
Definition worldDown : World :=
  mkWorld (mkPool false [false; false] 0)
    {[ "test-zone-1" := (Examples.delhiFields, Examples.delhiSquare) ]} 1700000000000.

(** The primary down and the second of two replicas up. *)
Definition poolOnReplica : Pool := mkPool false [false; true] 7.

(** The primary and both replicas up. *)
Definition worldThree : World := mkWorld (mkPool true [true; true] 4) ∅ 1700000000000.

Definition zoneOfType (zoneId : string) (type : ZoneType) (risk : Q) : Zone :=
  mkZone zoneId ("Zone " ++ zoneId) type ACTIVE None [] Examples.delhiSquare
    (mkBBox 28.6139 77.2090 28.6149 77.2100)
    (Some (mkZoneMeta risk None None "admin" 1700000000000 1700000000000)).

Definition fiveZones : list Zone :=
  [zoneOfType "a" SAFE 2; zoneOfType "b" RESTRICTED 7; zoneOfType "c" RESTRICTED 8;
   zoneOfType "d" HIGH_RISK 9; zoneOfType "e" RESTRICTED 7].

Definition restrictedOnly : ZoneSearch.ZoneSearchQuery :=
  ZoneSearch.mkQuery (Some RESTRICTED) None None None None None None None None.

(** A request that changes the risk level of the test zone and nothing
    else. *)
Definition riskUpdate (risk : Q) : ZoneUpdate.ZoneUpdateRequest :=
  ZoneUpdate.mkUpdate "test-zone-1" None None None None None (Some risk) None None "admin".

(** Ten requests completed within the last second under a cap of ten, and
    one request waiting. *)
Definition saturated : LoadBalancer.t :=
  LoadBalancer.mkBalancer Examples.cappedAtTen
    [LoadBalancer.mkRequest "req_waiting" 0 4990 0]
    (replicate 10 4995) ∅ (LoadBalancer.mkStats 11 10 0 1 0 10 1) [] [].

Definition twelveItems : list BulkLocationProcessor.QueueItem :=
  map (fun i =>
         BulkLocationProcessor.mkItem
           (mkLocation ("U" ++ pretty i) (mkCoord 28.6144 77.2095) 1700000000000)
           1700000000000 0)
      (seq 0 12).

Definition insidePayload : WebhookPayload :=
  mkPayload Examples.insideEvent Examples.riskyZone (mkPayloadUser "U1" None)
    1700000000000 None.

(** Two POSTs rejected with a 503, the third answered 200. *)
Definition flakyHttp : nat -> HttpOutcome :=
  fun n => if (n <? 2)%nat then Rejected (Some 503) "Service Unavailable" 30
           else Resolved 200 40.

(** The primary up and a zone with the ring of [Examples.triangle], closed,
    in the index, stored as inactive. *)
Definition worldWithTriangle : World :=
  mkWorld (mkPool true [] 0)
    {[ "zone-near" :=
         (mkZoneFields "Old Zone" SAFE INACTIVE "" 2 "admin" 1600000000000 1600000000000,
          Examples.triangle ++ take 1 Examples.triangle) ]}
    1700000000000.

(** An index that holds a safe zone created with risk level 2 (the zone
    of the specification's first scenario) and a high-risk zone created
    with risk level 9, both active. *)
Definition sweepWorld : World :=
  mkWorld (mkPool true [] 0)
    {[ "zone-safe" := (Examples.delhiFields, Examples.delhiSquare);
       "zone-cliff" :=
         (mkZoneFields "Cliff Edge" HIGH_RISK ACTIVE "" 9 "admin"
            1700000000000 1700000000000,
          Examples.delhiSquare) ]}
    1700000000000.

(** The user U1 is inside every ring asked about. *)
Definition withinReply : list Coordinate -> option (list string) :=
  fun _ => Some Examples.usersInZone.

(** A server that applies every write and whose answers are all lost. *)
Definition answersLost : Z -> ServerReply := fun _ => AppliedUnanswered.
Definition answersAll : Z -> ServerReply := fun _ => Answered.

(** A server that answers from the third connection attempt on, and one
    that never answers. *)
Definition upAtThird : nat -> bool := fun n => (2 <=? n)%nat.
Definition neverUp : nat -> bool := fun _ => false.

End Scenarios.

(** * Properties *)

(** ** Arithmetic and list helpers *)

Lemma Qlt_bool_iff a b : Qlt_bool a b = true <-> (a < b)%Q.
Proof.
  unfold Qlt_bool. rewrite negb_true_iff.
  split.
  - intros H. apply Qnot_le_lt. intros Hle.
    apply Qle_bool_iff in Hle. congruence.
  - intros H. destruct (Qle_bool b a) eqn:E; [|reflexivity].
    apply Qle_bool_iff in E. exfalso. eapply Qlt_not_le; eauto.
Qed.

Lemma falsyQ_iff x : falsyQ x = true <-> (x == 0)%Q.
Proof. unfold falsyQ. apply Qeq_bool_iff. Qed.

Lemma includes_In {A} `{EqDecision A} (l : list A) (x : A) :
  includes l x = true <-> In x l.
Proof.
  unfold includes. rewrite existsb_exists. split.
  - intros (y & Hy & Hd). destruct (decide (y = x)); [subst; auto | discriminate].
  - intros Hin. exists x. split; [auto|]. destruct (decide (x = x)); congruence.
Qed.

(** ** Tile38Service *)

Lemma validateVertices_zero coords :
  forall index,
    (exists c, In c coords /\ ((latitude c == 0)%Q \/ (longitude c == 0)%Q)) ->
    throwsKind ZoneValidationError (Tile38Service.validateVertices coords index).
Proof.
  induction coords as [|coord rest IH]; intros index (c & Hin & Hz).
  - destruct Hin.
  - simpl. destruct (falsyQ (latitude coord) || falsyQ (longitude coord)) eqn:E.
    + eexists. reflexivity.
    + apply IH. exists c. split; [|exact Hz].
      destruct Hin as [->|Hin]; [|exact Hin].
      apply orb_false_iff in E. destruct E as [E1 E2].
      destruct Hz as [Hz|Hz]; apply falsyQ_iff in Hz; congruence.
Qed.

(** C10. [Tile38Service.createZone] throws a [ZoneValidationError], and
    leaves the service untouched, for every zone that has a vertex whose
    latitude is 0 or whose longitude is 0, whatever the connection state and
    whatever the server would have answered: the vertex check reads the
    number 0 as a missing coordinate. *)
Theorem createZone_rejects_zero_coordinate :
  forall (svc : Tile38Service.t) (outcome : option string) (latency : Z)
         (zone : Zone) (c : Coordinate),
    In c (zone_coordinates zone) ->
    (latitude c == 0)%Q \/ (longitude c == 0)%Q ->
    throwsKind ZoneValidationError (Tile38Service.createZone svc outcome latency zone).1
    /\ (Tile38Service.createZone svc outcome latency zone).2 = svc.
Proof.
  intros svc outcome latency zone c Hin Hz.
  assert (Hv : throwsKind ZoneValidationError (Tile38Service.validateZone zone)).
  { unfold Tile38Service.validateZone.
    destruct (falsyS (zone_id zone)); [eexists; reflexivity|].
    destruct (length (zone_coordinates zone) <? 3)%nat; [eexists; reflexivity|].
    apply validateVertices_zero. eauto. }
  destruct Hv as [msg Hv].
  unfold Tile38Service.createZone. rewrite Hv. simpl.
  split; [eexists; reflexivity | reflexivity].
Qed.

(** ** ConnectionManager *)

Section RetryFacts.
Context {T : Type}.
Variable acquire : World -> Result Handle * World.
Variable exhausted : string.
Variable operation : ConnectionManager.Operation T.

Local Ltac protocol_case outs blks :=
  exists outs, blks; simpl;
  repeat match goal with
         | |- _ /\ _ => split
         | |- Forall2 _ _ _ => constructor
         | |- ConnectionManager.AttemptBlock _ _ => constructor
         | |- (_ <= _)%nat => lia
         | |- exists k : nat, _ = replicate k false ++ [true] =>
             first [ exists 0%nat; reflexivity
                   | exists 1%nat; reflexivity
                   | exists 2%nat; reflexivity ]
         | |- _ => reflexivity
         end.

Lemma attemptLoop_protocol (w : World) :
  retryProtocol exhausted
    (ConnectionManager.attemptLoop acquire exhausted operation
       ConnectionManager.MAX_CONNECTION_ATTEMPTS 0 w []).
Proof.
  unfold retryProtocol, ConnectionManager.MAX_CONNECTION_ATTEMPTS.
  cbn [ConnectionManager.attemptLoop Nat.ltb Nat.leb Nat.sub
       ConnectionManager.MAX_CONNECTION_ATTEMPTS].
  destruct (acquire w) as [[h1|e1] w1];
    [destruct (operation h1 w1) as [[v1|e1] w1']|].
  - protocol_case [true] [[EvAcquired h1; EvInvoked h1 true]].
  - destruct (acquire _) as [[h2|e2] w2];
      [destruct (operation h2 w2) as [[v2|e2] w2']|].
    + protocol_case [false; true]
        [[EvAcquired h1; EvInvoked h1 false]; [EvAcquired h2; EvInvoked h2 true]].
    + destruct (acquire _) as [[h3|e3] w3];
        [destruct (operation h3 w3) as [[v3|e3] w3']|].
      * protocol_case [false; false; true]
          [[EvAcquired h1; EvInvoked h1 false]; [EvAcquired h2; EvInvoked h2 false];
           [EvAcquired h3; EvInvoked h3 true]].
      * protocol_case [false; false; false]
          [[EvAcquired h1; EvInvoked h1 false]; [EvAcquired h2; EvInvoked h2 false];
           [EvAcquired h3; EvInvoked h3 false]].
      * protocol_case [false; false; false]
          [[EvAcquired h1; EvInvoked h1 false]; [EvAcquired h2; EvInvoked h2 false];
           [EvAcquireFailed]].
    + destruct (acquire _) as [[h3|e3] w3];
        [destruct (operation h3 w3) as [[v3|e3] w3']|].
      * protocol_case [false; false; true]
          [[EvAcquired h1; EvInvoked h1 false]; [EvAcquireFailed];
           [EvAcquired h3; EvInvoked h3 true]].
      * protocol_case [false; false; false]
          [[EvAcquired h1; EvInvoked h1 false]; [EvAcquireFailed];
           [EvAcquired h3; EvInvoked h3 false]].
      * protocol_case [false; false; false]
          [[EvAcquired h1; EvInvoked h1 false]; [EvAcquireFailed]; [EvAcquireFailed]].
  - destruct (acquire _) as [[h2|e2] w2];
      [destruct (operation h2 w2) as [[v2|e2] w2']|].
    + protocol_case [false; true]
        [[EvAcquireFailed]; [EvAcquired h2; EvInvoked h2 true]].
    + destruct (acquire _) as [[h3|e3] w3];
        [destruct (operation h3 w3) as [[v3|e3] w3']|].
      * protocol_case [false; false; true]
          [[EvAcquireFailed]; [EvAcquired h2; EvInvoked h2 false];
           [EvAcquired h3; EvInvoked h3 true]].
      * protocol_case [false; false; false]
          [[EvAcquireFailed]; [EvAcquired h2; EvInvoked h2 false];
           [EvAcquired h3; EvInvoked h3 false]].
      * protocol_case [false; false; false]
          [[EvAcquireFailed]; [EvAcquired h2; EvInvoked h2 false]; [EvAcquireFailed]].
    + destruct (acquire _) as [[h3|e3] w3];
        [destruct (operation h3 w3) as [[v3|e3] w3']|].
      * protocol_case [false; false; true]
          [[EvAcquireFailed]; [EvAcquireFailed]; [EvAcquired h3; EvInvoked h3 true]].
      * protocol_case [false; false; false]
          [[EvAcquireFailed]; [EvAcquireFailed]; [EvAcquired h3; EvInvoked h3 false]].
      * protocol_case [false; false; false]
          [[EvAcquireFailed]; [EvAcquireFailed]; [EvAcquireFailed]].
Qed.
End RetryFacts.

(** C5 (amended). Every call of [executeRead] and of [executeWrite] makes
    between one and three attempts, acquires a handle anew for each attempt,
    sleeps 1000 ms after a failed first attempt and 2000 ms after a failed
    second attempt (there is no third sleep: the third failure raises at
    once), returns at the first success, and raises the connection error only
    when all three attempts have failed. *)
Theorem execute_retry_protocol :
  forall (T : Type) (operation : ConnectionManager.Operation T) (w : World),
    retryProtocol "All read operation attempts failed"
      (ConnectionManager.executeRead operation w) /\
    retryProtocol "All write operation attempts failed"
      (ConnectionManager.executeWrite operation w).
Proof.
  intros T operation w. split; apply attemptLoop_protocol.
Qed.

(** ** ZoneManagementService *)

Lemma getReadConnection_up (w : World) :
  primaryConnected (pool w) = true ->
  exists h,
    ConnectionManager.getReadConnection w
    = (Ok h, ConnectionManager.setPool w
               (mkPool true (replicasConnected (pool w)) (S (roundRobinIndex (pool w))))).
Proof.
  intros Hup. unfold ConnectionManager.getReadConnection. rewrite Hup.
  set (available := [Primary] ++ ConnectionManager.connectedReplicas (pool w)).
  assert (Hlen : (0 < length available)%nat) by (subst available; simpl; lia).
  destruct (available !! (roundRobinIndex (pool w) mod length available)%nat)
    as [h|] eqn:E.
  - exists h. reflexivity.
  - apply lookup_ge_None in E.
    pose proof (Nat.mod_upper_bound (roundRobinIndex (pool w)) (length available)).
    lia.
Qed.

Lemma executeRead_opGet (w : World) (zoneId : string) :
  primaryConnected (pool w) = true ->
  let run := ConnectionManager.executeRead (ZoneManagementService.opGet zoneId) w in
  ConnectionManager.run_result run
  = Ok (match serverZones w !! zoneId with
        | None => None
        | Some (fields, ring) =>
            ZoneManagementService.parseZoneFromTile38 zoneId (Some fields) ring
        end)
  /\ serverZones (ConnectionManager.run_world run) = serverZones w
  /\ clock (ConnectionManager.run_world run) = clock w
  /\ primaryConnected (pool (ConnectionManager.run_world run)) = true.
Proof.
  intros Hup. destruct (getReadConnection_up w Hup) as [h Hh].
  unfold ConnectionManager.executeRead, ConnectionManager.MAX_CONNECTION_ATTEMPTS.
  cbn [ConnectionManager.attemptLoop]. rewrite Hh.
  unfold ZoneManagementService.opGet. cbn [serverZones ConnectionManager.setPool].
  destruct (serverZones w !! zoneId) as [[fields ring]|]; cbn; auto.
Qed.

Lemma executeWrite_opDel (w : World) (zoneId : string) :
  primaryConnected (pool w) = true ->
  let run := ConnectionManager.executeWrite (ZoneManagementService.opDel zoneId) w in
  ConnectionManager.run_result run = Ok tt
  /\ ConnectionManager.run_world run
     = mkWorld (pool w) (delete zoneId (serverZones w)) (clock w).
Proof.
  intros Hup.
  unfold ConnectionManager.executeWrite, ConnectionManager.MAX_CONNECTION_ATTEMPTS.
  cbn [ConnectionManager.attemptLoop].
  unfold ConnectionManager.getWriteConnection. rewrite Hup. cbn. auto.
Qed.

Lemma getCachedZone_absent (svc : ZoneManagementService.t) (now : Z) (zoneId : string) :
  ZoneManagementService.cacheTimestamps svc !! zoneId = None ->
  ZoneManagementService.zoneCache svc !! zoneId = None ->
  ZoneManagementService.getCachedZone svc now zoneId = (None, svc).
Proof.
  intros Ht Hc. unfold ZoneManagementService.getCachedZone. rewrite Ht.
  unfold ZoneManagementService.removeCachedZone.
  rewrite !delete_id by assumption. destruct svc; reflexivity.
Qed.

Lemma getZone_world (svc : ZoneManagementService.t) (w : World) (zoneId : string) :
  primaryConnected (pool w) = true ->
  primaryConnected (pool (ZoneManagementService.getZone svc w zoneId).2) = true
  /\ serverZones (ZoneManagementService.getZone svc w zoneId).2 = serverZones w.
Proof.
  intros Hup. unfold ZoneManagementService.getZone.
  destruct (ZoneManagementService.getCachedZone svc (clock w) zoneId) as [[cached|] svc1].
  - simpl. auto.
  - destruct (executeRead_opGet w zoneId Hup) as (Hr & Hs & _ & Hp).
    rewrite Hr.
    destruct (match serverZones w !! zoneId with
              | Some (fields, ring) =>
                  ZoneManagementService.parseZoneFromTile38 zoneId (Some fields) ring
              | None => None
              end); simpl; auto.
Qed.

Lemma getZone_absent (svc : ZoneManagementService.t) (w : World) (zoneId : string) :
  primaryConnected (pool w) = true ->
  ZoneManagementService.cacheTimestamps svc !! zoneId = None ->
  ZoneManagementService.zoneCache svc !! zoneId = None ->
  serverZones w !! zoneId = None ->
  (ZoneManagementService.getZone svc w zoneId).1 = (Ok None, svc).
Proof.
  intros Hup Ht Hc Hs. unfold ZoneManagementService.getZone.
  rewrite getCachedZone_absent by assumption.
  destruct (executeRead_opGet w zoneId Hup) as (Hr & _).
  rewrite Hr, Hs. reflexivity.
Qed.

(** C3 (amended). When the primary is connected and [getZone] finds the zone,
    the first [deleteZone] returns [true] and removes the zone from the index
    and from the cache; the second [deleteZone] of the same id then finds no
    zone and throws the [ZoneValidationError] "Zone not found", leaving the
    index and the cache as the first call left them. *)
Theorem deleteZone_twice :
  forall (svc : ZoneManagementService.t) (w : World) (zoneId : string) (zone : Zone),
    primaryConnected (pool w) = true ->
    (ZoneManagementService.getZone svc w zoneId).1.1 = Ok (Some zone) ->
    let first := ZoneManagementService.deleteZone svc w zoneId in
    let second := ZoneManagementService.deleteZone first.1.2 first.2 zoneId in
    first.1.1 = Ok true
    /\ serverZones first.2 !! zoneId = None
    /\ ZoneManagementService.zoneCache first.1.2 !! zoneId = None
    /\ second.1.1 = Throw (mkExn ZoneValidationError ("Zone not found: " ++ zoneId))
    /\ second.1.2 = first.1.2
    /\ serverZones second.2 = serverZones first.2.
Proof.
  intros svc w zoneId zone Hup Hfound.
  pose proof (getZone_world svc w zoneId Hup) as [Hup1 Hsrv1].
  assert (Hfirst :
    ZoneManagementService.deleteZone svc w zoneId
    = (Ok true,
       ZoneManagementService.removeCachedZone
         (ZoneManagementService.getZone svc w zoneId).1.2 zoneId,
       mkWorld (pool (ZoneManagementService.getZone svc w zoneId).2)
         (delete zoneId (serverZones (ZoneManagementService.getZone svc w zoneId).2))
         (clock (ZoneManagementService.getZone svc w zoneId).2))).
  { unfold ZoneManagementService.deleteZone.
    destruct (ZoneManagementService.getZone svc w zoneId) as [[found svc1] w1].
    simpl in *. subst found.
    destruct (executeWrite_opDel w1 zoneId Hup1) as [Hr Hw].
    rewrite Hr, Hw. reflexivity. }
  cbv zeta. rewrite Hfirst. cbn [fst snd].
  set (svc1 := ZoneManagementService.removeCachedZone _ zoneId).
  set (w2 := mkWorld _ _ _).
  assert (Hup2 : primaryConnected (pool w2) = true) by exact Hup1.
  assert (Hs2 : serverZones w2 !! zoneId = None) by (apply lookup_delete_eq).
  assert (Ht1 : ZoneManagementService.cacheTimestamps svc1 !! zoneId = None)
    by (apply lookup_delete_eq).
  assert (Hc1 : ZoneManagementService.zoneCache svc1 !! zoneId = None)
    by (apply lookup_delete_eq).
  pose proof (getZone_absent svc1 w2 zoneId Hup2 Ht1 Hc1 Hs2) as Habs.
  pose proof (getZone_world svc1 w2 zoneId Hup2) as [_ Hsrv2].
  unfold ZoneManagementService.deleteZone.
  destruct (ZoneManagementService.getZone svc1 w2 zoneId) as [[found' svc2] w3].
  simpl in Habs, Hsrv2. inversion Habs; subst found' svc2.
  simpl. repeat split; auto.
Qed.

Lemma deleteZone_twice_witness :
  (ZoneManagementService.deleteZone Examples.freshService Examples.worldWithZone
     "test-zone-1").1.1 = Ok true
  /\ (ZoneManagementService.deleteZone
        (ZoneManagementService.deleteZone Examples.freshService Examples.worldWithZone
           "test-zone-1").1.2
        (ZoneManagementService.deleteZone Examples.freshService Examples.worldWithZone
           "test-zone-1").2
        "test-zone-1").1.1
     = Throw (mkExn ZoneValidationError "Zone not found: test-zone-1").
Proof.
  edestruct (deleteZone_twice Examples.freshService Examples.worldWithZone "test-zone-1")
    as (H1 & _ & _ & H4 & _).
  - reflexivity.
  - vm_compute. reflexivity.
  - split; [exact H1 | exact H4].
Defined.

(** C3, as stated, fails: after a successful [deleteZone] the second call on
    the same id does not succeed, it throws. *)
Lemma deleteZone_second_call_throws :
  (ZoneManagementService.deleteZone Examples.freshService Examples.worldWithZone
     "test-zone-1").1.1 = Ok true
  /\ isOk (ZoneManagementService.deleteZone
             (ZoneManagementService.deleteZone Examples.freshService
                Examples.worldWithZone "test-zone-1").1.2
             (ZoneManagementService.deleteZone Examples.freshService
                Examples.worldWithZone "test-zone-1").2
             "test-zone-1").1.1 = false.
Proof. vm_compute. split; reflexivity. Qed.

(** C5, as stated, fails: three failed attempts are separated by two sleeps,
    of 1000 ms and 2000 ms; no sleep of 3000 ms occurs. *)
Lemma executeRead_has_no_third_delay :
  ConnectionManager.attemptsOf
    (ConnectionManager.run_log
       (ConnectionManager.executeRead Examples.alwaysRejects Examples.worldUp)) = 3%nat
  /\ ConnectionManager.delaysOf
       (ConnectionManager.run_log
          (ConnectionManager.executeRead Examples.alwaysRejects Examples.worldUp))
     = [1000; 2000]
  /\ ~ In 3000
       (ConnectionManager.delaysOf
          (ConnectionManager.run_log
             (ConnectionManager.executeRead Examples.alwaysRejects Examples.worldUp))).
Proof.
  vm_compute. repeat split. intros [H|[H|[]]]; discriminate.
Qed.

(** ** Zone creation and the vertex count *)

Lemma validateZoneName_kind name e :
  GeospatialValidator.validateZoneName name = Throw e ->
  exn_kind e = ZoneValidationError.
Proof.
  unfold GeospatialValidator.validateZoneName, throwKind.
  repeat match goal with
         | |- context [if ?b then _ else _] => destruct b
         end; intros H; inversion H; reflexivity.
Qed.

Lemma validateZoneCreationRequest_kind request e :
  ZoneManagementService.validateZoneCreationRequest request = Throw e ->
  exn_kind e = ZoneValidationError.
Proof.
  unfold ZoneManagementService.validateZoneCreationRequest, throwKind.
  destruct (falsyS _); [intros H; inversion H; reflexivity|].
  destruct (GeospatialValidator.validateZoneName _) eqn:En; simpl.
  - destruct (falsyS _); [intros H; inversion H; reflexivity|].
    destruct (ZoneManagementService.req_riskLevel request) as [r|];
      [destruct (_ || _)|]; intros H; inversion H; reflexivity.
  - intros H; inversion H; subst. eapply validateZoneName_kind; eauto.
Qed.

Lemma validateEach_kind coordinates : forall index e,
  GeospatialValidator.validateEach coordinates index = Throw e ->
  exn_kind e = ZoneValidationError.
Proof.
  induction coordinates as [|c rest IH]; intros index e; simpl.
  - discriminate.
  - destruct (GeospatialValidator.validateCoordinate c).
    + apply IH.
    + intros H; inversion H; reflexivity.
Qed.

Lemma validateEach_ok coordinates : forall index,
  Forall (fun coord => GeospatialValidator.validateCoordinate coord = Ok true) coordinates ->
  GeospatialValidator.validateEach coordinates index = Ok tt.
Proof.
  induction coordinates as [|c rest IH]; intros index Hall; simpl; [reflexivity|].
  inversion Hall; subst. rewrite H1. apply IH. assumption.
Qed.

Lemma validateZonePolygon_kind M coordinates e :
  GeospatialValidator.validateZonePolygon M coordinates = Throw e ->
  exn_kind e = ZoneValidationError.
Proof.
  unfold GeospatialValidator.validateZonePolygon, throwKind.
  destruct (_ <? 3)%nat; [intros H; inversion H; reflexivity|].
  destruct (100 <? _)%nat; [intros H; inversion H; reflexivity|].
  destruct (GeospatialValidator.validateEach coordinates 0) eqn:Ee.
  - destruct (GeospatialValidator.isSelfIntersecting _);
      [intros H; inversion H; reflexivity|].
    destruct (Qlt_bool _ _); [intros H; inversion H; reflexivity|].
    destruct (Qgt_bool _ _); intros H; inversion H; reflexivity.
  - intros H; inversion H; subst. eapply validateEach_kind; eauto.
Qed.

Lemma validateZonePolygon_length M coordinates ring :
  GeospatialValidator.validateZonePolygon M coordinates = Ok ring ->
  (3 <= length coordinates <= 100)%nat
  /\ (length coordinates <= length ring <= S (length coordinates))%nat.
Proof.
  unfold GeospatialValidator.validateZonePolygon, throwKind.
  destruct (_ <? 3)%nat eqn:E3; [discriminate|].
  destruct (100 <? _)%nat eqn:E100; [discriminate|].
  apply Nat.ltb_ge in E3, E100.
  destruct (GeospatialValidator.validateEach coordinates 0); [|discriminate].
  destruct (GeospatialValidator.isSelfIntersecting _); [discriminate|].
  destruct (Qlt_bool _ _); [discriminate|].
  destruct (Qgt_bool _ _); [discriminate|].
  intros H; inversion H; subst ring. split; [lia|].
  unfold GeospatialValidator.autoClose.
  destruct (GeospatialValidator.isClosedPolygon M coordinates); [lia|].
  rewrite length_app, length_take. lia.
Qed.

Lemma validateFourCoordinatePolygon_kind coordinates e :
  GeospatialValidator.validateFourCoordinatePolygon coordinates = Throw e ->
  exn_kind e = ZoneValidationError.
Proof.
  unfold GeospatialValidator.validateFourCoordinatePolygon, throwKind.
  destruct (_ && _); [intros H; inversion H; reflexivity|].
  destruct (_ =? 5)%nat; [|discriminate].
  destruct (coordinates !! 0%nat); [|discriminate].
  destruct (coordinates !! 4%nat); [|discriminate].
  destruct (_ || _); intros H; inversion H; reflexivity.
Qed.

Lemma validateFourCoordinatePolygon_length coordinates b :
  GeospatialValidator.validateFourCoordinatePolygon coordinates = Ok b ->
  length coordinates = 4%nat \/ length coordinates = 5%nat.
Proof.
  unfold GeospatialValidator.validateFourCoordinatePolygon, throwKind.
  destruct (length coordinates =? 4)%nat eqn:E4;
    [apply Nat.eqb_eq in E4; auto|].
  destruct (length coordinates =? 5)%nat eqn:E5;
    [apply Nat.eqb_eq in E5; auto|].
  simpl. discriminate.
Qed.

Lemma rethrow_validation wrapped e :
  exn_kind e = ZoneValidationError ->
  ZoneManagementService.rethrow wrapped e = e.
Proof. intros H. unfold ZoneManagementService.rethrow. rewrite H. reflexivity. Qed.

(** A ring whose length is not 3, 4 or 5 is refused by [createZone] with a
    [ZoneValidationError], whatever else holds. *)
Lemma createZone_length_gate SI M svc w uuid request :
  (length (ZoneManagementService.req_coordinates request) < 3
   \/ 5 < length (ZoneManagementService.req_coordinates request))%nat ->
  throwsKind ZoneValidationError
    (ZoneManagementService.createZone SI M svc w uuid request).1.1.
Proof.
  intros Hlen. unfold ZoneManagementService.createZone, throwsKind.
  destruct (ZoneManagementService.validateZoneCreationRequest request) eqn:Er.
  2:{ apply validateZoneCreationRequest_kind in Er.
      rewrite rethrow_validation by assumption.
      destruct e as [k m]; simpl in *; subst k. eexists; reflexivity. }
  destruct (GeospatialValidator.calculateBoundingBox _) eqn:Eb.
  2:{ unfold GeospatialValidator.calculateBoundingBox in Eb.
      destruct (ZoneManagementService.req_coordinates request); [|discriminate].
      inversion Eb; subst. eexists; reflexivity. }
  destruct (GeospatialValidator.validateZonePolygon M _) as [ring|e] eqn:Ep.
  2:{ apply validateZonePolygon_kind in Ep.
      rewrite rethrow_validation by assumption.
      destruct e as [k m]; simpl in *; subst k. eexists; reflexivity. }
  apply validateZonePolygon_length in Ep. destruct Ep as [Hc Hr].
  destruct (GeospatialValidator.validateFourCoordinatePolygon ring) eqn:Ef.
  - apply validateFourCoordinatePolygon_length in Ef. lia.
  - apply validateFourCoordinatePolygon_kind in Ef.
    rewrite rethrow_validation by assumption.
    destruct e as [k m]; simpl in *; subst k. eexists; reflexivity.
Qed.

Section Execute.
Context {T : Type}.
Variable operation : ConnectionManager.Operation T.
Variable value : World -> T.
Variable effect : World -> World.
Hypothesis resolves : forall h w, operation h w = (Ok (value w), effect w).

Lemma executeRead_resolves (w : World) :
  primaryConnected (pool w) = true ->
  let w1 := ConnectionManager.setPool w
              (mkPool true (replicasConnected (pool w)) (S (roundRobinIndex (pool w)))) in
  ConnectionManager.run_result (ConnectionManager.executeRead operation w) = Ok (value w1)
  /\ ConnectionManager.run_world (ConnectionManager.executeRead operation w) = effect w1.
Proof.
  intros Hup. destruct (getReadConnection_up w Hup) as [h Hh].
  unfold ConnectionManager.executeRead, ConnectionManager.MAX_CONNECTION_ATTEMPTS.
  cbn [ConnectionManager.attemptLoop]. rewrite Hh. cbv beta iota.
  rewrite resolves. simpl. auto.
Qed.

Lemma executeWrite_resolves (w : World) :
  primaryConnected (pool w) = true ->
  ConnectionManager.run_result (ConnectionManager.executeWrite operation w) = Ok (value w)
  /\ ConnectionManager.run_world (ConnectionManager.executeWrite operation w) = effect w.
Proof.
  intros Hup.
  unfold ConnectionManager.executeWrite, ConnectionManager.MAX_CONNECTION_ATTEMPTS.
  cbn [ConnectionManager.attemptLoop].
  unfold ConnectionManager.getWriteConnection. rewrite Hup. cbv beta iota.
  simpl negb. cbv beta iota. rewrite resolves. simpl. auto.
Qed.
End Execute.

Lemma parseZoneFromTile38_coordinates zoneId fields ring zone :
  ZoneManagementService.parseZoneFromTile38 zoneId fields ring = Some zone ->
  zone_coordinates zone = ring.
Proof.
  unfold ZoneManagementService.parseZoneFromTile38.
  destruct (GeospatialValidator.calculateBoundingBox ring); [|discriminate].
  intros H; inversion H; reflexivity.
Qed.

Lemma overlapLoop_disjoint coordinates zones :
  Forall (fun zone =>
            GeospatialValidator.polygonsOverlap coordinates (zone_coordinates zone) = false)
         zones ->
  ZoneManagementService.overlapLoop coordinates None zones = Ok tt.
Proof.
  induction 1 as [|zone rest Hz _ IH]; simpl; [reflexivity|].
  rewrite Hz. exact IH.
Qed.

Lemma checkZoneOverlaps_disjoint SI (w : World) (zone : Zone) :
  primaryConnected (pool w) = true ->
  (forall zoneId fields existing,
     serverZones w !! zoneId = Some (fields, existing) ->
     GeospatialValidator.polygonsOverlap (zone_coordinates zone) existing = false) ->
  exists w1,
    ZoneManagementService.checkZoneOverlaps SI w zone None = (Ok tt, w1)
    /\ primaryConnected (pool w1) = true.
Proof.
  intros Hup Hdisj.
  unfold ZoneManagementService.checkZoneOverlaps, ZoneManagementService.searchByBounds.
  edestruct (executeRead_resolves
               (ZoneManagementService.opIntersectsBounds SI 100 (zone_boundingBox zone))
               _ (fun w' => w') (fun h w' => eq_refl) w Hup) as [Hr Hw].
  rewrite Hr, Hw. eexists. split; [f_equal | reflexivity].
  apply overlapLoop_disjoint.
  apply Forall_forall. intros z Hz.
  apply list_elem_of_filter in Hz. destruct Hz as [_ Hz].
  apply list_elem_of_omap in Hz. destruct Hz as ([zoneId [fields ring]] & Hin & Hparse).
  destruct (falsyS zoneId); [discriminate|].
  apply parseZoneFromTile38_coordinates in Hparse. rewrite Hparse.
  apply subseteq_take in Hin.
  apply list_elem_of_filter in Hin. destruct Hin as [_ Hin].
  apply elem_of_map_to_list in Hin. simpl in Hin.
  eapply Hdisj. exact Hin.
Qed.

Lemma validateZonePolygon_passes M coordinates :
  (3 <= length coordinates <= 100)%nat ->
  Forall (fun coord => GeospatialValidator.validateCoordinate coord = Ok true) coordinates ->
  GeospatialValidator.isSelfIntersecting (GeospatialValidator.autoClose M coordinates) = false ->
  (100 <= GeospatialValidator.calculatePolygonArea M
            (GeospatialValidator.autoClose M coordinates) <= 1000000000)%Q ->
  GeospatialValidator.validateZonePolygon M coordinates
  = Ok (GeospatialValidator.autoClose M coordinates).
Proof.
  intros [Hlo Hhi] Hvalid Hself [Hmin Hmax].
  unfold GeospatialValidator.validateZonePolygon.
  destruct (Nat.ltb_spec (length coordinates) 3); [lia|].
  destruct (Nat.ltb_spec 100 (length coordinates)); [lia|].
  rewrite (validateEach_ok _ 0%nat Hvalid), Hself.
  destruct (Qlt_bool _ 100) eqn:E1.
  { apply Qlt_bool_iff in E1. exfalso. eapply Qlt_not_le; eauto. }
  destruct (Qgt_bool _ 1000000000) eqn:E2.
  { apply Qlt_bool_iff in E2. exfalso. eapply Qlt_not_le; eauto. }
  reflexivity.
Qed.

(** A ring of three vertices that meets the other invariants is accepted,
    and the zone carries the ring closed to four coordinates. *)
Lemma createZone_accepts_triangle SI M svc w uuid request :
  length (ZoneManagementService.req_coordinates request) = 3%nat ->
  acceptable M w request ->
  exists zone,
    (ZoneManagementService.createZone SI M svc w uuid request).1.1 = Ok zone
    /\ zone_coordinates zone
       = ZoneManagementService.req_coordinates request
         ++ take 1 (ZoneManagementService.req_coordinates request)
    /\ length (zone_coordinates zone) = 4%nat.
Proof.
  intros Hlen (Hreq & Hvalid & Hopen & Hself & [Hlo Hhi] & Hdisj & Hup).
  unfold ZoneManagementService.createZone. rewrite Hreq.
  destruct (ZoneManagementService.req_coordinates request) as [|c0 coords] eqn:Ec;
    [discriminate|].
  unfold GeospatialValidator.calculateBoundingBox at 1.
  assert (Hauto : GeospatialValidator.autoClose M (c0 :: coords)
                  = (c0 :: coords) ++ take 1 (c0 :: coords)).
  { unfold GeospatialValidator.autoClose. rewrite Hopen. reflexivity. }
  assert (Hpoly : GeospatialValidator.validateZonePolygon M (c0 :: coords)
                  = Ok ((c0 :: coords) ++ take 1 (c0 :: coords))).
  { rewrite <- Hauto. apply validateZonePolygon_passes; auto.
    rewrite Hlen. lia. }
  rewrite Hpoly.
  set (ring := (c0 :: coords) ++ take 1 (c0 :: coords)) in *.
  assert (Hring : length ring = 4%nat).
  { subst ring. rewrite length_app, Hlen. reflexivity. }
  assert (Hfour : GeospatialValidator.validateFourCoordinatePolygon ring = Ok true).
  { unfold GeospatialValidator.validateFourCoordinatePolygon. rewrite Hring. reflexivity. }
  rewrite Hfour.
  match goal with
  | |- context [ZoneManagementService.checkZoneOverlaps SI w ?z None] =>
      destruct (checkZoneOverlaps_disjoint SI w z Hup) as (w1 & Hchk & Hup1);
      [ intros zoneId fields existing Hs; simpl; rewrite <- Hauto; eauto
      | rewrite Hchk ]
  end.
  unfold ZoneManagementService.storeZoneInTile38.
  match goal with
  | |- context [ConnectionManager.executeWrite (ZoneManagementService.opSet ?z) w1] =>
      edestruct (executeWrite_resolves (ZoneManagementService.opSet z)
                   (fun _ => tt) _ (fun h w' => eq_refl) w1 Hup1) as [Hr Hw];
      rewrite Hr
  end.
  eexists. simpl. split; [reflexivity|]. split; [reflexivity | exact Hring].
Qed.

(** C1 (amended). Zone creation accepts a ring of exactly three valid
    vertices that meets the other invariants, closing it to four
    coordinates; it refuses every ring of two or fewer vertices, and it
    refuses rings of 100 and of 101 vertices alike (each with a
    [ZoneValidationError]): after closure a ring must hold four or five
    coordinates. *)
Theorem createZone_vertex_counts :
  forall (serverIntersects : BoundingBox -> list Coordinate -> bool) (M : MathLib)
         (svc : ZoneManagementService.t) (w : World) (uuid : string)
         (request : ZoneManagementService.ZoneCreationRequest),
    let coordinates := ZoneManagementService.req_coordinates request in
    let outcome := ZoneManagementService.createZone serverIntersects M svc w uuid request in
    (length coordinates = 3%nat -> acceptable M w request ->
     exists zone,
       outcome.1.1 = Ok zone
       /\ zone_coordinates zone = coordinates ++ take 1 coordinates
       /\ length (zone_coordinates zone) = 4%nat)
    /\ ((length coordinates <= 2)%nat -> throwsKind ZoneValidationError outcome.1.1)
    /\ (length coordinates = 100%nat -> throwsKind ZoneValidationError outcome.1.1)
    /\ (length coordinates = 101%nat -> throwsKind ZoneValidationError outcome.1.1).
Proof.
  intros SI M svc w uuid request coordinates outcome. subst coordinates outcome.
  split; [apply createZone_accepts_triangle|].
  repeat split; intros H; apply createZone_length_gate; lia.
Qed.

Lemma createZone_vertex_counts_witness :
  exists zone,
    (ZoneManagementService.createZone Examples.everyZone Examples.smallAngleMath
       Examples.freshService Examples.worldWithZone "zone-0001"
       (Examples.requestFor Examples.triangle)).1.1 = Ok zone
    /\ zone_coordinates zone = Examples.triangle ++ take 1 Examples.triangle
    /\ length (zone_coordinates zone) = 4%nat.
Proof.
  apply (proj1 (createZone_vertex_counts Examples.everyZone Examples.smallAngleMath
                  Examples.freshService Examples.worldWithZone "zone-0001"
                  (Examples.requestFor Examples.triangle))).
  - reflexivity.
  - unfold acceptable.
    split; [vm_compute; reflexivity|].
    split; [repeat constructor|].
    split; [vm_compute; reflexivity|].
    split; [vm_compute; reflexivity|].
    split; [split; apply Qle_bool_iff; vm_compute; reflexivity|].
    split; [|reflexivity].
    intros zoneId fields existing Hs.
    unfold Examples.worldWithZone in Hs. cbn [serverZones] in Hs.
    apply lookup_singleton_Some in Hs. destruct Hs as [_ Hs].
    inversion Hs; subst. vm_compute. reflexivity.
Defined.

Lemma createZone_four_coordinate_gate SI M svc w uuid request ring e :
  ZoneManagementService.validateZoneCreationRequest request = Ok tt ->
  ZoneManagementService.req_coordinates request <> [] ->
  GeospatialValidator.validateZonePolygon M (ZoneManagementService.req_coordinates request)
  = Ok ring ->
  GeospatialValidator.validateFourCoordinatePolygon ring = Throw e ->
  (ZoneManagementService.createZone SI M svc w uuid request).1.1 = Throw e.
Proof.
  intros Hreq Hne Hpoly Hfour. unfold ZoneManagementService.createZone.
  rewrite Hreq.
  destruct (ZoneManagementService.req_coordinates request) as [|c0 coords] eqn:Ec;
    [congruence|].
  unfold GeospatialValidator.calculateBoundingBox at 1.
  rewrite Hpoly, Hfour. simpl.
  rewrite rethrow_validation; [reflexivity|].
  eapply validateFourCoordinatePolygon_kind; eauto.
Qed.

Lemma areaLoop_reduced M coordinates : forall area area',
  (area == area')%Q ->
  (GeospatialValidator.areaLoop M coordinates area
   == GeospatialValidator.areaLoopReduced M coordinates area')%Q.
Proof.
  induction coordinates as [|coord1 rest IH]; intros area area' Heq; [exact Heq|].
  destruct rest as [|coord2 rest']; [exact Heq|].
  cbn [GeospatialValidator.areaLoop GeospatialValidator.areaLoopReduced].
  apply IH. rewrite Qred_correct, Heq. reflexivity.
Qed.

Lemma validateCoordinate_isOk coord :
  isOk (GeospatialValidator.validateCoordinate coord) = true ->
  GeospatialValidator.validateCoordinate coord = Ok true.
Proof.
  unfold GeospatialValidator.validateCoordinate.
  destruct (_ || _); [discriminate|]. destruct (_ || _); [discriminate|]. reflexivity.
Qed.

Lemma ring100_passes_validateZonePolygon :
  GeospatialValidator.validateZonePolygon Examples.smallAngleMath Examples.ring100
  = Ok (Examples.ring100 ++ take 1 Examples.ring100).
Proof.
  assert (Hauto : GeospatialValidator.autoClose Examples.smallAngleMath Examples.ring100
                  = Examples.ring100 ++ take 1 Examples.ring100)
    by (vm_compute; reflexivity).
  rewrite <- Hauto. apply validateZonePolygon_passes.
  - vm_compute. lia.
  - apply Forall_forall. intros coord Hin. apply validateCoordinate_isOk.
    apply list_elem_of_In in Hin. revert coord Hin. apply forallb_forall.
    vm_compute. reflexivity.
  - vm_compute. reflexivity.
  - unfold GeospatialValidator.calculatePolygonArea.
    replace (length (GeospatialValidator.autoClose Examples.smallAngleMath
                       Examples.ring100) <? 3)%nat with false
      by (vm_compute; reflexivity).
    rewrite (areaLoop_reduced Examples.smallAngleMath _ 0 0 (Qeq_refl 0)).
    split; apply Qle_bool_iff; vm_compute; reflexivity.
Qed.

(** C1, as stated, fails: a ring of 100 valid vertices that meets the other
    polygon invariants ([validateZonePolygon] passes, nothing is stored that
    could overlap) is refused by the four-coordinate rule. *)
Lemma createZone_rejects_100_vertices :
  length Examples.ring100 = 100%nat
  /\ isOk (GeospatialValidator.validateZonePolygon Examples.smallAngleMath
             Examples.ring100) = true
  /\ (ZoneManagementService.createZone Examples.everyZone Examples.smallAngleMath
        Examples.freshService Examples.worldUp "zone-0100"
        (Examples.requestFor Examples.ring100)).1.1
     = Throw (mkExn ZoneValidationError
                "Zone must have exactly 4 coordinates (plus optional closing coordinate)").
Proof.
  split; [reflexivity|].
  split; [rewrite ring100_passes_validateZonePolygon; reflexivity|].
  eapply createZone_four_coordinate_gate.
  - vm_compute. reflexivity.
  - discriminate.
  - exact ring100_passes_validateZonePolygon.
  - reflexivity.
Qed.

(** ** Webhook matching *)

(** The early returns of the filter callback, as one conjunction. *)
Lemma isApplicable_andb (event : GeofenceEvent) (webhook : WebhookConfig) :
  GeofenceWebhookService.isApplicable event webhook
  = wh_enabled webhook
    && match wh_zoneIds webhook with
       | Some zoneIds => includes zoneIds (ev_zoneId event)
       | None => true
       end
    && match wh_zoneTypes webhook, ev_zoneType event with
       | Some zoneTypes, Some zoneType => includes zoneTypes zoneType
       | Some _, None => false
       | None, _ => true
       end
    && includes (wh_eventTypes webhook) (ev_eventType event).
Proof.
  unfold GeofenceWebhookService.isApplicable.
  destruct (wh_enabled webhook); [|reflexivity].
  destruct (wh_zoneIds webhook) as [zoneIds|];
    [destruct (includes zoneIds (ev_zoneId event)); [|reflexivity]|];
    (destruct (wh_zoneTypes webhook) as [zoneTypes|];
     [destruct (ev_zoneType event) as [zoneType|];
      [destruct (includes zoneTypes zoneType)|]|]);
    simpl; try reflexivity;
    destruct (includes (wh_eventTypes webhook) (ev_eventType event)); reflexivity.
Qed.

Lemma zoneIds_filter_iff (filter : option (list string)) (zoneId : string) :
  match filter with Some zoneIds => includes zoneIds zoneId | None => true end = true
  <-> filter = None \/ exists zoneIds, filter = Some zoneIds /\ In zoneId zoneIds.
Proof.
  destruct filter as [zoneIds|].
  - rewrite includes_In. split.
    + intros Hin. right. eauto.
    + intros [Hn | (l & Hl & Hin)]; [discriminate | congruence].
  - split; auto.
Qed.

Lemma zoneTypes_filter_iff (filter : option (list ZoneType)) (zoneType : option ZoneType) :
  match filter, zoneType with
  | Some zoneTypes, Some t => includes zoneTypes t
  | Some _, None => false
  | None, _ => true
  end = true
  <-> filter = None
      \/ exists zoneTypes t, filter = Some zoneTypes /\ zoneType = Some t /\ In t zoneTypes.
Proof.
  destruct filter as [zoneTypes|]; [|split; auto].
  destruct zoneType as [t|].
  - rewrite includes_In. split.
    + intros Hin. right. eauto.
    + intros [Hn | (l & t' & Hl & Ht & Hin)]; [discriminate | congruence].
  - split; [discriminate|].
    intros [Hn | (l & t' & Hl & Ht & Hin)]; discriminate.
Qed.

Lemma isApplicable_iff (event : GeofenceEvent) (webhook : WebhookConfig) :
  GeofenceWebhookService.isApplicable event webhook = true <->
  wh_enabled webhook = true
  /\ In (ev_eventType event) (wh_eventTypes webhook)
  /\ (wh_zoneIds webhook = None
      \/ exists zoneIds, wh_zoneIds webhook = Some zoneIds /\ In (ev_zoneId event) zoneIds)
  /\ (wh_zoneTypes webhook = None
      \/ exists zoneTypes zoneType,
           wh_zoneTypes webhook = Some zoneTypes
           /\ ev_zoneType event = Some zoneType /\ In zoneType zoneTypes).
Proof.
  rewrite isApplicable_andb, !andb_true_iff.
  rewrite zoneIds_filter_iff, zoneTypes_filter_iff, includes_In.
  tauto.
Qed.

Lemma processGeofenceEvent_queue (svc : GeofenceWebhookService.t) (event : GeofenceEvent) :
  GeofenceWebhookService.deliveryQueue (GeofenceWebhookService.processGeofenceEvent svc event)
  = GeofenceWebhookService.deliveryQueue svc
    ++ match GeofenceWebhookService.getApplicableWebhooks svc event with
       | [] => []
       | applicable => [(event, applicable)]
       end.
Proof.
  unfold GeofenceWebhookService.processGeofenceEvent.
  destruct (GeofenceWebhookService.getApplicableWebhooks svc event); simpl.
  - symmetry. apply app_nil_r.
  - reflexivity.
Qed.

(** C2 (amended). An event handed to the dispatcher is queued for delivery
    to a registered webhook exactly when the webhook is enabled, lists the
    event's type, has no zone-id filter or one that contains the event's
    zone, and has no zone-type filter or one that contains the event's zone
    type.  A webhook without a zone-id filter matches events from every
    zone; a webhook whose zone-id filter is present but lists nothing
    matches no event. *)
Theorem processGeofenceEvent_matching :
  forall (svc : GeofenceWebhookService.t) (event : GeofenceEvent) (webhook : WebhookConfig),
    ((exists applicable,
        GeofenceWebhookService.deliveryQueue
          (GeofenceWebhookService.processGeofenceEvent svc event)
        = GeofenceWebhookService.deliveryQueue svc ++ [(event, applicable)]
        /\ In webhook applicable)
     <->
     In webhook (map snd (GeofenceWebhookService.webhooks svc))
     /\ wh_enabled webhook = true
     /\ In (ev_eventType event) (wh_eventTypes webhook)
     /\ (wh_zoneIds webhook = None
         \/ exists zoneIds,
              wh_zoneIds webhook = Some zoneIds /\ In (ev_zoneId event) zoneIds)
     /\ (wh_zoneTypes webhook = None
         \/ exists zoneTypes zoneType,
              wh_zoneTypes webhook = Some zoneTypes
              /\ ev_zoneType event = Some zoneType /\ In zoneType zoneTypes))
    /\ (wh_zoneIds webhook = Some [] ->
        ~ In webhook (GeofenceWebhookService.getApplicableWebhooks svc event)).
Proof.
  intros svc event webhook. split.
  - rewrite processGeofenceEvent_queue.
    rewrite <- isApplicable_iff.
    unfold GeofenceWebhookService.getApplicableWebhooks.
    rewrite <- filter_In.
    set (applicable := List.filter _ _).
    split.
    + intros (ws & Hq & Hin). apply app_inv_head in Hq.
      destruct applicable; inversion Hq; subst. exact Hin.
    + intros Hin. exists applicable. split; [|exact Hin].
      destruct applicable; [destruct Hin | reflexivity].
  - intros Hempty Hin.
    unfold GeofenceWebhookService.getApplicableWebhooks in Hin.
    apply filter_In in Hin. destruct Hin as [_ Happ].
    apply isApplicable_iff in Happ.
    destruct Happ as (_ & _ & [Hn | (l & Hl & Hl')] & _); [congruence|].
    rewrite Hempty in Hl. inversion Hl; subst. destruct Hl'.
Qed.

(** C2, as stated, fails: an enabled webhook that lists the event's type and
    whose zone-id filter is the empty list matches under the rule of the
    specification, yet no event is queued for it. *)
Lemma empty_zoneIds_filter_matches_nothing :
  specMatches Examples.insideEvent (Examples.webhook "wh-1" None (Some [])) = true
  /\ GeofenceWebhookService.getApplicableWebhooks
       (Examples.webhookService [Examples.webhook "wh-1" None (Some [])])
       Examples.insideEvent = []
  /\ GeofenceWebhookService.deliveryQueue
       (GeofenceWebhookService.processGeofenceEvent
          (Examples.webhookService [Examples.webhook "wh-1" None (Some [])])
          Examples.insideEvent) = [].
Proof. vm_compute. repeat split. Qed.

Lemma processGeofenceEvent_matching_witness :
  (exists applicable,
     GeofenceWebhookService.deliveryQueue
       (GeofenceWebhookService.processGeofenceEvent
          (Examples.webhookService [Examples.webhook "wh-2" None None])
          Examples.insideEvent)
     = [] ++ [(Examples.insideEvent, applicable)]
     /\ In (Examples.webhook "wh-2" None None) applicable)
  /\ ~ In (Examples.webhook "wh-1" None (Some []))
         (GeofenceWebhookService.getApplicableWebhooks
            (Examples.webhookService [Examples.webhook "wh-1" None (Some [])])
            Examples.insideEvent).
Proof.
  split.
  - apply (proj1 (processGeofenceEvent_matching
                    (Examples.webhookService [Examples.webhook "wh-2" None None])
                    Examples.insideEvent (Examples.webhook "wh-2" None None))).
    simpl. repeat split; auto.
  - apply (proj2 (processGeofenceEvent_matching
                    (Examples.webhookService [Examples.webhook "wh-1" None (Some [])])
                    Examples.insideEvent (Examples.webhook "wh-1" None (Some [])))).
    reflexivity.
Defined.

(** ** The detector *)

Lemma pair_induction {A} (P : list A -> Prop) :
  P [] -> (forall x, P [x]) -> (forall x y l, P l -> P (x :: y :: l)) ->
  forall l, P l.
Proof.
  intros Hnil Hone Hstep.
  assert (Hboth : forall l, P l /\ forall x, P (x :: l)).
  { induction l as [|y l [IH1 IH2]]; split; auto. }
  intros l. apply Hboth.
Qed.

Lemma append_inv_head (s a b : string) :
  (s ++ a)%string = (s ++ b)%string -> a = b.
Proof.
  induction s as [|c s IH]; simpl; intros H; [exact H|].
  inversion H. auto.
Qed.

Lemma calculateAlertLevel_table (zone : Zone) (md : ZoneMetadata) :
  zone_metadata zone = Some md ->
  ~ (riskLevel md == 0)%Q ->
  GeofenceWebhookService.calculateAlertLevel zone = alertLevelTable (riskLevel md).
Proof.
  intros Hmd Hnz.
  unfold GeofenceWebhookService.calculateAlertLevel,
    ZoneManagementService.metadataRiskLevel, ZoneManagementService.orFive,
    alertLevelTable, Qge_bool.
  rewrite Hmd.
  destruct (falsyQ (riskLevel md)) eqn:E; [|reflexivity].
  apply falsyQ_iff in E. contradiction.
Qed.

Lemma buildEvent_id_inj parsePoint (zone : Zone) (userId d1 d2 : string) (t1 t2 : Z) :
  ev_id (GeofenceWebhookService.buildEvent parsePoint t1 zone userId d1)
  = ev_id (GeofenceWebhookService.buildEvent parsePoint t2 zone userId d2) ->
  t1 = t2.
Proof.
  unfold GeofenceWebhookService.buildEvent. cbn [ev_id]. intros H.
  apply append_inv_head in H. apply (append_inv_head "-") in H.
  apply append_inv_head in H. apply (append_inv_head "-") in H.
  exact (inj pretty _ _ H).
Qed.

(** Zones that reach the sweep through a search reply carry no fields, so
    their risk level is the default 5 and the alert level is [medium]. *)
Lemma search_reply_alert_level zoneId ring zone :
  ZoneManagementService.parseZoneFromTile38 zoneId None ring = Some zone ->
  GeofenceWebhookService.calculateAlertLevel zone = medium.
Proof.
  unfold ZoneManagementService.parseZoneFromTile38.
  destruct (GeospatialValidator.calculateBoundingBox ring); [|discriminate].
  intros H; inversion H; reflexivity.
Qed.

(** What [processZoneIntersections] does with a zone object that carries
    metadata with a risk level other than zero: every event has the event
    type [INSIDE], names that zone and user, has an id made of the zone id,
    the user id and the clock reading, and carries the alert level the table
    assigns to the risk level.  The sweep never hands it such a zone: see
    [checkGeofenceEvents_alert_level]. *)
Lemma processZoneIntersections_with_metadata :
  forall (parsePoint : string -> option (Q * Q)) (now : nat -> Z) (users : list string)
         (i : nat) (svc : GeofenceWebhookService.t) (zone : Zone) (md : ZoneMetadata)
         (event : GeofenceEvent),
    zone_metadata zone = Some md ->
    ~ (riskLevel md == 0)%Q ->
    In event (GeofenceWebhookService.processZoneIntersections parsePoint now i svc zone users).2 ->
    ev_eventType event = INSIDE
    /\ ev_zoneId event = zone_id zone
    /\ (exists k : nat,
          ev_id event
          = (zone_id zone ++ "-" ++ ev_userId event ++ "-" ++ pretty (now k))%string
          /\ forall (later : Z) (data : string),
               later <> now k ->
               ev_id (GeofenceWebhookService.buildEvent parsePoint later zone
                        (ev_userId event) data) <> ev_id event)
    /\ ev_metadata event = Some (mkEventMeta (Some (alertLevelTable (riskLevel md)))).
Proof.
  intros parsePoint now users.
  induction users as [| x | userId locationData rest IH] using pair_induction;
    intros i svc zone md event Hmd Hnz Hin; try (simpl in Hin; contradiction).
  simpl in Hin.
  destruct (negb (falsyS userId) && negb (falsyS locationData)).
  - destruct (GeofenceWebhookService.processZoneIntersections parsePoint now (i + 2)
                (GeofenceWebhookService.processGeofenceEvent svc
                   (GeofenceWebhookService.buildEvent parsePoint (now i) zone userId
                      locationData))
                zone rest) as [svc' events] eqn:E.
    simpl in Hin. destruct Hin as [<- | Hin].
    + simpl. repeat split.
      * exists i. split; [reflexivity|].
        intros later data Hne Heq.
        apply Hne.
        exact (buildEvent_id_inj parsePoint zone userId data locationData _ _ Heq).
      * rewrite (calculateAlertLevel_table zone md Hmd Hnz). reflexivity.
    + eapply (IH (i + 2)%nat _ zone md event Hmd Hnz). rewrite E. exact Hin.
  - eapply IH; eauto.
Qed.

(** ** Test deliveries and the statistics *)

(** What the [isTest] flag does protect: a test delivery never counts as
    delivered and never emits. *)
Lemma deliverLoop_test_guard http webhook (remaining : nat) :
  forall startTime retryCount svc now,
    let out := GeofenceWebhookService.deliverLoop http remaining webhook true
                 startTime retryCount svc now in
    GeofenceWebhookService.webhooksDelivered (GeofenceWebhookService.stats out.1.2)
    = GeofenceWebhookService.webhooksDelivered (GeofenceWebhookService.stats svc)
    /\ GeofenceWebhookService.emitted out.1.2 = GeofenceWebhookService.emitted svc.
Proof.
  induction remaining as [|remaining IH]; intros startTime retryCount svc now;
    cbn [GeofenceWebhookService.deliverLoop]; [split; reflexivity|].
  destruct (http (Z.to_nat retryCount)) as [status elapsed | status message elapsed].
  - simpl. split; reflexivity.
  - destruct (retryCount + 1 <=? _).
    + apply IH.
    + simpl. split; reflexivity.
Qed.

(** C4 (evaluation at the failing input). [testWebhook] on a registered
    webhook does change the delivery statistics: when every POST is rejected
    the failure counter goes from 0 to 1, and when the POST is answered after
    40 ms the average delivery time goes from 0 to 40; only the delivered
    counter is left alone. *)
Theorem testWebhook_changes_statistics :
  forall (hmacSha256Hex : string -> string -> string) (stringify : GeofenceEvent -> string),
    let svc := Examples.webhookService [Examples.webhook "wh-1" (Some "s3cr3t") None] in
    let failed :=
      GeofenceWebhookService.testWebhook hmacSha256Hex stringify Examples.rejectingHttp
        svc 1700000000000 "wh-1" in
    let answered :=
      GeofenceWebhookService.testWebhook hmacSha256Hex stringify Examples.resolvingHttp
        svc 1700000000000 "wh-1" in
    GeofenceWebhookService.deliveryFailures (GeofenceWebhookService.stats svc) = 0
    /\ GeofenceWebhookService.deliveryFailures (GeofenceWebhookService.stats failed.1.2) = 1
    /\ (GeofenceWebhookService.averageDeliveryTime (GeofenceWebhookService.stats svc) == 0)%Q
    /\ (GeofenceWebhookService.averageDeliveryTime
          (GeofenceWebhookService.stats answered.1.2) == 40)%Q
    /\ GeofenceWebhookService.webhooksDelivered
         (GeofenceWebhookService.stats answered.1.2) = 0.
Proof.
  intros hmacSha256Hex stringify. cbv zeta.
  repeat split; vm_compute; reflexivity.
Qed.

(** ** Signing *)

(** What does hold: the first POST to a webhook that has a non-empty secret
    carries that webhook's own signature, whatever came before it. *)
Lemma signAndPost_own_signature hmacSha256Hex stringify event
    (webhooks : list WebhookConfig) :
  forall payload posts,
    let signedOwn (post : WebhookConfig * WebhookPayload) :=
      forall s, wh_secret post.1 = Some s -> s <> "" ->
                pl_signature post.2 = Some (hmacSha256Hex s (stringify event)) in
    Forall signedOwn posts ->
    Forall signedOwn
      (fold_left (GeofenceWebhookService.signAndPost hmacSha256Hex stringify event)
         webhooks (payload, posts)).2.
Proof.
  induction webhooks as [|webhook rest IH]; intros payload posts signedOwn Hposts;
    [exact Hposts|].
  cbn [fold_left GeofenceWebhookService.signAndPost].
  apply IH. apply Forall_app. split; [exact Hposts|].
  constructor; [|constructor]. intros s Hs Hne. cbn [fst snd] in *.
  rewrite Hs. unfold GeofenceWebhookService.generateSignature, falsyS.
  destruct (decide (s = "")); [contradiction|]. reflexivity.
Qed.

(** C6 (evaluation at the failing input). An event queued for a webhook with
    the secret "s3cr3t" followed by a webhook without a secret: both POST
    bodies carry the first webhook's signature, because the one payload
    object is signed in place and never cleared. *)
Theorem unsigned_webhook_receives_signature :
  forall (hmacSha256Hex : string -> string -> string) (stringify : GeofenceEvent -> string),
    let signed := Examples.webhook "wh-1" (Some "s3cr3t") None in
    let unsigned := Examples.webhook "wh-2" None None in
    wh_secret unsigned = None
    /\ map (fun post => (wh_id post.1, pl_signature post.2))
         (GeofenceWebhookService.deliverEventToWebhooks hmacSha256Hex stringify
            1700000000000 (Some Examples.riskyZone) Examples.insideEvent
            [signed; unsigned])
       = [("wh-1", Some (hmacSha256Hex "s3cr3t" (stringify Examples.insideEvent)));
          ("wh-2", Some (hmacSha256Hex "s3cr3t" (stringify Examples.insideEvent)))].
Proof.
  intros hmacSha256Hex stringify. cbv zeta. split; reflexivity.
Qed.

(** ** Health scores *)

Lemma updateConnectionHealth_lookup scores connectionId success responseTime :
  exists newScore,
    LoadBalancer.updateConnectionHealth scores connectionId success responseTime
      !! connectionId = Some newScore
    /\ 0 <= newScore <= 100.
Proof.
  unfold LoadBalancer.updateConnectionHealth.
  eexists. split; [apply lookup_insert_eq | lia].
Qed.

(** Away from the score 0 the update is the stated one, clamped. *)
Lemma updateConnectionHealth_nonzero scores connectionId score success responseTime :
  scores !! connectionId = Some score ->
  score <> 0 ->
  LoadBalancer.updateConnectionHealth scores connectionId success responseTime
    !! connectionId
  = Some (Z.max 0 (Z.min 100
            (score + (if success
                      then if responseTime <? 100 then 5
                           else if responseTime <? 500 then 2 else 1
                      else -10)))).
Proof.
  intros Hs Hnz. unfold LoadBalancer.updateConnectionHealth, LoadBalancer.scoreOrDefault.
  rewrite Hs, lookup_insert_eq. unfold falsyZ.
  destruct (Z.eqb_spec score 0); [contradiction | reflexivity].
Qed.

Lemma insertByKey_In {A} (key : A -> Z) (x z : A) (sorted : list A) :
  In z (LoadBalancer.insertByKey key x sorted) <-> z = x \/ In z sorted.
Proof.
  induction sorted as [|y rest IH]; simpl.
  - intuition.
  - destruct (key y <? key x); simpl; [intuition|].
    rewrite IH. intuition.
Qed.

Lemma insertByKey_headLargest {A} (key : A -> Z) (x : A) (sorted : list A) :
  headLargest key sorted -> headLargest key (LoadBalancer.insertByKey key x sorted).
Proof.
  destruct sorted as [|h rest]; simpl.
  - intros _ y [<- | []]. lia.
  - intros Hh. destruct (Z.ltb_spec (key h) (key x)); simpl.
    + intros y [<- | Hy]; [lia|]. specialize (Hh y Hy). lia.
    + intros y [<- | Hy]; [lia|].
      apply insertByKey_In in Hy. destruct Hy as [-> | Hy]; [lia|].
      apply Hh. right. exact Hy.
Qed.

Lemma sortByKeyDesc_spec {A} (key : A -> Z) (l : list A) :
  headLargest key (LoadBalancer.sortByKeyDesc key l)
  /\ forall z, In z (LoadBalancer.sortByKeyDesc key l) <-> In z l.
Proof.
  unfold LoadBalancer.sortByKeyDesc.
  assert (Hgen : forall acc,
            headLargest key acc ->
            headLargest key (fold_left (fun sorted x => LoadBalancer.insertByKey key x sorted) l acc)
            /\ forall z, In z (fold_left (fun sorted x => LoadBalancer.insertByKey key x sorted) l acc)
                         <-> In z acc \/ In z l).
  { induction l as [|x l IH]; intros acc Hacc; simpl.
    - split; [exact Hacc | intuition].
    - destruct (IH (LoadBalancer.insertByKey key x acc)
                  (insertByKey_headLargest key x acc Hacc)) as [Hh Hin].
      split; [exact Hh|]. intros z. rewrite Hin, insertByKey_In. intuition. }
  destruct (Hgen [] I) as [Hh Hin]. split; [exact Hh|].
  intros z. rewrite Hin. simpl. intuition.
Qed.

(** What [getBestConnection] does select: an available connection whose
    score, read with the default applied, is largest. *)
Lemma getBestConnection_largest scores availableConnections best :
  LoadBalancer.getBestConnection scores availableConnections = Ok best ->
  In best availableConnections
  /\ forall connectionId,
       In connectionId availableConnections ->
       LoadBalancer.scoreOrDefault scores connectionId
       <= LoadBalancer.scoreOrDefault scores best.
Proof.
  unfold LoadBalancer.getBestConnection.
  destruct (sortByKeyDesc_spec (LoadBalancer.scoreOrDefault scores) availableConnections)
    as [Hh Hin].
  destruct (LoadBalancer.sortByKeyDesc _ availableConnections) as [|h rest];
    [discriminate|].
  intros H; inversion H; subst h. split.
  - apply Hin. left. reflexivity.
  - intros c Hc. apply Hh. apply Hin. exact Hc.
Qed.

(** C8 (evaluation at the failing input). Five failures take a fresh
    connection from 50 to 0; the stored 0 is then read as 50, so a sixth
    failure stores 40 where a decrement would keep 0, a fast success stores
    55 where an increment would give 5, and a connection at 0 is preferred
    to one at 10. *)
Theorem health_score_zero_is_read_as_fifty :
  Examples.afterFiveFailures !! "primary" = Some 0
  /\ LoadBalancer.updateConnectionHealth Examples.afterFiveFailures "primary" false 800
       !! "primary" = Some 40
  /\ LoadBalancer.updateConnectionHealth Examples.afterFiveFailures "primary" true 50
       !! "primary" = Some 55
  /\ LoadBalancer.getBestConnection
       (<["replica-1" := 10]> Examples.afterFiveFailures) ["replica-1"; "primary"]
     = Ok "primary".
Proof. vm_compute. repeat split. Qed.

(** ** Rate limiting *)

Lemma filter_idempotent {A} (f : A -> bool) (l : list A) :
  List.filter f (List.filter f l) = List.filter f l.
Proof.
  induction l as [|x l IH]; simpl; [reflexivity|].
  destruct (f x) eqn:E; simpl; [rewrite E, IH|]; auto.
Qed.

(** While no request completes, a run of [processQueue] that may start
    dispatching dispatches the whole queue at the one clock reading. *)
Lemma processQueueRun_drains (fuel : nat) :
  forall (lb : LoadBalancer.t) (now : Z),
    (length (LoadBalancer.requestQueue lb) < fuel)%nat ->
    (LoadBalancer.canProcessRequest lb now).1 = true ->
    LoadBalancer.requestQueue (LoadBalancer.processQueueRun fuel lb now).1 = []
    /\ LoadBalancer.dispatched (LoadBalancer.processQueueRun fuel lb now).1
       = LoadBalancer.dispatched lb
         ++ map (fun request => (LoadBalancer.rq_id request, now))
              (LoadBalancer.requestQueue lb).
Proof.
  induction fuel as [|fuel IH]; intros lb now Hfuel Hcan; [lia|].
  destruct lb as [cfg queue window scores st times log].
  destruct queue as [|request rest]; simpl.
  - split; [reflexivity | symmetry; apply app_nil_r].
  - unfold LoadBalancer.canProcessRequest in Hcan. simpl in Hcan.
    rewrite Hcan. simpl.
    match goal with
    | |- context [LoadBalancer.processQueueRun fuel ?lb' now] =>
        destruct (IH lb' now) as [Hq Hd]
    end.
    + simpl in *. lia.
    + unfold LoadBalancer.canProcessRequest. simpl.
      rewrite filter_idempotent. exact Hcan.
    + split; [exact Hq|]. rewrite Hd. simpl. rewrite <- app_assoc. reflexivity.
Qed.

(** C9 (evaluation at the failing input). With a cap of 10 requests per
    1000 ms and 100 requests queued, one run of the governor loop hands all
    100 to [processRequest] at the same clock reading: the window only counts
    requests that have completed, and none has. *)
Theorem processQueue_exceeds_cap :
  LoadBalancer.maxRequestsPerSecond (LoadBalancer.config Examples.hundredQueued) = 10
  /\ LoadBalancer.requestQueue (LoadBalancer.processQueue Examples.hundredQueued 5000).1 = []
  /\ LoadBalancer.dispatchedWithin
       (LoadBalancer.processQueue Examples.hundredQueued 5000).1 4999 = 100%nat
  /\ (LoadBalancer.processQueue Examples.hundredQueued 5000).2
     = Some (LoadBalancer.QueueEmpty 10).
Proof. vm_compute. repeat split. Qed.

(** ** Tile38Service: the equator and the prime meridian *)

Lemma createZone_rejects_zero_coordinate_witness :
  GeospatialValidator.validateCoordinate (mkCoord 0 77.2090) = Ok true
  /\ throwsKind ZoneValidationError
       (Tile38Service.createZone
          (Tile38Service.mkService true (Tile38Service.mkHealthStats 0 0 0) ∅)
          None 3
          (mkZone "zone-eq" "Equator Zone" SAFE ACTIVE None []
             [mkCoord 0 77.2090; mkCoord 0 77.2100; mkCoord 0.001 77.2100]
             (mkBBox 0 77.2090 0.001 77.2100) None)).1.
Proof.
  split; [reflexivity|].
  apply (createZone_rejects_zero_coordinate
           (Tile38Service.mkService true (Tile38Service.mkHealthStats 0 0 0) ∅)
           None 3
           (mkZone "zone-eq" "Equator Zone" SAFE ACTIVE None []
              [mkCoord 0 77.2090; mkCoord 0 77.2100; mkCoord 0.001 77.2100]
              (mkBBox 0 77.2090 0.001 77.2100) None)
           (mkCoord 0 77.2090)).
  - simpl. left. reflexivity.
  - left. reflexivity.
Defined.
(** ** Bounding boxes *)

Lemma boundingBoxLoop_spec coordinates : forall acc,
  let bbox := GeospatialValidator.boundingBoxLoop coordinates acc in
  (minLat bbox <= minLat acc)%Q /\ (maxLat acc <= maxLat bbox)%Q
  /\ (minLon bbox <= minLon acc)%Q /\ (maxLon acc <= maxLon bbox)%Q
  /\ Forall (fun coord =>
               (minLat bbox <= latitude coord <= maxLat bbox)%Q
               /\ (minLon bbox <= longitude coord <= maxLon bbox)%Q) coordinates.
Proof.
  induction coordinates as [|coord rest IH]; intros acc; cbn [GeospatialValidator.boundingBoxLoop].
  - cbv zeta. repeat split; try apply Qle_refl. constructor.
  - specialize (IH (mkBBox (Qmin (minLat acc) (latitude coord))
                           (Qmin (minLon acc) (longitude coord))
                           (Qmax (maxLat acc) (latitude coord))
                           (Qmax (maxLon acc) (longitude coord)))).
    cbv zeta in *. cbn [minLat minLon maxLat maxLon] in IH.
    destruct IH as (H1 & H2 & H3 & H4 & Hall).
    pose proof (Q.le_min_l (minLat acc) (latitude coord)).
    pose proof (Q.le_min_r (minLat acc) (latitude coord)).
    pose proof (Q.le_min_l (minLon acc) (longitude coord)).
    pose proof (Q.le_min_r (minLon acc) (longitude coord)).
    pose proof (Q.le_max_l (maxLat acc) (latitude coord)).
    pose proof (Q.le_max_r (maxLat acc) (latitude coord)).
    pose proof (Q.le_max_l (maxLon acc) (longitude coord)).
    pose proof (Q.le_max_r (maxLon acc) (longitude coord)).
    repeat split; try (eapply Qle_trans; eassumption).
    constructor; [|exact Hall].
    repeat split; eapply Qle_trans; eassumption.
Qed.

(** A corner of the box is a coordinate of the ring, not merely a bound. *)
Lemma boundingBoxLoop_attained coordinates : forall acc,
  let bbox := GeospatialValidator.boundingBoxLoop coordinates acc in
  (minLat bbox = minLat acc \/ exists c, In c coordinates /\ minLat bbox = latitude c)
  /\ (maxLat bbox = maxLat acc \/ exists c, In c coordinates /\ maxLat bbox = latitude c)
  /\ (minLon bbox = minLon acc \/ exists c, In c coordinates /\ minLon bbox = longitude c)
  /\ (maxLon bbox = maxLon acc \/ exists c, In c coordinates /\ maxLon bbox = longitude c).
Proof.
  induction coordinates as [|coord rest IH]; intros acc; cbn [GeospatialValidator.boundingBoxLoop].
  - cbv zeta. auto.
  - specialize (IH (mkBBox (Qmin (minLat acc) (latitude coord))
                           (Qmin (minLon acc) (longitude coord))
                           (Qmax (maxLat acc) (latitude coord))
                           (Qmax (maxLon acc) (longitude coord)))).
    cbv zeta in *. cbn [minLat minLon maxLat maxLon] in IH.
    destruct IH as (H1 & H2 & H3 & H4).
    assert (Hmin : forall a b, Qmin a b = a \/ Qmin a b = b).
    { intros a b. unfold Qmin, GenericMinMax.gmin. destruct (a ?= b)%Q; auto. }
    assert (Hmax : forall a b, Qmax a b = a \/ Qmax a b = b).
    { intros a b. unfold Qmax, GenericMinMax.gmax. destruct (a ?= b)%Q; auto. }
    repeat split.
    + destruct H1 as [-> | (c & Hc & ->)]; [|right; exists c; simpl; auto].
      destruct (Hmin (minLat acc) (latitude coord)) as [-> | ->]; [auto|].
      right. exists coord. simpl. auto.
    + destruct H2 as [-> | (c & Hc & ->)]; [|right; exists c; simpl; auto].
      destruct (Hmax (maxLat acc) (latitude coord)) as [-> | ->]; [auto|].
      right. exists coord. simpl. auto.
    + destruct H3 as [-> | (c & Hc & ->)]; [|right; exists c; simpl; auto].
      destruct (Hmin (minLon acc) (longitude coord)) as [-> | ->]; [auto|].
      right. exists coord. simpl. auto.
    + destruct H4 as [-> | (c & Hc & ->)]; [|right; exists c; simpl; auto].
      destruct (Hmax (maxLon acc) (longitude coord)) as [-> | ->]; [auto|].
      right. exists coord. simpl. auto.
Qed.


(** ** What an accepted polygon guarantees *)

Lemma validateEach_sound coordinates : forall index,
  GeospatialValidator.validateEach coordinates index = Ok tt ->
  Forall (fun coord =>
            (-90 <= latitude coord <= 90)%Q /\ (-180 <= longitude coord <= 180)%Q)
         coordinates.
Proof.
  induction coordinates as [|coord rest IH]; intros index H; [constructor|].
  cbn [GeospatialValidator.validateEach] in H.
  destruct (GeospatialValidator.validateCoordinate coord) eqn:Ec; [|discriminate].
  constructor; [|eapply IH; eauto].
  unfold GeospatialValidator.validateCoordinate in Ec.
  destruct (Qlt_bool (latitude coord) (-90) || Qgt_bool (latitude coord) 90) eqn:E1;
    [discriminate|].
  destruct (Qlt_bool (longitude coord) (-180) || Qgt_bool (longitude coord) 180) eqn:E2;
    [discriminate|].
  apply orb_false_iff in E1, E2. destruct E1 as [E1 E1'], E2 as [E2 E2'].
  unfold Qgt_bool in *.
  repeat split; apply Qnot_lt_le; intros Hlt; apply Qlt_bool_iff in Hlt; congruence.
Qed.

(** X2. When [validateZonePolygon] accepts, the ring it leaves behind is the
    submitted one, or the submitted one followed by a copy of its first
    coordinate; the submitted ring had between 3 and 100 coordinates, all in
    range; and the ring left behind does not intersect itself (by the
    validator's own test) and has an area between 100 and 10^9 square
    metres. *)
Theorem validateZonePolygon_sound :
  forall (M : MathLib) (coordinates ring : list Coordinate),
    GeospatialValidator.validateZonePolygon M coordinates = Ok ring ->
    (ring = coordinates \/ ring = coordinates ++ take 1 coordinates)
    /\ (3 <= length coordinates <= 100)%nat
    /\ Forall (fun coord =>
                 (-90 <= latitude coord <= 90)%Q /\ (-180 <= longitude coord <= 180)%Q)
              coordinates
    /\ GeospatialValidator.isSelfIntersecting ring = false
    /\ (100 <= GeospatialValidator.calculatePolygonArea M ring <= 1000000000)%Q.
Proof.
  intros M coordinates ring H.
  unfold GeospatialValidator.validateZonePolygon in H.
  destruct (Nat.ltb_spec (length coordinates) 3); [discriminate|].
  destruct (Nat.ltb_spec 100 (length coordinates)); [discriminate|].
  destruct (GeospatialValidator.validateEach coordinates 0) as [[]|] eqn:Ee; [|discriminate].
  destruct (GeospatialValidator.isSelfIntersecting _) eqn:Es; [discriminate|].
  destruct (Qlt_bool _ 100) eqn:E1; [discriminate|].
  destruct (Qgt_bool _ 1000000000) eqn:E2; [discriminate|].
  inversion H; subst ring. clear H.
  split.
  { unfold GeospatialValidator.autoClose.
    destruct (GeospatialValidator.isClosedPolygon M coordinates); auto. }
  split; [lia|]. split; [eapply validateEach_sound; eauto|]. split; [exact Es|].
  split; apply Qnot_lt_le; intros Hlt; apply Qlt_bool_iff in Hlt;
    unfold Qgt_bool in *; congruence.
Qed.

(** ** Segment and polygon intersection *)

Lemma linesIntersect_sym (line1 line2 : Coordinate * Coordinate) :
  GeospatialValidator.linesIntersect line1 line2
  = GeospatialValidator.linesIntersect line2 line1.
Proof.
  destruct line1 as [p1 q1], line2 as [p2 q2].
  unfold GeospatialValidator.linesIntersect.
  generalize (GeospatialValidator.orientation p1 q1 p2) as o1.
  generalize (GeospatialValidator.orientation p1 q1 q2) as o2.
  generalize (GeospatialValidator.orientation p2 q2 p1) as o3.
  generalize (GeospatialValidator.orientation p2 q2 q1) as o4.
  generalize (GeospatialValidator.onSegment p1 p2 q1) as s1.
  generalize (GeospatialValidator.onSegment p1 q2 q1) as s2.
  generalize (GeospatialValidator.onSegment p2 p1 q2) as s3.
  generalize (GeospatialValidator.onSegment p2 q1 q2) as s4.
  intros s4 s3 s2 s1 o4 o3 o2 o1.
  destruct (o1 =? o2)%Z, (o3 =? o4)%Z, (o1 =? 0)%Z, (o2 =? 0)%Z, (o3 =? 0)%Z, (o4 =? 0)%Z,
    s1, s2, s3, s4; reflexivity.
Qed.

Lemma edgesIntersect_sym c1 i c2 j :
  GeospatialValidator.edgesIntersect c1 i c2 j
  = GeospatialValidator.edgesIntersect c2 j c1 i.
Proof.
  unfold GeospatialValidator.edgesIntersect.
  destruct (GeospatialValidator.edge c1 i), (GeospatialValidator.edge c2 j);
    try reflexivity.
  apply linesIntersect_sym.
Qed.

Lemma existsb_ext_in {A} (f g : A -> bool) (l : list A) :
  (forall a, In a l -> f a = g a) -> existsb f l = existsb g l.
Proof.
  induction l as [|a l IH]; intros H; [reflexivity|].
  cbn [existsb]. rewrite (H a (or_introl eq_refl)), IH; [reflexivity|].
  intros b Hb. apply H. right. exact Hb.
Qed.

Lemma existsb_swap {A B} (f : A -> B -> bool) (la : list A) (lb : list B) :
  existsb (fun a => existsb (fun b => f a b) lb) la
  = existsb (fun b => existsb (fun a => f a b) la) lb.
Proof.
  apply eq_true_iff_eq. rewrite !existsb_exists. split.
  - intros (a & Ha & H). apply existsb_exists in H. destruct H as (b & Hb & H).
    exists b. split; [exact Hb|]. apply existsb_exists. eauto.
  - intros (b & Hb & H). apply existsb_exists in H. destruct H as (a & Ha & H).
    exists a. split; [exact Ha|]. apply existsb_exists. eauto.
Qed.

(** X3. The overlap test does not depend on the order of its arguments:
    [polygonsOverlap a b] and [polygonsOverlap b a] agree for all rings. *)
Theorem polygonsOverlap_symmetric :
  forall (polygon1 polygon2 : list Coordinate),
    GeospatialValidator.polygonsOverlap polygon1 polygon2
    = GeospatialValidator.polygonsOverlap polygon2 polygon1.
Proof.
  intros polygon1 polygon2. unfold GeospatialValidator.polygonsOverlap.
  rewrite (existsb_swap
             (fun i j => GeospatialValidator.edgesIntersect polygon1 i polygon2 j)).
  assert (Hedges :
    existsb (fun j => existsb (fun i =>
        GeospatialValidator.edgesIntersect polygon1 i polygon2 j)
        (seq 0 (length polygon1 - 1))) (seq 0 (length polygon2 - 1))
    = existsb (fun j => existsb (fun i =>
        GeospatialValidator.edgesIntersect polygon2 j polygon1 i)
        (seq 0 (length polygon1 - 1))) (seq 0 (length polygon2 - 1))).
  { apply existsb_ext_in. intros j _. apply existsb_ext_in. intros i _.
    apply edgesIntersect_sym. }
  rewrite Hedges.
  destruct (existsb _ polygon1), (existsb _ polygon2); reflexivity.
Qed.

(** X4. A ring of at most four coordinates, which is what a triangle is once
    closed, is never reported as self-intersecting, wherever its vertices
    lie. *)
Theorem isSelfIntersecting_needs_five :
  forall (coordinates : list Coordinate),
    (length coordinates <= 4)%nat ->
    GeospatialValidator.isSelfIntersecting coordinates = false.
Proof.
  intros coordinates Hlen.
  destruct coordinates as [|a [|b [|c [|d [|e rest]]]]]; try reflexivity.
  simpl in Hlen. lia.
Qed.

(** ** ConnectionManager: which handle a call gets *)

Lemma elem_of_connectedReplicas (p : Pool) (h : Handle) :
  h ∈ ConnectionManager.connectedReplicas p
  <-> exists i, h = Replica i /\ replicasConnected p !! i = Some true.
Proof.
  unfold ConnectionManager.connectedReplicas. rewrite list_elem_of_omap. split.
  - intros ([i c] & Hin & Hc). apply list_elem_of_lookup in Hin as [k Hk].
    rewrite list_lookup_imap in Hk.
    destruct (replicasConnected p !! k) as [c'|] eqn:E; [|discriminate].
    simpl in Hk. inversion Hk; subst i c'. destruct c; [|discriminate].
    inversion Hc. eauto.
  - intros (i & -> & Hi). exists (i, true). split; [|reflexivity].
    apply list_elem_of_lookup. exists i. rewrite list_lookup_imap, Hi. reflexivity.
Qed.

Lemma connectedReplicas_nil (p : Pool) :
  ConnectionManager.connectedReplicas p = [] ->
  Forall (fun c => c = false) (replicasConnected p).
Proof.
  intros Hnil. apply Forall_forall. intros c Hin.
  destruct c; [|reflexivity]. exfalso.
  apply list_elem_of_lookup in Hin as [i Hi].
  assert (Replica i ∈ ConnectionManager.connectedReplicas p) as Hel
    by (apply elem_of_connectedReplicas; eauto).
  rewrite Hnil in Hel. inversion Hel.
Qed.

Lemma getReadConnection_lookup (w : World) :
  let available := ReadConnections.availableConnections (pool w) in
  ConnectionManager.getReadConnection w
  = match available !! (roundRobinIndex (pool w) mod length available)%nat with
    | None =>
        (throwKind Tile38ConnectionError
           "No healthy connections available for read operations", w)
    | Some connection =>
        (Ok connection,
         ConnectionManager.setPool w
           (mkPool (primaryConnected (pool w)) (replicasConnected (pool w))
              (S (roundRobinIndex (pool w)))))
    end.
Proof. reflexivity. Qed.

(** X5. [getReadConnection] hands out connected connections only: the primary
    only when it is connected, replica [i] only when replica [i] is
    connected; the call then advances the round-robin index by one and
    changes nothing else.  It throws a [Tile38ConnectionError] exactly when
    neither the primary nor any replica is connected, and then leaves the
    pool as it was. *)
Theorem getReadConnection_connected :
  forall (w : World),
    match ConnectionManager.getReadConnection w with
    | (Ok connection, w') =>
        match connection with
        | Primary => primaryConnected (pool w) = true
        | Replica i => replicasConnected (pool w) !! i = Some true
        end
        /\ w' = ConnectionManager.setPool w
                  (mkPool (primaryConnected (pool w)) (replicasConnected (pool w))
                     (S (roundRobinIndex (pool w))))
    | (Throw e, w') =>
        exn_kind e = Tile38ConnectionError
        /\ w' = w
        /\ primaryConnected (pool w) = false
        /\ Forall (fun c => c = false) (replicasConnected (pool w))
    end.
Proof.
  intros w. rewrite getReadConnection_lookup. cbv zeta.
  set (available := ReadConnections.availableConnections (pool w)).
  destruct (available !! (roundRobinIndex (pool w) mod length available)%nat)
    as [connection|] eqn:E.
  - split; [|reflexivity].
    apply list_elem_of_lookup_2 in E. subst available.
    unfold ReadConnections.availableConnections in E.
    apply elem_of_app in E as [E|E].
    + destruct (primaryConnected (pool w)) eqn:Ep.
      * apply list_elem_of_singleton in E. subst connection. reflexivity.
      * inversion E.
    + apply elem_of_connectedReplicas in E as (i & -> & Hi). exact Hi.
  - assert (Hnil : available = []).
    { destruct available as [|h rest] eqn:Ea; [reflexivity|]. exfalso.
      apply lookup_ge_None in E.
      pose proof (Nat.mod_upper_bound (roundRobinIndex (pool w)) (length (h :: rest))).
      simpl in *. lia. }
    subst available. unfold ReadConnections.availableConnections in Hnil.
    apply app_eq_nil in Hnil as [Hp Hr].
    repeat split.
    + destruct (primaryConnected (pool w)); [discriminate|reflexivity].
    + apply connectedReplicas_nil. exact Hr.
Qed.

Lemma consecutiveReads_lookup : forall (k : nat) (w : World) (i : nat),
  (i < k)%nat ->
  let available := ReadConnections.availableConnections (pool w) in
  (0 < length available)%nat ->
  ReadConnections.consecutiveReads k w !! i
  = Ok <$> available !! ((roundRobinIndex (pool w) + i) mod length available)%nat.
Proof.
  induction k as [|k IH]; intros w i Hi available Hlen; [lia|].
  cbn [ReadConnections.consecutiveReads]. rewrite getReadConnection_lookup. cbv zeta.
  fold available.
  destruct (available !! (roundRobinIndex (pool w) mod length available)%nat)
    as [connection|] eqn:E.
  2:{ apply lookup_ge_None in E.
      pose proof (Nat.mod_upper_bound (roundRobinIndex (pool w)) (length available)).
      lia. }
  destruct i as [|i].
  - simpl. rewrite Nat.add_0_r, E. reflexivity.
  - simpl. rewrite IH by (try lia; exact Hlen).
    cbn [pool ConnectionManager.setPool roundRobinIndex].
    unfold ReadConnections.availableConnections, ConnectionManager.connectedReplicas.
    cbn [primaryConnected replicasConnected].
    replace (S (roundRobinIndex (pool w)) + i)%nat
      with (roundRobinIndex (pool w) + S i)%nat by lia.
    reflexivity.
Qed.

Lemma consecutiveReads_length (k : nat) : forall w,
  length (ReadConnections.consecutiveReads k w) = k.
Proof.
  induction k as [|k IH]; intros w; [reflexivity|].
  cbn [ReadConnections.consecutiveReads].
  destruct (ConnectionManager.getReadConnection w) as [r w']. simpl. rewrite IH.
  reflexivity.
Qed.

(** X6. Round robin is fair: when [n > 0] connections are available, [n]
    reads in a row return every available connection exactly once, in pool
    order starting at position [roundRobinIndex mod n]. *)
Theorem getReadConnection_round_robin :
  forall (w : World),
    let available := ReadConnections.availableConnections (pool w) in
    (0 < length available)%nat ->
    ReadConnections.consecutiveReads (length available) w
    = Ok <$> rotate (roundRobinIndex (pool w)) available.
Proof.
  intros w available Hlen. apply list_eq. intros i.
  destruct (Nat.lt_ge_cases i (length available)) as [Hi|Hi].
  - rewrite consecutiveReads_lookup by (try exact Hi; exact Hlen).
    fold available. rewrite list_lookup_fmap, lookup_rotate_r by exact Hi.
    unfold rotate_nat_add.
    rewrite <- Nat2Z.inj_add, <- Nat2Z.inj_mod, Nat2Z.id. reflexivity.
  - rewrite !(proj2 (lookup_ge_None _ _)); [reflexivity| |].
    + rewrite length_fmap, length_rotate. exact Hi.
    + rewrite consecutiveReads_length. exact Hi.
Qed.

(** ** ConnectionManager: what the retry loop leaves behind *)

Section LoopInvariants.
Context {T : Type}.
Variable acquire : World -> Result Handle * World.
Variable exhausted : string.
Variable operation : ConnectionManager.Operation T.

Lemma attemptLoop_log (P : Effect -> Prop) :
  (forall w h w', acquire w = (Ok h, w') ->
                  P (EvAcquired h) /\ forall ok, P (EvInvoked h ok)) ->
  P EvAcquireFailed ->
  (forall ms, P (EvDelay ms)) ->
  forall remaining attempt w log,
    Forall P log ->
    Forall P (ConnectionManager.run_log
                (ConnectionManager.attemptLoop acquire exhausted operation
                   remaining attempt w log)).
Proof.
  intros Hacq Hfail Hdelay.
  induction remaining as [|remaining IH]; intros attempt w log Hlog; [exact Hlog|].
  cbn [ConnectionManager.attemptLoop].
  destruct (acquire w) as [[h|e] w1] eqn:Ea.
  - destruct (Hacq _ _ _ Ea) as [Ha Hi].
    destruct (operation h w1) as [[v|e] w2].
    + cbn. apply Forall_app_2; [exact Hlog|]. repeat constructor; auto.
    + destruct (attempt <? _)%nat; apply IH;
        repeat (apply Forall_app_2; [|repeat constructor; auto]); exact Hlog.
  - destruct (attempt <? _)%nat; apply IH;
      repeat (apply Forall_app_2; [|repeat constructor; auto]); exact Hlog.
Qed.

Lemma attemptLoop_world (I : World -> Prop) :
  (forall w r w', acquire w = (r, w') -> I w -> I w') ->
  (forall h w e w', operation h w = (Throw e, w') -> I w -> I w') ->
  (forall ms w, I w -> I (ConnectionManager.delay ms w)) ->
  forall remaining attempt w log,
    I w ->
    let run := ConnectionManager.attemptLoop acquire exhausted operation
                 remaining attempt w log in
    match ConnectionManager.run_result run with
    | Throw e =>
        I (ConnectionManager.run_world run)
        /\ e = mkExn Tile38ConnectionError exhausted
    | Ok v =>
        exists h w0, I w0 /\ (acquire w0).1 = Ok h
          /\ operation h (acquire w0).2 = (Ok v, ConnectionManager.run_world run)
    end.
Proof.
  intros Hacq Hop Hdelay.
  induction remaining as [|remaining IH]; intros attempt w log Hw; [cbn; auto|].
  cbn [ConnectionManager.attemptLoop].
  destruct (acquire w) as [[h|e] w1] eqn:Ea.
  - pose proof (Hacq _ _ _ Ea Hw) as Hw1.
    destruct (operation h w1) as [[v|e] w2] eqn:Eo.
    + cbn. exists h, w. rewrite Ea. cbn. auto.
    + pose proof (Hop _ _ _ _ Eo Hw1) as Hw2.
      destruct (attempt <? _)%nat; apply IH; auto.
  - pose proof (Hacq _ _ _ Ea Hw) as Hw1.
    destruct (attempt <? _)%nat; apply IH; auto.
Qed.
End LoopInvariants.

(** X7. [executeWrite] runs its operation on the primary and on nothing else:
    every handle acquired or used during a call is the primary, whatever the
    operation does and however often it is retried. *)
Theorem executeWrite_primary_only :
  forall (T : Type) (operation : ConnectionManager.Operation T) (w : World),
    Forall (fun e => match e with
                     | EvAcquired h | EvInvoked h _ => h = Primary
                     | _ => True
                     end)
           (ConnectionManager.run_log (ConnectionManager.executeWrite operation w)).
Proof.
  intros T operation w. unfold ConnectionManager.executeWrite.
  apply attemptLoop_log; auto.
  intros w0 h w' H. unfold ConnectionManager.getWriteConnection in H.
  destruct (negb _); inversion H; auto.
Qed.

(** X8. While the primary is down a write is never sent: [executeWrite] does
    not invoke the operation at all, fails to acquire three times with
    sleeps of 1000 ms and 2000 ms in between, throws the
    [Tile38ConnectionError] of the exhausted loop, and leaves the world as it
    was but for the 3000 ms that have passed. *)
Theorem executeWrite_primary_down :
  forall (T : Type) (operation : ConnectionManager.Operation T) (w : World),
    primaryConnected (pool w) = false ->
    ConnectionManager.executeWrite operation w
    = ConnectionManager.mkRun
        (throwKind Tile38ConnectionError "All write operation attempts failed")
        (mkWorld (pool w) (serverZones w) (clock w + 3000))
        [EvAcquireFailed; EvDelay 1000; EvAcquireFailed; EvDelay 2000; EvAcquireFailed].
Proof.
  intros T operation w Hdown.
  assert (Hacq : forall w', primaryConnected (pool w') = false ->
            ConnectionManager.getWriteConnection w'
            = (throwKind Tile38ConnectionError
                 "Primary connection not available for write operations", w')).
  { intros w' H. unfold ConnectionManager.getWriteConnection. rewrite H. reflexivity. }
  unfold ConnectionManager.executeWrite, ConnectionManager.MAX_CONNECTION_ATTEMPTS.
  cbn [ConnectionManager.attemptLoop].
  rewrite (Hacq w Hdown). cbn [throwKind Nat.ltb Nat.leb Nat.sub].
  rewrite (Hacq (ConnectionManager.delay _ w) Hdown). cbn [throwKind Nat.ltb Nat.leb Nat.sub].
  rewrite (Hacq (ConnectionManager.delay _ (ConnectionManager.delay _ w)) Hdown).
  cbn [throwKind Nat.ltb Nat.leb Nat.sub app].
  unfold ConnectionManager.delay. cbn [pool serverZones clock].
  f_equal. f_equal. lia.
Qed.

(** ** ZoneManagementService: the cache *)

(** X9. The zone cache honours its time to live.  A zone cached at a clock
    reading other than 0 is served as long as no more than 300000 ms have
    passed, and the lookup leaves the cache as it is.  Once more than
    300000 ms have passed, or when it was cached at the reading 0 (which
    [!timestamp] takes for a missing stamp), the lookup returns nothing and
    drops the entry. *)
Theorem getCachedZone_time_to_live :
  forall (svc : ZoneManagementService.t) (stamp now : Z) (zone : Zone),
    let cached := ZoneManagementService.cacheZone svc stamp zone in
    (stamp <> 0 -> now - stamp <= ZoneManagementService.CACHE_TTL ->
     ZoneManagementService.getCachedZone cached now (zone_id zone) = (Some zone, cached))
    /\ (stamp = 0 \/ ZoneManagementService.CACHE_TTL < now - stamp ->
        ZoneManagementService.getCachedZone cached now (zone_id zone)
        = (None, ZoneManagementService.removeCachedZone svc (zone_id zone))).
Proof.
  intros svc stamp now zone cached.
  assert (Hremove : ZoneManagementService.removeCachedZone cached (zone_id zone)
                    = ZoneManagementService.removeCachedZone svc (zone_id zone)).
  { unfold ZoneManagementService.removeCachedZone, cached,
      ZoneManagementService.cacheZone. cbn. rewrite !delete_insert_eq. reflexivity. }
  unfold ZoneManagementService.getCachedZone.
  assert (Hstamp : ZoneManagementService.cacheTimestamps cached !! zone_id zone
                   = Some stamp) by apply lookup_insert_eq.
  assert (Hzone : ZoneManagementService.zoneCache cached !! zone_id zone = Some zone)
    by apply lookup_insert_eq.
  rewrite Hstamp, Hzone, Hremove. unfold falsyZ. split.
  - intros Hnz Hfresh.
    destruct (Z.eqb_spec stamp 0); [contradiction|].
    destruct (Z.ltb_spec ZoneManagementService.CACHE_TTL (now - stamp)); [lia|].
    reflexivity.
  - intros [Hz|Hold].
    + destruct (Z.eqb_spec stamp 0); [reflexivity|contradiction].
    + destruct (Z.ltb_spec ZoneManagementService.CACHE_TTL (now - stamp)); [|lia].
      rewrite orb_true_r. reflexivity.
Qed.

(** ** ZoneManagementService: what a call leaves in the index *)

Lemma getReadConnection_zones (w w' : World) (r : Result Handle) :
  ConnectionManager.getReadConnection w = (r, w') -> serverZones w' = serverZones w.
Proof.
  unfold ConnectionManager.getReadConnection.
  destruct (_ !! _); intros H; inversion H; reflexivity.
Qed.

Lemma getWriteConnection_world (w w' : World) (r : Result Handle) :
  ConnectionManager.getWriteConnection w = (r, w') ->
  w' = w /\ (isOk r = true -> primaryConnected (pool w) = true).
Proof.
  unfold ConnectionManager.getWriteConnection.
  destruct (primaryConnected (pool w)); intros H; inversion H; auto.
Qed.

Lemma searchByBounds_zones SI (w : World) (bbox : BoundingBox) :
  serverZones (ZoneManagementService.searchByBounds SI w bbox).2 = serverZones w.
Proof.
  unfold ZoneManagementService.searchByBounds, ConnectionManager.executeRead.
  pose proof (attemptLoop_world ConnectionManager.getReadConnection
                "All read operation attempts failed"
                (ZoneManagementService.opIntersectsBounds SI 100 bbox)
                (fun w' => serverZones w' = serverZones w)) as Hinv.
  specialize (Hinv
    ltac:(intros w0 r w' H Hw; rewrite <- Hw; eapply getReadConnection_zones; eauto)
    ltac:(intros h w0 e w' H; inversion H)
    ltac:(intros ms w0 Hw; exact Hw)
    ConnectionManager.MAX_CONNECTION_ATTEMPTS 0%nat w [] eq_refl).
  cbv zeta in Hinv.
  set (run := ConnectionManager.attemptLoop _ _ _ _ _ _ _) in *.
  destruct (ConnectionManager.run_result run) as [zones|e].
  - destruct Hinv as (h & w0 & Hw0 & Hh & Hop). cbn [snd].
    assert (Hw' : (ConnectionManager.getReadConnection w0).2
                  = ConnectionManager.run_world run)
      by (unfold ZoneManagementService.opIntersectsBounds in Hop; congruence).
    rewrite <- Hw', <- Hw0. eapply getReadConnection_zones. apply surjective_pairing.
  - destruct Hinv as [Hw _]. exact Hw.
Qed.

Lemma checkZoneOverlaps_zones SI (w : World) (zone : Zone) (exclude : option string) :
  serverZones (ZoneManagementService.checkZoneOverlaps SI w zone exclude).2
  = serverZones w.
Proof.
  unfold ZoneManagementService.checkZoneOverlaps.
  pose proof (searchByBounds_zones SI w (zone_boundingBox zone)) as Hs.
  destruct (ZoneManagementService.searchByBounds SI w (zone_boundingBox zone))
    as [[zones|e] w1]; exact Hs.
Qed.

Lemma overlapLoop_kind coordinates exclude zones e :
  ZoneManagementService.overlapLoop coordinates exclude zones = Throw e ->
  exn_kind e = ZoneValidationError.
Proof.
  induction zones as [|zone rest IH]; cbn [ZoneManagementService.overlapLoop];
    [discriminate|].
  destruct (match exclude with Some _ => _ | None => _ end); [exact IH|].
  destruct (GeospatialValidator.polygonsOverlap _ _); [|exact IH].
  intros H. inversion H. reflexivity.
Qed.

Lemma checkZoneOverlaps_kind SI (w : World) (zone : Zone) (exclude : option string) e :
  (ZoneManagementService.checkZoneOverlaps SI w zone exclude).1 = Throw e ->
  exn_kind e = ZoneValidationError.
Proof.
  unfold ZoneManagementService.checkZoneOverlaps, ZoneManagementService.searchByBounds.
  destruct (ConnectionManager.run_result _) as [zones|e0]; cbn [fst].
  - apply overlapLoop_kind.
  - intros H. inversion H. reflexivity.
Qed.

Lemma storeZoneInTile38_zones (w : World) (zone : Zone) :
  match (ZoneManagementService.storeZoneInTile38 w zone).1 with
  | Ok _ =>
      serverZones (ZoneManagementService.storeZoneInTile38 w zone).2
      = <[zone_id zone := (ZoneManagementService.fieldsOf zone, zone_coordinates zone)]>
          (serverZones w)
      /\ primaryConnected (pool (ZoneManagementService.storeZoneInTile38 w zone).2) = true
  | Throw e =>
      serverZones (ZoneManagementService.storeZoneInTile38 w zone).2 = serverZones w
      /\ exn_kind e = Tile38ConnectionError
  end.
Proof.
  unfold ZoneManagementService.storeZoneInTile38, ConnectionManager.executeWrite.
  pose proof (attemptLoop_world ConnectionManager.getWriteConnection
                "All write operation attempts failed"
                (ZoneManagementService.opSet zone)
                (fun w' => serverZones w' = serverZones w)) as Hinv.
  specialize (Hinv
    ltac:(intros w0 r w' H Hw; apply getWriteConnection_world in H as [-> _]; exact Hw)
    ltac:(intros h w0 e w' H; inversion H)
    ltac:(intros ms w0 Hw; exact Hw)
    ConnectionManager.MAX_CONNECTION_ATTEMPTS 0%nat w [] eq_refl).
  cbv zeta in Hinv. cbn [fst snd].
  set (run := ConnectionManager.attemptLoop _ _ _ _ _ _ _) in *.
  destruct (ConnectionManager.run_result run) as [v|e].
  - destruct Hinv as (h & w0 & Hw0 & Hh & Hop).
    destruct (ConnectionManager.getWriteConnection w0) as [r w1] eqn:Ea.
    apply getWriteConnection_world in Ea as [-> Hup]. cbn [fst snd] in *.
    subst r. unfold ZoneManagementService.opSet in Hop.
    assert (Hw' : ConnectionManager.run_world run
                  = mkWorld (pool w0)
                      (<[zone_id zone := (ZoneManagementService.fieldsOf zone,
                                          zone_coordinates zone)]> (serverZones w0))
                      (clock w0)) by congruence.
    rewrite Hw'. cbn [serverZones pool]. rewrite Hw0. split; [reflexivity|].
    apply Hup. reflexivity.
  - destruct Hinv as [Hw ->]. split; [exact Hw|reflexivity].
Qed.

Lemma getDefaultRiskLevel_range (type : ZoneType) :
  (1 <= ZoneManagementService.getDefaultRiskLevel type <= 10)%Q.
Proof. destruct type; split; apply Qle_bool_iff; reflexivity. Qed.

Lemma validateZoneCreationRequest_riskLevel request r :
  ZoneManagementService.validateZoneCreationRequest request = Ok tt ->
  ZoneManagementService.req_riskLevel request = Some r ->
  (1 <= r <= 10)%Q.
Proof.
  unfold ZoneManagementService.validateZoneCreationRequest. intros H Hr.
  destruct (falsyS _); [discriminate|].
  destruct (GeospatialValidator.validateZoneName _); [|discriminate].
  cbn in H. destruct (falsyS _); [discriminate|].
  rewrite Hr in H. destruct (Qlt_bool r 1 || Qgt_bool r 10) eqn:E; [discriminate|].
  apply orb_false_iff in E as [E1 E2]. unfold Qgt_bool in E2.
  split; apply Qnot_lt_le; intros Hlt; apply Qlt_bool_iff in Hlt; congruence.
Qed.

Lemma getCachedZone_fresh (svc : ZoneManagementService.t) (stamp now : Z) (zone : Zone) :
  stamp <> 0 -> now - stamp <= ZoneManagementService.CACHE_TTL ->
  ZoneManagementService.getCachedZone
    (ZoneManagementService.cacheZone svc stamp zone) now (zone_id zone)
  = (Some zone, ZoneManagementService.cacheZone svc stamp zone).
Proof.
  intros Hnz Hfresh. unfold ZoneManagementService.getCachedZone.
  cbn [ZoneManagementService.cacheZone ZoneManagementService.cacheTimestamps
       ZoneManagementService.zoneCache].
  rewrite !lookup_insert_eq. unfold falsyZ.
  destruct (Z.eqb_spec stamp 0); [contradiction|].
  destruct (Z.ltb_spec ZoneManagementService.CACHE_TTL (now - stamp)); [lia|].
  reflexivity.
Qed.

Lemma createZone_returns_stored SI M svc w uuid request zone :
  (ZoneManagementService.createZone SI M svc w uuid request).1.1 = Ok zone ->
  zone_id zone = uuid
  /\ ((length (zone_coordinates zone) = 4 \/ length (zone_coordinates zone) = 5)%nat
      /\ (1 <= ZoneManagementService.metadataRiskLevel zone)%Q
      /\ serverZones (ZoneManagementService.createZone SI M svc w uuid request).2
         = <[uuid := (ZoneManagementService.fieldsOf zone, zone_coordinates zone)]>
             (serverZones w)
      /\ primaryConnected
           (pool (ZoneManagementService.createZone SI M svc w uuid request).2) = true)
  /\ (ZoneManagementService.createZone SI M svc w uuid request).1.2
     = ZoneManagementService.cacheZone svc
         (clock (ZoneManagementService.createZone SI M svc w uuid request).2) zone.
Proof.
  unfold ZoneManagementService.createZone.
  destruct (ZoneManagementService.validateZoneCreationRequest request) as [[]|] eqn:Er;
    [|discriminate].
  destruct (GeospatialValidator.calculateBoundingBox _) as [bbox|]; [|discriminate].
  destruct (GeospatialValidator.validateZonePolygon M _) as [ring|]; [|discriminate].
  destruct (GeospatialValidator.validateFourCoordinatePolygon ring) eqn:Ef;
    [|discriminate].
  apply validateFourCoordinatePolygon_length in Ef.
  match goal with
  | |- context [ZoneManagementService.checkZoneOverlaps SI w ?z None] =>
      set (built := z);
      pose proof (checkZoneOverlaps_zones SI w built None) as Hchk;
      destruct (ZoneManagementService.checkZoneOverlaps SI w built None)
        as [[[]|] w1]; [|discriminate]
  end.
  pose proof (storeZoneInTile38_zones w1 built) as Hst.
  destruct (ZoneManagementService.storeZoneInTile38 w1 built) as [[[]|] w2];
    [|discriminate].
  cbn [fst snd] in *. destruct Hst as [Hst Hup]. rewrite Hchk in Hst.
  intros H. inversion H. subst zone.
  split; [reflexivity|]. split; [|reflexivity].
  split; [exact Ef|]. split; [|split; [exact Hst|exact Hup]].
  unfold ZoneManagementService.metadataRiskLevel, ZoneManagementService.orFive.
  cbn [built zone_metadata riskLevel].
  assert (Hrisk : (1 <= match ZoneManagementService.req_riskLevel request with
                        | Some r => if falsyQ r
                                    then ZoneManagementService.getDefaultRiskLevel
                                           (ZoneManagementService.req_type request)
                                    else r
                        | None => ZoneManagementService.getDefaultRiskLevel
                                    (ZoneManagementService.req_type request)
                        end)%Q).
  { destruct (ZoneManagementService.req_riskLevel request) as [r|] eqn:Erisk.
    - destruct (falsyQ r); [apply getDefaultRiskLevel_range|].
      eapply validateZoneCreationRequest_riskLevel; eauto.
    - apply getDefaultRiskLevel_range. }
  destruct (falsyQ _) eqn:Ez; [apply Qle_bool_iff; reflexivity|exact Hrisk].
Qed.

(** X10. What a successful [createZone] returns is what it stored.  The zone
    carries the identifier handed out, the request's name and type, the
    status ACTIVE, a ring of four or five coordinates and a risk level
    between 1 and 10; the index holds exactly this zone's fields and ring
    under that identifier and is otherwise as before; and the cache holds
    the zone, stamped with the clock reading at the end of the call. *)
Theorem createZone_stores_what_it_returns :
  forall (SI : BoundingBox -> list Coordinate -> bool) (M : MathLib)
         (svc : ZoneManagementService.t) (w : World) (uuid : string)
         (request : ZoneManagementService.ZoneCreationRequest) (zone : Zone),
    let out := ZoneManagementService.createZone SI M svc w uuid request in
    out.1.1 = Ok zone ->
    zone_id zone = uuid
    /\ zone_name zone = ZoneManagementService.req_name request
    /\ zone_type zone = ZoneManagementService.req_type request
    /\ zone_status zone = ACTIVE
    /\ (length (zone_coordinates zone) = 4 \/ length (zone_coordinates zone) = 5)%nat
    /\ (exists metadata, zone_metadata zone = Some metadata
          /\ (1 <= riskLevel metadata <= 10)%Q
          /\ createdBy metadata = ZoneManagementService.req_createdBy request)
    /\ serverZones out.2
       = <[uuid := (ZoneManagementService.fieldsOf zone, zone_coordinates zone)]>
           (serverZones w)
    /\ out.1.2 = ZoneManagementService.cacheZone svc (clock out.2) zone.
Proof.
  intros SI M svc w uuid request zone out. subst out.
  unfold ZoneManagementService.createZone.
  destruct (ZoneManagementService.validateZoneCreationRequest request) as [[]|] eqn:Er;
    [|discriminate].
  destruct (GeospatialValidator.calculateBoundingBox _) as [bbox|]; [|discriminate].
  destruct (GeospatialValidator.validateZonePolygon M _) as [ring|]; [|discriminate].
  destruct (GeospatialValidator.validateFourCoordinatePolygon ring) eqn:Ef;
    [|discriminate].
  apply validateFourCoordinatePolygon_length in Ef.
  match goal with
  | |- context [ZoneManagementService.checkZoneOverlaps SI w ?z None] =>
      set (built := z);
      pose proof (checkZoneOverlaps_zones SI w built None) as Hchk;
      destruct (ZoneManagementService.checkZoneOverlaps SI w built None)
        as [[[]|] w1]; [|discriminate]
  end.
  pose proof (storeZoneInTile38_zones w1 built) as Hst.
  destruct (ZoneManagementService.storeZoneInTile38 w1 built) as [[[]|] w2];
    [|discriminate].
  cbn [fst snd] in *. destruct Hst as [Hst _]. rewrite Hchk in Hst.
  intros H. inversion H. subst zone.
  repeat split; try reflexivity; try exact Ef; try exact Hst.
  eexists. split; [reflexivity|]. cbn [riskLevel createdBy]. split; [|reflexivity].
  destruct (ZoneManagementService.req_riskLevel request) as [r|] eqn:Erisk.
  - pose proof (validateZoneCreationRequest_riskLevel request r Er Erisk) as Hr.
    destruct (falsyQ r) eqn:Ez; [|exact Hr].
    apply falsyQ_iff in Ez. rewrite Ez in Hr. destruct Hr as [Hr _].
    exfalso. apply (Qlt_not_le 0 1); [reflexivity|exact Hr].
  - apply getDefaultRiskLevel_range.
Qed.

Lemma createZone_failure_atomic SI M svc w uuid request e :
  (ZoneManagementService.createZone SI M svc w uuid request).1.1 = Throw e ->
  (ZoneManagementService.createZone SI M svc w uuid request).1.2 = svc
  /\ serverZones (ZoneManagementService.createZone SI M svc w uuid request).2
     = serverZones w.
Proof.
  unfold ZoneManagementService.createZone.
  destruct (ZoneManagementService.validateZoneCreationRequest request) as [[]|e0];
    [|cbn; auto].
  destruct (GeospatialValidator.calculateBoundingBox _) as [bbox|e0]; [|cbn; auto].
  destruct (GeospatialValidator.validateZonePolygon M _) as [ring|e0]; [|cbn; auto].
  destruct (GeospatialValidator.validateFourCoordinatePolygon ring) as [b|e0];
    [|cbn; auto].
  match goal with
  | |- context [ZoneManagementService.checkZoneOverlaps SI w ?z None] =>
      set (built := z);
      pose proof (checkZoneOverlaps_zones SI w built None) as Hchk;
      destruct (ZoneManagementService.checkZoneOverlaps SI w built None)
        as [[[]|e0] w1]; [|cbn in *; auto]
  end.
  pose proof (storeZoneInTile38_zones w1 built) as Hst.
  destruct (ZoneManagementService.storeZoneInTile38 w1 built) as [[[]|e0] w2];
    [discriminate|].
  cbn [fst snd] in *. destruct Hst as [Hst _]. intros _. split; [reflexivity|congruence].
Qed.

(** ** ZoneManagementService: reading a zone back *)

Lemma connectedReplicas_none (p : Pool) :
  Forall (fun c => c = false) (replicasConnected p) ->
  ConnectionManager.connectedReplicas p = [].
Proof.
  intros Hall. destruct (ConnectionManager.connectedReplicas p) as [|h rest] eqn:E;
    [reflexivity|].
  assert (Hin : h ∈ ConnectionManager.connectedReplicas p) by (rewrite E; left).
  apply elem_of_connectedReplicas in Hin as (i & _ & Hi).
  apply list_elem_of_lookup_2 in Hi.
  rewrite Forall_forall in Hall. specialize (Hall _ Hi). discriminate.
Qed.

Lemma executeRead_unreachable {T} (operation : ConnectionManager.Operation T) (w : World) :
  primaryConnected (pool w) = false ->
  Forall (fun c => c = false) (replicasConnected (pool w)) ->
  ConnectionManager.executeRead operation w
  = ConnectionManager.mkRun
      (throwKind Tile38ConnectionError "All read operation attempts failed")
      (mkWorld (pool w) (serverZones w) (clock w + 3000))
      [EvAcquireFailed; EvDelay 1000; EvAcquireFailed; EvDelay 2000; EvAcquireFailed].
Proof.
  intros Hdown Hreplicas.
  assert (Hacq : forall w', pool w' = pool w ->
            ConnectionManager.getReadConnection w'
            = (throwKind Tile38ConnectionError
                 "No healthy connections available for read operations", w')).
  { intros w' Hp. unfold ConnectionManager.getReadConnection.
    rewrite Hp, Hdown, (connectedReplicas_none _ Hreplicas). reflexivity. }
  unfold ConnectionManager.executeRead, ConnectionManager.MAX_CONNECTION_ATTEMPTS.
  cbn [ConnectionManager.attemptLoop].
  rewrite (Hacq w eq_refl). cbn [throwKind Nat.ltb Nat.leb Nat.sub].
  rewrite (Hacq (ConnectionManager.delay _ w) eq_refl).
  cbn [throwKind Nat.ltb Nat.leb Nat.sub].
  rewrite (Hacq (ConnectionManager.delay _ (ConnectionManager.delay _ w)) eq_refl).
  cbn [throwKind Nat.ltb Nat.leb Nat.sub app].
  unfold ConnectionManager.delay. cbn [pool serverZones clock].
  f_equal. f_equal. lia.
Qed.

(** X12. [getZone] hides a connection failure.  With no connection up and
    nothing cached for the identifier, [getZone] answers [null] after the
    three failed attempts instead of throwing, so [deleteZone] reports
    "Zone not found" for a zone the index may well hold, and the index keeps
    it. *)
Theorem getZone_hides_connection_failure :
  forall (svc : ZoneManagementService.t) (w : World) (zoneId : string),
    primaryConnected (pool w) = false ->
    Forall (fun c => c = false) (replicasConnected (pool w)) ->
    ZoneManagementService.cacheTimestamps svc !! zoneId = None ->
    (ZoneManagementService.getZone svc w zoneId).1.1 = Ok None
    /\ (ZoneManagementService.deleteZone svc w zoneId).1.1
       = Throw (mkExn ZoneValidationError ("Zone not found: " ++ zoneId))
    /\ serverZones (ZoneManagementService.deleteZone svc w zoneId).2 = serverZones w
    /\ clock (ZoneManagementService.deleteZone svc w zoneId).2 = clock w + 3000.
Proof.
  intros svc w zoneId Hdown Hreplicas Hstamp.
  assert (Hget : ZoneManagementService.getZone svc w zoneId
                 = (Ok None, ZoneManagementService.removeCachedZone svc zoneId,
                    mkWorld (pool w) (serverZones w) (clock w + 3000))).
  { unfold ZoneManagementService.getZone, ZoneManagementService.getCachedZone.
    rewrite Hstamp, (executeRead_unreachable _ w Hdown Hreplicas). reflexivity. }
  unfold ZoneManagementService.deleteZone. rewrite Hget. cbn. auto.
Qed.

(** X13. For five minutes [getZone] answers from the cache alone.  After a
    successful [createZone] (at a clock reading other than 0), a [getZone] of
    the new identifier made no later than 300000 ms afterwards returns the
    very zone that [createZone] returned, and touches neither the cache nor
    the world: no connection is acquired, whatever the index holds by
    then. *)
Theorem createZone_then_getZone_cached :
  forall (SI : BoundingBox -> list Coordinate -> bool) (M : MathLib)
         (svc : ZoneManagementService.t) (w : World) (uuid : string)
         (request : ZoneManagementService.ZoneCreationRequest) (zone : Zone)
         (later : World),
    let out := ZoneManagementService.createZone SI M svc w uuid request in
    out.1.1 = Ok zone ->
    clock out.2 <> 0 ->
    clock later - clock out.2 <= ZoneManagementService.CACHE_TTL ->
    ZoneManagementService.getZone out.1.2 later uuid = (Ok (Some zone), out.1.2, later).
Proof.
  intros SI M svc w uuid request zone later out Hok Hclock Hfresh.
  destruct (createZone_returns_stored SI M svc w uuid request zone Hok)
    as (Hid & _ & Hcache).
  fold out in Hcache. rewrite Hcache. unfold ZoneManagementService.getZone.
  pose proof (getCachedZone_fresh svc (clock out.2) (clock later) zone Hclock Hfresh)
    as Hhit.
  rewrite Hid in Hhit. rewrite Hhit. reflexivity.
Qed.

Lemma parseIntQ_at_least_one (x : Q) : (1 <= x)%Q -> falsyQ (ZoneManagementService.parseIntQ x) = false.
Proof.
  intros Hx. unfold falsyQ, ZoneManagementService.parseIntQ.
  destruct (Qeq_bool _ 0) eqn:E; [|reflexivity]. exfalso.
  apply Qeq_bool_iff in E. unfold Qeq in E. cbn in E.
  unfold Qle in Hx. cbn in Hx.
  assert (Hq : 1 <= Qnum x ÷ Z.pos (Qden x)).
  { apply Z.quot_le_lower_bound; lia. }
  lia.
Qed.

(** X14. A zone written by [createZone] can be read back from the index by a
    service that has nothing cached for it: [getZone] then returns a zone
    with the same identifier, name, type, status and ring.  The risk level
    comes back cut to its integer part, and the alert message and the
    emergency contacts do not come back at all. *)
Theorem createZone_then_getZone_from_index :
  forall (SI : BoundingBox -> list Coordinate -> bool) (M : MathLib)
         (svc reader : ZoneManagementService.t) (w : World) (uuid : string)
         (request : ZoneManagementService.ZoneCreationRequest) (zone : Zone),
    let out := ZoneManagementService.createZone SI M svc w uuid request in
    out.1.1 = Ok zone ->
    ZoneManagementService.cacheTimestamps reader !! uuid = None ->
    exists parsed metadata,
      (ZoneManagementService.getZone reader out.2 uuid).1.1 = Ok (Some parsed)
      /\ zone_id parsed = uuid
      /\ zone_name parsed = zone_name zone
      /\ zone_type parsed = zone_type zone
      /\ zone_status parsed = zone_status zone
      /\ zone_coordinates parsed = zone_coordinates zone
      /\ zone_metadata parsed = Some metadata
      /\ riskLevel metadata
         = ZoneManagementService.parseIntQ (ZoneManagementService.metadataRiskLevel zone)
      /\ alertMessage metadata = None
      /\ emergencyContacts metadata = None.
Proof.
  intros SI M svc reader w uuid request zone out Hok Hstamp.
  destruct (createZone_returns_stored SI M svc w uuid request zone Hok)
    as (Hid & Hrest & _).
  destruct Hrest as (Hlen & Hrisk & Hstored & Hup).
  fold out in Hstored, Hup.
  assert (Hlookup : serverZones out.2 !! uuid
                    = Some (ZoneManagementService.fieldsOf zone, zone_coordinates zone)).
  { rewrite Hstored. apply lookup_insert_eq. }
  destruct (executeRead_opGet out.2 uuid Hup) as (Hread & _).
  rewrite Hlookup in Hread.
  unfold ZoneManagementService.parseZoneFromTile38 in Hread.
  destruct (zone_coordinates zone) as [|c0 ring] eqn:Ering; [simpl in Hlen; lia|].
  cbn [GeospatialValidator.calculateBoundingBox] in Hread.
  eexists _, _. split.
  { unfold ZoneManagementService.getZone, ZoneManagementService.getCachedZone.
    rewrite Hstamp, Hread. reflexivity. }
  cbn. repeat split.
  unfold ZoneManagementService.orFive.
  rewrite parseIntQ_at_least_one; [reflexivity|]. exact Hrisk.
Qed.

(** ** GeofenceWebhookService: the delivery loop *)

Section DeliveryFacts.
Variable http : nat -> HttpOutcome.
Variable svc : GeofenceWebhookService.t.
Variable webhook : WebhookConfig.
Variable isTest : bool.
Variable startTime : Z.

Variables m rd : Z.
Hypothesis maxRetries_m :
  GeofenceWebhookService.maxRetries (GeofenceWebhookService.config svc) = m.
Hypothesis retryDelay_rd :
  GeofenceWebhookService.retryDelay (GeofenceWebhookService.config svc) = rd.

Lemma deliverLoop_rejected (status : option Z) (message : string) (elapsed : Z) :
  (forall n, http n = Rejected status message elapsed) ->
  forall (remaining : nat) (k now : Z),
    0 <= k -> Z.of_nat remaining = m + 1 - k -> (0 < remaining)%nat ->
    exists final,
      2 * final = 2 * now + 2 * (m + 1 - k) * elapsed + rd * (m * (m + 1) - k * (k + 1))
      /\ GeofenceWebhookService.deliverLoop http remaining webhook isTest startTime k svc now
         = let result :=
             GeofenceWebhookService.mkDelivery (wh_id webhook) (wh_url webhook) false
               status (final - startTime) (Some message) m in
           let st := GeofenceWebhookService.stats svc in
           let failed :=
             GeofenceWebhookService.setStats svc
               (GeofenceWebhookService.mkStats
                  (GeofenceWebhookService.eventsDetected st)
                  (GeofenceWebhookService.webhooksDelivered st)
                  (GeofenceWebhookService.deliveryFailures st + 1)
                  (GeofenceWebhookService.averageDeliveryTime st)) in
           (Ok result,
            if isTest then failed
            else GeofenceWebhookService.emit failed
                   (GeofenceWebhookService.webhookDeliveryFailed result),
            final).
Proof.
  intros Hhttp. induction remaining as [|remaining IH]; intros k now Hk Hrem Hpos; [lia|].
  cbn [GeofenceWebhookService.deliverLoop]. rewrite Hhttp, maxRetries_m, retryDelay_rd.
  destruct (Z.leb_spec (k + 1) m) as [Hle|Hgt].
  - destruct (IH (k + 1) (now + elapsed + rd * (k + 1))) as (final & Hfinal & Hloop);
      try lia.
    exists final. split; [nia|]. exact Hloop.
  - assert (k = m) by lia. subst k. exists (now + elapsed). split; [nia|].
    cbv zeta. replace (m + 1 - 1) with m by lia. destruct isTest; reflexivity.
Qed.

Lemma deliverLoop_resolved (k : nat) (status elapsed : Z) :
  (forall n, (n < k)%nat -> exists s msg e, http n = Rejected s msg e) ->
  http k = Resolved status elapsed ->
  Z.of_nat k <= m ->
  forall (remaining : nat) (j now : Z),
    0 <= j <= Z.of_nat k -> Z.of_nat remaining = m + 1 - j ->
    exists final,
      GeofenceWebhookService.deliverLoop http remaining webhook isTest startTime j svc now
      = let responseTime := final - startTime in
        let result :=
          GeofenceWebhookService.mkDelivery (wh_id webhook) (wh_url webhook) true
            (Some status) responseTime None (Z.of_nat k) in
        let timed := GeofenceWebhookService.updateDeliveryStats svc responseTime in
        let st := GeofenceWebhookService.stats timed in
        (Ok result,
         if isTest then timed
         else GeofenceWebhookService.emit
                (GeofenceWebhookService.setStats timed
                   (GeofenceWebhookService.mkStats
                      (GeofenceWebhookService.eventsDetected st)
                      (GeofenceWebhookService.webhooksDelivered st + 1)
                      (GeofenceWebhookService.deliveryFailures st)
                      (GeofenceWebhookService.averageDeliveryTime st)))
                (GeofenceWebhookService.webhookDelivered result),
         final).
Proof.
  intros Hrej Hres Hkm.
  induction remaining as [|remaining IH]; intros j now Hj Hrem; [lia|].
  cbn [GeofenceWebhookService.deliverLoop].
  destruct (Z.eq_dec j (Z.of_nat k)) as [->|Hne].
  - rewrite Nat2Z.id, Hres. exists (now + elapsed). cbv zeta.
    destruct isTest; reflexivity.
  - destruct (Hrej (Z.to_nat j)) as (s & msg & e & Hn); [lia|].
    rewrite Hn, maxRetries_m, retryDelay_rd.
    destruct (Z.leb_spec (j + 1) m); [|lia].
    apply IH; lia.
Qed.
End DeliveryFacts.

(** X15. A delivery whose every POST is rejected is given up after
    [maxRetries + 1] POSTs.  The sleeps between them grow linearly,
    [retryDelay * 1], [retryDelay * 2], ..., [retryDelay * maxRetries], so
    that the call takes [(maxRetries + 1)] POST times plus
    [retryDelay * maxRetries * (maxRetries + 1) / 2].  The result reports
    failure with [retryCount = maxRetries], the status and message of the
    rejection; [deliveryFailures] goes up by one, the other statistics stay,
    and one [webhookDeliveryFailed] event is emitted unless the delivery is
    a test. *)
Theorem deliverWebhook_all_rejected :
  forall (http : nat -> HttpOutcome) (svc : GeofenceWebhookService.t) (now : Z)
         (webhook : WebhookConfig) (payload : WebhookPayload) (isTest : bool)
         (status : option Z) (message : string) (elapsed : Z),
    let maxRetries := GeofenceWebhookService.maxRetries (GeofenceWebhookService.config svc) in
    let retryDelay := GeofenceWebhookService.retryDelay (GeofenceWebhookService.config svc) in
    let out := GeofenceWebhookService.deliverWebhook http svc now webhook payload isTest in
    0 <= maxRetries ->
    (forall n, http n = Rejected status message elapsed) ->
    exists result,
      out.1.1 = Ok result
      /\ GeofenceWebhookService.dr_success result = false
      /\ GeofenceWebhookService.dr_retryCount result = maxRetries
      /\ GeofenceWebhookService.dr_statusCode result = status
      /\ GeofenceWebhookService.dr_error result = Some message
      /\ 2 * GeofenceWebhookService.dr_responseTime result
         = 2 * (maxRetries + 1) * elapsed + retryDelay * maxRetries * (maxRetries + 1)
      /\ out.2 = now + GeofenceWebhookService.dr_responseTime result
      /\ GeofenceWebhookService.stats out.1.2
         = GeofenceWebhookService.mkStats
             (GeofenceWebhookService.eventsDetected (GeofenceWebhookService.stats svc))
             (GeofenceWebhookService.webhooksDelivered (GeofenceWebhookService.stats svc))
             (GeofenceWebhookService.deliveryFailures (GeofenceWebhookService.stats svc) + 1)
             (GeofenceWebhookService.averageDeliveryTime (GeofenceWebhookService.stats svc))
      /\ GeofenceWebhookService.emitted out.1.2
         = GeofenceWebhookService.emitted svc
           ++ (if isTest then []
               else [GeofenceWebhookService.webhookDeliveryFailed result]).
Proof.
  intros http svc now webhook payload isTest status message elapsed
    maxRetries retryDelay out Hmax Hhttp.
  subst out maxRetries retryDelay. unfold GeofenceWebhookService.deliverWebhook.
  destruct (deliverLoop_rejected http svc webhook isTest now _ _ eq_refl eq_refl
              status message elapsed Hhttp
              (Z.to_nat (GeofenceWebhookService.maxRetries
                           (GeofenceWebhookService.config svc) + 1)) 0 now)
    as (final & Hfinal & Hloop); try lia.
  rewrite Hloop. cbv zeta. eexists. split; [reflexivity|].
  cbn [GeofenceWebhookService.dr_success GeofenceWebhookService.dr_retryCount
       GeofenceWebhookService.dr_statusCode GeofenceWebhookService.dr_error
       GeofenceWebhookService.dr_responseTime fst snd].
  repeat split; try lia.
  - destruct isTest; reflexivity.
  - destruct isTest; cbn; [symmetry; apply app_nil_r|reflexivity].
Qed.


(** ** GeofenceWebhookService: the detector's bookkeeping *)

(** X17. [processZoneIntersections] constructs at most one event per pair of
    the reply and hands each to the dispatcher: the delivery queue grows by
    exactly the constructed events that have an applicable webhook, in
    order, each with its webhooks; [eventsDetected] grows by their number;
    one [geofenceEventDetected] is emitted for each; and the registered
    webhooks, the configuration and the delivery statistics stay as they
    were. *)
Theorem processZoneIntersections_bookkeeping :
  forall (parsePoint : string -> option (Q * Q)) (now : nat -> Z) (users : list string)
         (i : nat) (svc : GeofenceWebhookService.t) (zone : Zone),
    let out := GeofenceWebhookService.processZoneIntersections parsePoint now i svc zone users in
    let queued :=
      omap (fun event =>
              match GeofenceWebhookService.getApplicableWebhooks svc event with
              | [] => None
              | applicable => Some (event, applicable)
              end) out.2 in
    (2 * length out.2 <= length users)%nat
    /\ GeofenceWebhookService.deliveryQueue out.1
       = GeofenceWebhookService.deliveryQueue svc ++ queued
    /\ GeofenceWebhookService.emitted out.1
       = GeofenceWebhookService.emitted svc
         ++ map (fun entry => GeofenceWebhookService.geofenceEventDetected entry.1) queued
    /\ GeofenceWebhookService.stats out.1
       = GeofenceWebhookService.mkStats
           (GeofenceWebhookService.eventsDetected (GeofenceWebhookService.stats svc)
            + Z.of_nat (length queued))
           (GeofenceWebhookService.webhooksDelivered (GeofenceWebhookService.stats svc))
           (GeofenceWebhookService.deliveryFailures (GeofenceWebhookService.stats svc))
           (GeofenceWebhookService.averageDeliveryTime (GeofenceWebhookService.stats svc))
    /\ GeofenceWebhookService.webhooks out.1 = GeofenceWebhookService.webhooks svc
    /\ GeofenceWebhookService.config out.1 = GeofenceWebhookService.config svc.
Proof.
  intros parsePoint now users.
  induction users as [| x | userId locationData rest IH] using pair_induction;
    intros i svc zone.
  - cbn. rewrite !app_nil_r, Z.add_0_r. destruct svc as [c w q [a b d e] em].
    repeat split; lia.
  - cbn. rewrite !app_nil_r, Z.add_0_r. destruct svc as [c w q [a b d e] em].
    repeat split; lia.
  - cbn [GeofenceWebhookService.processZoneIntersections].
    destruct (negb (falsyS userId) && negb (falsyS locationData)).
    2:{ specialize (IH (i + 2)%nat svc zone). cbv zeta in IH.
        destruct IH as (Hlen & Hrest). split; [cbn [length]; lia|exact Hrest]. }
    set (event := GeofenceWebhookService.buildEvent parsePoint (now i) zone userId
                    locationData).
    specialize (IH (i + 2)%nat (GeofenceWebhookService.processGeofenceEvent svc event) zone).
    cbv zeta in IH.
    destruct (GeofenceWebhookService.processZoneIntersections parsePoint now (i + 2)
                (GeofenceWebhookService.processGeofenceEvent svc event) zone rest)
      as [svc' events].
    cbn [fst snd] in *. destruct IH as (Hlen & Hq & He & Hs & Hw & Hc).
    assert (Happ : forall e,
              GeofenceWebhookService.getApplicableWebhooks
                (GeofenceWebhookService.processGeofenceEvent svc event) e
              = GeofenceWebhookService.getApplicableWebhooks svc e).
    { intros e. unfold GeofenceWebhookService.getApplicableWebhooks,
        GeofenceWebhookService.processGeofenceEvent.
      destruct (0 <? _)%nat; reflexivity. }
    assert (Homap : forall evs : list GeofenceEvent,
      omap (fun event0 =>
              match GeofenceWebhookService.getApplicableWebhooks
                      (GeofenceWebhookService.processGeofenceEvent svc event) event0 with
              | [] => None
              | applicable => Some (event0, applicable)
              end) evs
      = omap (fun event0 =>
                match GeofenceWebhookService.getApplicableWebhooks svc event0 with
                | [] => None
                | applicable => Some (event0, applicable)
                end) evs).
    { induction evs as [|e evs IHe]; [reflexivity|].
      cbn [omap list_omap]. rewrite Happ, IHe. reflexivity. }
    rewrite Homap in Hq, He, Hs. clear Homap.
    rewrite Hq, He, Hs, Hw, Hc. clear Hq He Hs Hw Hc.
    split; [cbn [length]; lia|].
    cbn [omap list_omap].
    unfold GeofenceWebhookService.processGeofenceEvent.
    destruct (GeofenceWebhookService.getApplicableWebhooks svc event) as [|wh whs] eqn:Ea.
    + cbn. repeat split; reflexivity.
    + cbn. rewrite <- !app_assoc. cbn.
      repeat split; try reflexivity. f_equal. lia.
Qed.

(** ** LoadBalancer: the order of the queue *)


Lemma insertByKey_sorted {A} (key : A -> Z) (x : A) (sorted : list A) :
  StronglySorted (fun a b => key b <= key a) sorted ->
  StronglySorted (fun a b => key b <= key a) (LoadBalancer.insertByKey key x sorted).
Proof.
  induction 1 as [|y rest Hsorted IH Hy]; cbn.
  - repeat constructor.
  - destruct (Z.ltb_spec (key y) (key x)).
    + constructor; [constructor; assumption|].
      constructor; [lia|]. rewrite Forall_forall in *. intros z Hz.
      specialize (Hy z Hz). lia.
    + constructor; [exact IH|]. rewrite Forall_forall in *. intros z Hz.
      apply list_elem_of_In, insertByKey_In in Hz as [->|Hz]; [lia|].
      apply Hy, list_elem_of_In. exact Hz.
Qed.

Lemma insertByKey_Permutation {A} (key : A -> Z) (x : A) (sorted : list A) :
  Permutation (x :: sorted) (LoadBalancer.insertByKey key x sorted).
Proof.
  induction sorted as [|y rest IH]; cbn; [reflexivity|].
  destruct (key y <? key x); [reflexivity|].
  rewrite Permutation_swap. constructor. exact IH.
Qed.

Lemma insertByKey_stable {A} (key : A -> Z) (x : A) (sorted : list A) (p : Z) :
  StronglySorted (fun a b => key b <= key a) sorted ->
  List.filter (fun a => key a =? p) (LoadBalancer.insertByKey key x sorted)
  = List.filter (fun a => key a =? p) (sorted ++ [x]).
Proof.
  induction 1 as [|y rest Hsorted IH Hy]; cbn; [reflexivity|].
  destruct (Z.ltb_spec (key y) (key x)).
  - cbn. destruct (Z.eqb_spec (key x) p) as [Hx|Hx].
    + assert (Hnone : forall l, Forall (fun z => key z <= key y) l ->
                List.filter (fun a => key a =? p) l = []).
      { induction 1 as [|z l Hz _ IHl]; cbn; [reflexivity|].
        destruct (Z.eqb_spec (key z) p); [lia|exact IHl]. }
      destruct (Z.eqb_spec (key y) p); [lia|].
      rewrite List.filter_app, (Hnone rest Hy). cbn.
      destruct (Z.eqb_spec (key x) p); [reflexivity|contradiction].
    + rewrite List.filter_app. cbn.
      destruct (Z.eqb_spec (key x) p); [contradiction|]. rewrite app_nil_r. reflexivity.
  - cbn. rewrite IH. reflexivity.
Qed.

Lemma sortByKeyDesc_fold {A} (key : A -> Z) (l : list A) : forall acc,
  StronglySorted (fun a b => key b <= key a) acc ->
  let sorted := fold_left (fun sorted x => LoadBalancer.insertByKey key x sorted) l acc in
  StronglySorted (fun a b => key b <= key a) sorted
  /\ Permutation (acc ++ l) sorted
  /\ forall p, List.filter (fun a => key a =? p) sorted
               = List.filter (fun a => key a =? p) (acc ++ l).
Proof.
  induction l as [|x l IH]; intros acc Hacc; cbn.
  - rewrite app_nil_r. auto.
  - destruct (IH (LoadBalancer.insertByKey key x acc) (insertByKey_sorted key x acc Hacc))
      as (Hs & Hp & Hf).
    split; [exact Hs|]. split.
    + eapply Permutation_trans; [|exact Hp].
      apply Permutation_trans with ((x :: acc) ++ l).
      * symmetry. apply Permutation_middle.
      * apply Permutation_app_tail, insertByKey_Permutation.
    + intros p. rewrite Hf, !List.filter_app, insertByKey_stable by exact Hacc.
      rewrite List.filter_app, <- app_assoc. f_equal.
      change (x :: l) with ([x] ++ l). rewrite List.filter_app. reflexivity.
Qed.

(** X18. [execute] leaves the queue sorted by decreasing priority, whatever
    order it was in; the queue then holds the requests it held and the new
    one, nothing else; and requests of equal priority stay in arrival
    order, the new request behind the queued ones of its priority. *)
Theorem execute_orders_queue :
  forall (lb : LoadBalancer.t) (now : Z) (requestId : string) (priority : Z),
    let request := LoadBalancer.mkRequest requestId priority now 0 in
    let queue := LoadBalancer.requestQueue (LoadBalancer.execute lb now requestId priority) in
    StronglySorted (fun a b => LoadBalancer.rq_priority b <= LoadBalancer.rq_priority a) queue
    /\ Permutation (LoadBalancer.requestQueue lb ++ [request]) queue
    /\ forall p,
         List.filter (fun a => LoadBalancer.rq_priority a =? p) queue
         = List.filter (fun a => LoadBalancer.rq_priority a =? p)
             (LoadBalancer.requestQueue lb ++ [request]).
Proof.
  intros lb now requestId priority request queue. subst queue.
  cbn [LoadBalancer.execute LoadBalancer.requestQueue].
  unfold LoadBalancer.sortByKeyDesc.
  apply (sortByKeyDesc_fold LoadBalancer.rq_priority _ []). constructor.
Qed.

(** ** LoadBalancer: health scores and response times *)

(** X19. Health scores never leave the range from 0 to 100: if every stored
    score is in range, it still is after [updateConnectionHealth] and after
    the health check's penalty, and both touch the score of the one
    connection they are called for only. *)
Theorem health_scores_stay_in_range :
  forall (scores : gmap string Z) (connectionId : string) (success : bool)
         (responseTime : Z),
    map_Forall (fun _ score => 0 <= score <= 100) scores ->
    let updated :=
      LoadBalancer.updateConnectionHealth scores connectionId success responseTime in
    let penalized := LoadBalancer.penalizeUnhealthy scores connectionId in
    map_Forall (fun _ score => 0 <= score <= 100) updated
    /\ map_Forall (fun _ score => 0 <= score <= 100) penalized
    /\ forall other, other <> connectionId ->
         updated !! other = scores !! other /\ penalized !! other = scores !! other.
Proof.
  intros scores connectionId success responseTime Hrange updated penalized.
  assert (Hread : 0 <= LoadBalancer.scoreOrDefault scores connectionId <= 100).
  { unfold LoadBalancer.scoreOrDefault.
    destruct (scores !! connectionId) as [score|] eqn:E; [|lia].
    destruct (falsyZ score); [lia|]. exact (Hrange _ _ E). }
  split; [|split].
  - apply map_Forall_insert_2; [lia|exact Hrange].
  - apply map_Forall_insert_2; [lia|exact Hrange].
  - intros other Hne. subst updated penalized.
    unfold LoadBalancer.updateConnectionHealth, LoadBalancer.penalizeUnhealthy.
    rewrite !lookup_insert_ne by congruence. auto.
Qed.


(** ** LoadBalancer: one run of the governor loop *)

Lemma processQueueRun_all (fuel : nat) :
  forall (lb : LoadBalancer.t) (now : Z),
    (length (LoadBalancer.requestQueue lb) < fuel)%nat ->
    (LoadBalancer.canProcessRequest lb now).1 = true ->
    let out := LoadBalancer.processQueueRun fuel lb now in
    out.2 = Some (LoadBalancer.QueueEmpty 10)
    /\ LoadBalancer.queuedRequests (LoadBalancer.stats out.1)
       = LoadBalancer.queuedRequests (LoadBalancer.stats lb)
         - Z.of_nat (length (LoadBalancer.requestQueue lb)).
Proof.
  induction fuel as [|fuel IH]; intros lb now Hfuel Hcan; [lia|].
  destruct lb as [cfg queue window scores st times log].
  destruct queue as [|request rest]; cbn.
  - split; [reflexivity|lia].
  - unfold LoadBalancer.canProcessRequest in Hcan. cbn in Hcan.
    rewrite Hcan. cbn.
    match goal with
    | |- context [LoadBalancer.processQueueRun fuel ?lb' now] =>
        destruct (IH lb' now) as [Hp Hq]
    end.
    + cbn in *. lia.
    + unfold LoadBalancer.canProcessRequest. cbn.
      rewrite filter_idempotent. exact Hcan.
    + split; [exact Hp|]. rewrite Hq. cbn. lia.
Qed.


(** ** [slice] *)

Lemma relativeIndex_nonneg (len : nat) (k : Z) :
  0 <= k -> relativeIndex len k = Nat.min (Z.to_nat k) len.
Proof.
  intros Hk. unfold relativeIndex. destruct (Z.ltb_spec k 0); [lia|reflexivity].
Qed.

Lemma slice_from {A} (l : list A) (start : Z) :
  0 <= start -> slice l start None = drop (Z.to_nat start) l.
Proof.
  intros Hs. unfold slice. rewrite relativeIndex_nonneg by exact Hs.
  destruct (Nat.le_ge_cases (Z.to_nat start) (length l)) as [Hle|Hge].
  - rewrite Nat.min_l by exact Hle.
    apply take_ge. rewrite length_drop. lia.
  - rewrite Nat.min_r by exact Hge.
    rewrite !drop_ge by lia. apply take_nil.
Qed.

Lemma slice_first {A} (l : list A) (limit : Z) :
  0 <= limit -> slice l 0 (Some limit) = take (Z.to_nat limit) l.
Proof.
  intros Hl. unfold slice. rewrite !relativeIndex_nonneg by lia.
  change (Z.to_nat 0) with 0%nat. rewrite Nat.min_0_l, Nat.sub_0_r, drop_0.
  destruct (Nat.le_ge_cases (Z.to_nat limit) (length l)) as [Hle|Hge].
  - rewrite Nat.min_l by exact Hle. reflexivity.
  - rewrite Nat.min_r by exact Hge.
    rewrite (take_ge l (length l)), (take_ge l (Z.to_nat limit)) by lia. reflexivity.
Qed.

Lemma slice_sublist {A} (l : list A) (start : Z) (finish : option Z) :
  sublist (slice l start finish) l.
Proof.
  unfold slice. etransitivity; [apply sublist_take|apply sublist_drop].
Qed.

Lemma slice_length_first {A} (l : list A) (limit : Z) :
  0 < limit -> Z.of_nat (length (slice l 0 (Some limit))) <= limit.
Proof.
  intros Hl. rewrite slice_first by lia. rewrite length_take. lia.
Qed.

(** ** BulkLocationProcessor *)

Lemma chunkLoop_positive {A} (array : list A) (n : Z) :
  0 < n ->
  forall (fuel : nat) (i : Z),
    0 <= i ->
    (length array - Z.to_nat i < fuel)%nat ->
    exists chunks,
      BulkLocationProcessor.chunkLoop fuel array (Some n) i = Some chunks
      /\ concat chunks = drop (Z.to_nat i) array
      /\ Forall (fun chunk => chunk <> [] /\ Z.of_nat (length chunk) <= n) chunks
      /\ (i < Z.of_nat (length array) ->
          Z.of_nat (length chunks) * n < Z.of_nat (length array) - i + n)
      /\ (Z.of_nat (length array) <= i -> chunks = []).
Proof.
  intros Hn. induction fuel as [|fuel IH]; intros i Hi Hfuel; [lia|].
  cbn [BulkLocationProcessor.chunkLoop].
  destruct (Z.ltb_spec i (Z.of_nat (length array))) as [Hlt|Hge].
  2:{ exists []. cbn. rewrite drop_ge by lia. repeat split; auto; lia. }
  destruct (IH (i + n)) as (chunks & Hloop & Hcat & Hall & Hcount & Hnone); [lia|lia|].
  rewrite Hloop. unfold mbind, option_bind. eexists. split; [reflexivity|].
  assert (Hslice : slice array i (Some (i + n)) = take (Z.to_nat n) (drop (Z.to_nat i) array)).
  { unfold slice. rewrite !relativeIndex_nonneg by lia.
    rewrite (Nat.min_l (Z.to_nat i)) by lia.
    destruct (Nat.le_ge_cases (Z.to_nat (i + n)) (length array)) as [Hle|Hge].
    - rewrite Nat.min_l by exact Hle. f_equal. lia.
    - rewrite Nat.min_r by exact Hge. rewrite !take_ge by (rewrite length_drop; lia).
      reflexivity. }
  rewrite Hslice. split; [|split; [|split]].
  - cbn. rewrite Hcat. replace (Z.to_nat (i + n)) with (Z.to_nat i + Z.to_nat n)%nat by lia.
    rewrite <- drop_drop. apply take_drop.
  - constructor; [|exact Hall]. split.
    + intros Hnil. apply (f_equal length) in Hnil.
      rewrite length_take, length_drop in Hnil. cbn in Hnil. lia.
    + rewrite length_take. lia.
  - intros _. cbn [length]. destruct (Z.lt_ge_cases (i + n) (Z.of_nat (length array))) as [H|H].
    + specialize (Hcount H). lia.
    + rewrite (Hnone H). cbn. lia.
  - lia.
Qed.

Lemma chunkLoop_stuck {A} (array : list A) (n : Z) :
  n <= 0 -> array <> [] ->
  forall (fuel : nat) (i : Z),
    i <= 0 -> BulkLocationProcessor.chunkLoop fuel array (Some n) i = None.
Proof.
  intros Hn Hne. induction fuel as [|fuel IH]; intros i Hi; [reflexivity|].
  cbn [BulkLocationProcessor.chunkLoop].
  destruct (Z.ltb_spec i (Z.of_nat (length array))) as [Hlt|Hge].
  - rewrite IH by lia. reflexivity.
  - destruct array; [contradiction|]. cbn in Hge. lia.
Qed.

(** X22. [processLocationBatch] cuts a batch into at most [concurrency]
    chunks: for a positive [concurrency] the chunks are non-empty, hold at
    most [ceil(length / concurrency)] items each and, put end to end, are
    the batch, so every item goes to exactly one chunk.  For a negative
    [concurrency] and a non-empty batch the chunk size is not positive and
    the chunking loop never ends. *)
Theorem processLocationBatch_chunks :
  forall (config : BulkLocationProcessor.BatchConfig)
         (batch : list BulkLocationProcessor.QueueItem),
    let concurrency := BulkLocationProcessor.concurrency config in
    (0 < concurrency ->
     exists chunks,
       BulkLocationProcessor.processLocationBatch config batch = Some chunks
       /\ concat chunks = batch
       /\ Z.of_nat (length chunks) <= concurrency
       /\ Forall (fun chunk =>
                    chunk <> []
                    /\ Z.of_nat (length chunk) * concurrency
                       < Z.of_nat (length batch) + concurrency)
                 chunks)
    /\ (concurrency < 0 -> batch <> [] ->
        forall fuel,
          BulkLocationProcessor.chunkLoop fuel batch
            (BulkLocationProcessor.chunkSize (length batch) concurrency) 0 = None).
Proof.
  intros config batch concurrency. split.
  - intros Hc. unfold BulkLocationProcessor.processLocationBatch,
      BulkLocationProcessor.chunkArray, BulkLocationProcessor.chunkSize.
    fold concurrency. destruct (Z.eqb_spec concurrency 0) as [|_]; [lia|].
    set (n := - (- Z.of_nat (length batch) / concurrency)).
    destruct (Nat.eq_dec (length batch) 0) as [Hz|Hnz].
    { apply nil_length_inv in Hz. subst batch. exists []. cbn. repeat split; auto; lia. }
    assert (Hlen : 0 < Z.of_nat (length batch)) by lia.
    assert (Hn : Z.of_nat (length batch) <= n * concurrency
                 /\ n * concurrency < Z.of_nat (length batch) + concurrency).
    { subst n.
      pose proof (Z.div_mod (- Z.of_nat (length batch)) concurrency ltac:(lia)) as Hdm.
      pose proof (Z.mod_pos_bound (- Z.of_nat (length batch)) concurrency Hc) as Hmod.
      set (q := - Z.of_nat (length batch) / concurrency) in *.
      set (r := (- Z.of_nat (length batch)) mod concurrency) in *.
      lia. }
    assert (Hpos : 0 < n) by nia.
    destruct (chunkLoop_positive batch n Hpos (S (length batch)) 0)
      as (chunks & Hloop & Hcat & Hall & Hcount & _); [lia|lia|].
    exists chunks. split; [exact Hloop|]. split; [exact Hcat|].
    specialize (Hcount Hlen). split; [nia|].
    eapply Forall_impl; [exact Hall|]. cbn. intros chunk [Hne Hsize].
    split; [exact Hne|]. nia.
  - intros Hc Hne fuel. unfold BulkLocationProcessor.chunkSize. fold concurrency.
    destruct (Z.eqb_spec concurrency 0) as [|_]; [lia|].
    apply chunkLoop_stuck; [|exact Hne|lia].
    assert (Hq : 0 <= - Z.of_nat (length batch) / concurrency); [|lia].
    pose proof (Z.div_mod (- Z.of_nat (length batch)) concurrency ltac:(lia)) as Hdm.
    pose proof (Z.mod_neg_bound (- Z.of_nat (length batch)) concurrency Hc) as Hmod.
    set (q := - Z.of_nat (length batch) / concurrency) in *.
    set (r := (- Z.of_nat (length batch)) mod concurrency) in *.
    nia.
Qed.


(** ** ZoneManagementService: filtering search results *)

Lemma List_filter_sublist {A} (f : A -> bool) (l : list A) : sublist (List.filter f l) l.
Proof.
  induction l as [|x l IH]; cbn; [constructor|].
  destruct (f x); [apply sublist_skip|apply sublist_cons]; exact IH.
Qed.

Lemma matching_sublist (zones : list Zone) (query : ZoneSearch.ZoneSearchQuery) :
  sublist (ZoneSearch.matching zones query) zones.
Proof.
  unfold ZoneSearch.matching.
  destruct (ZoneSearch.q_createdBy query) as [creator|]; [destruct (falsyS creator)|];
    destruct (ZoneSearch.q_riskLevel query), (ZoneSearch.q_status query),
      (ZoneSearch.q_type query);
    repeat (etransitivity; [apply List_filter_sublist|]); reflexivity.
Qed.

Lemma optional_filter_In {A B} (o : option B) (p : B -> A -> bool) (l : list A) (z : A) :
  In z (match o with Some x => List.filter (p x) l | None => l end)
  <-> In z l /\ forall x, o = Some x -> p x z = true.
Proof.
  destruct o as [x|]; rewrite ?filter_In; split.
  - intros [Hin Hp]. split; [exact Hin|]. intros y Hy. inversion Hy; subst. exact Hp.
  - intros [Hin Hp]. split; [exact Hin|]. apply Hp. reflexivity.
  - intros Hin. split; [exact Hin|]. discriminate.
  - intros [Hin _]. exact Hin.
Qed.

Lemma matching_In (zones : list Zone) (query : ZoneSearch.ZoneSearchQuery) (zone : Zone) :
  In zone (ZoneSearch.matching zones query) <->
  In zone zones
  /\ (forall type, ZoneSearch.q_type query = Some type -> zone_type zone = type)
  /\ (forall status, ZoneSearch.q_status query = Some status -> zone_status zone = status)
  /\ (forall range, ZoneSearch.q_riskLevel query = Some range ->
        ZoneSearch.riskLevelInRange range zone = true)
  /\ (forall creator, ZoneSearch.q_createdBy query = Some creator -> creator <> "" ->
        ZoneSearch.createdByIs creator zone = true).
Proof.
  unfold ZoneSearch.matching. cbv zeta.
  assert (Hcreator :
    forall l,
      In zone (match ZoneSearch.q_createdBy query with
               | Some creator =>
                   if falsyS creator then l
                   else List.filter (ZoneSearch.createdByIs creator) l
               | None => l
               end)
      <-> In zone l
          /\ forall creator, ZoneSearch.q_createdBy query = Some creator ->
                creator <> "" -> ZoneSearch.createdByIs creator zone = true).
  { intros l. destruct (ZoneSearch.q_createdBy query) as [creator|].
    - unfold falsyS. destruct (decide (creator = "")) as [Hc|Hc].
      + split; [intros Hin; split; [exact Hin|]|intros [Hin _]; exact Hin].
        intros c Heq Hne. inversion Heq; subst. contradiction.
      + rewrite filter_In. split.
        * intros [Hin Hp]. split; [exact Hin|]. intros c Heq _. inversion Heq; subst.
          exact Hp.
        * intros [Hin Hp]. split; [exact Hin|]. apply Hp; [reflexivity|exact Hc].
    - split; [intros Hin; split; [exact Hin|discriminate]|intros [Hin _]; exact Hin]. }
  rewrite Hcreator.
  rewrite (optional_filter_In (ZoneSearch.q_riskLevel query) ZoneSearch.riskLevelInRange).
  rewrite (optional_filter_In (ZoneSearch.q_status query)
             (fun status zone0 => bool_decide (zone_status zone0 = status))).
  rewrite (optional_filter_In (ZoneSearch.q_type query)
             (fun type zone0 => bool_decide (zone_type zone0 = type))).
  split.
  - intros ((((Hin & Ht) & Hs) & Hr) & Hc). split; [exact Hin|].
    split; [intros type Hq; exact (proj1 (bool_decide_eq_true _) (Ht type Hq))|].
    split; [intros status Hq; exact (proj1 (bool_decide_eq_true _) (Hs status Hq))|].
    auto.
  - intros (Hin & Ht & Hs & Hr & Hc).
    split; [|exact Hc]. split; [|exact Hr]. split; [split; [exact Hin|]|].
    + intros type Hq. exact (proj2 (bool_decide_eq_true _) (Ht type Hq)).
    + intros status Hq. exact (proj2 (bool_decide_eq_true _) (Hs status Hq)).
Qed.

(** X23. [applyZoneFilters] returns zones of its input only, in their input
    order, and every zone it returns passes each filter the query carries:
    the type, the status, the risk-level range (a missing or zero risk
    level counting as 5) and a non-empty [createdBy].  With a positive
    [limit] it never returns more than [limit] zones. *)
Theorem applyZoneFilters_sound :
  forall (zones : list Zone) (query : ZoneSearch.ZoneSearchQuery),
    let result := ZoneSearch.applyZoneFilters zones query in
    sublist result zones
    /\ (forall zone, In zone result ->
          (forall type, ZoneSearch.q_type query = Some type -> zone_type zone = type)
          /\ (forall status, ZoneSearch.q_status query = Some status ->
                zone_status zone = status)
          /\ (forall range lowest, ZoneSearch.q_riskLevel query = Some range ->
                ZoneSearch.rl_min range = Some lowest ->
                (lowest <= ZoneManagementService.metadataRiskLevel zone)%Q)
          /\ (forall range highest, ZoneSearch.q_riskLevel query = Some range ->
                ZoneSearch.rl_max range = Some highest ->
                (ZoneManagementService.metadataRiskLevel zone <= highest)%Q)
          /\ (forall creator, ZoneSearch.q_createdBy query = Some creator ->
                creator <> "" ->
                exists metadata, zone_metadata zone = Some metadata
                                 /\ createdBy metadata = creator))
    /\ (forall limit, ZoneSearch.q_limit query = Some limit -> 0 < limit ->
          Z.of_nat (length result) <= limit).
Proof.
  intros zones query result.
  assert (Hsub : sublist result (ZoneSearch.matching zones query)).
  { subst result. unfold ZoneSearch.applyZoneFilters.
    destruct (ZoneSearch.q_limit query) as [limit|]; [destruct (falsyZ limit)|];
      destruct (ZoneSearch.q_offset query) as [offset|];
      try destruct (falsyZ offset);
      repeat (etransitivity; [apply slice_sublist|]); reflexivity. }
  split; [etransitivity; [exact Hsub|apply matching_sublist]|]. split.
  - intros zone Hin.
    assert (Hm : In zone (ZoneSearch.matching zones query)).
    { apply list_elem_of_In. eapply elem_of_sublist; [apply list_elem_of_In; exact Hin|].
      exact Hsub. }
    apply matching_In in Hm as (_ & Ht & Hs & Hr & Hc).
    split; [exact Ht|]. split; [exact Hs|]. split; [|split].
    + intros range lowest Hq Hlow. specialize (Hr range Hq).
      unfold ZoneSearch.riskLevelInRange in Hr. rewrite Hlow in Hr.
      destruct (Qlt_bool _ lowest) eqn:E; [discriminate|].
      apply Qnot_lt_le. intros Hlt. apply Qlt_bool_iff in Hlt. congruence.
    + intros range highest Hq Hhigh. specialize (Hr range Hq).
      unfold ZoneSearch.riskLevelInRange in Hr. rewrite Hhigh in Hr.
      destruct (match ZoneSearch.rl_min range with Some _ => _ | None => _ end);
        [discriminate|].
      destruct (Qgt_bool _ highest) eqn:E; [discriminate|]. unfold Qgt_bool in E.
      apply Qnot_lt_le. intros Hlt. apply Qlt_bool_iff in Hlt. congruence.
    + intros creator Hq Hne. specialize (Hc creator Hq Hne).
      unfold ZoneSearch.createdByIs in Hc.
      destruct (zone_metadata zone) as [metadata|]; [|discriminate].
      apply bool_decide_eq_true in Hc. eauto.
  - intros limit Hq Hpos. subst result. unfold ZoneSearch.applyZoneFilters.
    rewrite Hq. unfold falsyZ. destruct (Z.eqb_spec limit 0); [lia|].
    apply slice_length_first. exact Hpos.
Qed.

(** X24. Pagination of [applyZoneFilters].  For an offset that is not
    negative and a positive limit, the result is the page that starts
    [offset] zones into the filtered list and holds [limit] of them.  The
    offset counts within the list the function is given: when that list
    already holds no more than [limit] zones, as a reply fetched with
    [LIMIT limit] does, every offset from [limit] on yields the empty
    page. *)
Theorem applyZoneFilters_pages :
  forall (zones : list Zone) (query : ZoneSearch.ZoneSearchQuery) (offset limit : Z),
    0 <= offset -> 0 < limit ->
    let page := ZoneSearch.applyZoneFilters zones
                  (ZoneSearch.paged query (Some offset) (Some limit)) in
    page = take (Z.to_nat limit)
             (drop (Z.to_nat offset)
                (ZoneSearch.applyZoneFilters zones (ZoneSearch.paged query None None)))
    /\ (Z.of_nat (length zones) <= limit -> limit <= offset -> page = []).
Proof.
  intros zones query offset limit Hoff Hlim page.
  assert (Hmatch : forall o l,
            ZoneSearch.matching zones (ZoneSearch.paged query o l)
            = ZoneSearch.matching zones query) by reflexivity.
  assert (Hpage : page = take (Z.to_nat limit)
                           (drop (Z.to_nat offset) (ZoneSearch.matching zones query))).
  { subst page. unfold ZoneSearch.applyZoneFilters. rewrite Hmatch.
    cbn [ZoneSearch.paged ZoneSearch.q_offset ZoneSearch.q_limit].
    unfold falsyZ. destruct (Z.eqb_spec limit 0); [lia|].
    destruct (Z.eqb_spec offset 0) as [->|Hnz].
    - rewrite slice_first by lia. reflexivity.
    - rewrite slice_first, slice_from by lia. reflexivity. }
  split.
  - rewrite Hpage. unfold ZoneSearch.applyZoneFilters. rewrite Hmatch. reflexivity.
  - intros Hfew Hbeyond. rewrite Hpage.
    pose proof (sublist_length _ _ (matching_sublist zones query)) as Hlen.
    rewrite drop_ge by lia. apply take_nil.
Qed.

(** ** GeospatialValidator: simplification *)

Lemma simplifyLoop_step (M : MathLib) (tolerance : Q) (prev current next : Coordinate)
    (rest : list Coordinate) :
  Simplification.simplifyLoop M tolerance prev (current :: next :: rest)
  = if Qgt_bool (Simplification.pointToLineDistance M current prev next) tolerance
    then current :: Simplification.simplifyLoop M tolerance current (next :: rest)
    else Simplification.simplifyLoop M tolerance prev (next :: rest).
Proof. reflexivity. Qed.

Lemma simplifyLoop_spec (M : MathLib) (tolerance : Q) (pending : list Coordinate) :
  forall prev,
    sublist (Simplification.simplifyLoop M tolerance prev pending) pending
    /\ last (Simplification.simplifyLoop M tolerance prev pending) = last pending.
Proof.
  induction pending as [|current rest IH]; intros prev; [split; [constructor|reflexivity]|].
  destruct rest as [|next rest'].
  - split; reflexivity.
  - rewrite simplifyLoop_step.
    destruct (Qgt_bool _ tolerance).
    + destruct (IH current) as [Hsub Hlast]. split; [apply sublist_skip; exact Hsub|].
      rewrite last_cons_cons, <- Hlast, last_cons.
      destruct (last (Simplification.simplifyLoop M tolerance current (next :: rest')))
        eqn:E; [reflexivity|].
      symmetry in Hlast. apply last_None in Hlast. discriminate.
    + destruct (IH prev) as [Hsub Hlast]. split; [apply sublist_cons; exact Hsub|].
      rewrite last_cons_cons. exact Hlast.
Qed.

(** X25. [simplifyPolygon] only ever removes coordinates: what it returns
    is the input with some coordinates left out, in the same order.  It
    always keeps the first and the last coordinate, returns a ring of at
    most three coordinates unchanged, and returns at least two coordinates
    of a longer one, whatever the tolerance and whatever [Math.sqrt]
    computes. *)
Theorem simplifyPolygon_removes_only :
  forall (M : MathLib) (coordinates : list Coordinate) (tolerance : Q),
    let simplified := Simplification.simplifyPolygon M coordinates tolerance in
    sublist simplified coordinates
    /\ head simplified = head coordinates
    /\ last simplified = last coordinates
    /\ ((length coordinates <= 3)%nat -> simplified = coordinates)
    /\ ((3 < length coordinates)%nat ->
        (2 <= length simplified <= length coordinates)%nat).
Proof.
  intros M coordinates tolerance simplified. subst simplified.
  unfold Simplification.simplifyPolygon.
  destruct (Nat.leb_spec (length coordinates) 3) as [Hle|Hgt].
  - repeat split; auto; lia.
  - destruct coordinates as [|first rest]; [cbn in Hgt; lia|].
    destruct (simplifyLoop_spec M tolerance rest first) as [Hsub Hlast].
    assert (Hne : last rest <> None).
    { intros E. apply last_None in E. subst rest. cbn in Hgt. lia. }
    assert (Hne' : Simplification.simplifyLoop M tolerance first rest <> []).
    { intros E. rewrite E in Hlast. cbn in Hlast. congruence. }
    split; [apply sublist_skip; exact Hsub|]. split; [reflexivity|]. split.
    + rewrite !last_cons, Hlast. reflexivity.
    + split; [cbn in *; lia|]. intros _. split.
      * destruct (Simplification.simplifyLoop M tolerance first rest);
          [contradiction|cbn; lia].
      * apply sublist_length in Hsub. cbn. lia.
Qed.

(** ** Tile38Service: connecting *)

Lemma connectLoop_fails (ping : nat -> bool) :
  (forall n, ping n = false) ->
  forall (fuel : nat) (c : Tile38Connection.t),
    0 <= Tile38Connection.connectionRetries c < Tile38Connection.maxRetries ->
    Z.of_nat fuel + Tile38Connection.connectionRetries c = Tile38Connection.maxRetries ->
    exists delays,
      length delays = Z.to_nat (Tile38Connection.maxRetries - 1
                                - Tile38Connection.connectionRetries c)
      /\ (forall i, (i < length delays)%nat ->
            delays !! i = Some (Tile38Connection.retryDelay c * 2 ^ Z.of_nat i))
      /\ Tile38Connection.connectLoop fuel ping c
         = Some (throwKind Tile38ConnectionError "Max connection retries exceeded",
                 Tile38Connection.mkConnection false Tile38Connection.maxRetries
                   (Tile38Connection.retryDelay c * 2 ^ Z.of_nat (length delays))
                   (Tile38Connection.slept c ++ delays)
                   (Tile38Connection.pings c + fuel)).
Proof.
  intros Hping. unfold Tile38Connection.maxRetries.
  induction fuel as [|fuel IH]; intros c Hr Hfuel; [lia|].
  cbn [Tile38Connection.connectLoop]. rewrite Hping.
  unfold Tile38Connection.maxRetries.
  destruct (Z.ltb_spec (Tile38Connection.connectionRetries c + 1) 5) as [Hlt|Hge].
  - edestruct (IH (Tile38Connection.mkConnection false
                     (Tile38Connection.connectionRetries c + 1)
                     (Tile38Connection.retryDelay c * 2)
                     (Tile38Connection.slept c ++ [Tile38Connection.retryDelay c])
                     (S (Tile38Connection.pings c))))
      as (delays & Hlen & Hnth & Hloop);
      [cbn [Tile38Connection.connectionRetries]; lia
      |cbn [Tile38Connection.connectionRetries]; lia|].
    cbn [Tile38Connection.connectionRetries Tile38Connection.retryDelay
         Tile38Connection.slept Tile38Connection.pings] in *.
    exists (Tile38Connection.retryDelay c :: delays). split; [cbn [length]; lia|]. split.
    + intros [|i] Hi; [cbn; f_equal; lia|]. cbn [lookup list_lookup].
      cbn [length] in Hi. rewrite Hnth by lia. f_equal.
      rewrite Nat2Z.inj_succ, Z.pow_succ_r by lia. ring.
    + rewrite Hloop. cbn [length]. rewrite <- app_assoc. cbn [app].
      rewrite Nat2Z.inj_succ, Z.pow_succ_r by lia.
      replace (S (Tile38Connection.pings c) + fuel)%nat
        with (Tile38Connection.pings c + S fuel)%nat by lia.
      rewrite Z.mul_assoc. reflexivity.
  - exists []. split; [cbn [length]; lia|]. split; [cbn [length]; lia|].
    cbn [length Z.of_nat]. rewrite app_nil_r, Z.pow_0_r, Z.mul_1_r.
    assert (fuel = 0%nat) by lia. subst fuel.
    replace (Tile38Connection.connectionRetries c + 1) with 5 by lia.
    replace (Tile38Connection.pings c + 1)%nat with (S (Tile38Connection.pings c)) by lia.
    reflexivity.
Qed.

Lemma connectLoop_succeeds (ping : nat -> bool) :
  forall (k fuel : nat) (c : Tile38Connection.t),
    (forall n, (n < k)%nat -> ping (Tile38Connection.pings c + n)%nat = false) ->
    ping (Tile38Connection.pings c + k)%nat = true ->
    Tile38Connection.connectionRetries c + Z.of_nat k < Tile38Connection.maxRetries ->
    (k < fuel)%nat ->
    Tile38Connection.connectLoop fuel ping c
    = Some (Ok tt,
            Tile38Connection.mkConnection true 0
              (Tile38Connection.retryDelay c * 2 ^ Z.of_nat k)
              (Tile38Connection.slept c
               ++ map (fun i => Tile38Connection.retryDelay c * 2 ^ Z.of_nat i) (seq 0 k))
              (Tile38Connection.pings c + S k)).
Proof.
  induction k as [|k IH]; intros fuel c Hfail Hok Hr Hfuel;
    (destruct fuel as [|fuel]; [lia|]); cbn [Tile38Connection.connectLoop].
  - rewrite Nat.add_0_r in Hok. rewrite Hok. cbn [seq map Z.of_nat].
    rewrite app_nil_r, Z.pow_0_r, Z.mul_1_r.
    replace (Tile38Connection.pings c + 1)%nat with (S (Tile38Connection.pings c)) by lia.
    reflexivity.
  - rewrite <- (Nat.add_0_r (Tile38Connection.pings c)) at 1.
    rewrite (Hfail 0%nat) by lia.
    destruct (Z.ltb_spec (Tile38Connection.connectionRetries c + 1)
                Tile38Connection.maxRetries) as [Hlt|Hge]; [|lia].
    rewrite IH; cbn [Tile38Connection.connectionRetries Tile38Connection.retryDelay
                     Tile38Connection.slept Tile38Connection.pings]; try lia.
    + rewrite <- app_assoc. cbn [app seq map]. rewrite <- seq_shift, map_map.
      rewrite Z.pow_0_r, Z.mul_1_r.
      replace (S (Tile38Connection.pings c) + S k)%nat
        with (Tile38Connection.pings c + S (S k))%nat by lia.
      rewrite Nat2Z.inj_succ, Z.pow_succ_r, Z.mul_assoc by lia.
      erewrite (map_ext (fun i => Tile38Connection.retryDelay c * 2 * 2 ^ Z.of_nat i));
        [reflexivity|].
      intros i. cbv beta. rewrite Nat2Z.inj_succ, Z.pow_succ_r, Z.mul_assoc by lia.
      reflexivity.
    + intros n Hn. replace (S (Tile38Connection.pings c) + n)%nat
        with (Tile38Connection.pings c + S n)%nat by lia. apply Hfail. lia.
    + replace (S (Tile38Connection.pings c) + k)%nat
        with (Tile38Connection.pings c + S k)%nat by lia. exact Hok.
Qed.

(** X26. [connect] backs off exponentially and gives up after five
    attempts.  From a retry count of 0 and a delay [d]: when the first [k]
    attempts fail and the next one succeeds ([k] at most 4), the service is
    connected after sleeps of [d], [2d], ..., [2^(k-1) d], its retry count
    is back at 0, and its delay stays at [2^k d], so the next outage starts
    from the longer delay.  When every attempt fails, the fifth failure
    throws the [Tile38ConnectionError] after sleeps of [d], [2d], [4d] and
    [8d]; the retry count then stands at 5, and [handleReconnection] does
    nothing from then on. *)
Theorem connect_backoff :
  forall (ping : nat -> bool) (c : Tile38Connection.t),
    Tile38Connection.connectionRetries c = 0 ->
    let d := Tile38Connection.retryDelay c in
    (forall k : nat,
       (k <= 4)%nat ->
       (forall n, (n < k)%nat -> ping (Tile38Connection.pings c + n)%nat = false) ->
       ping (Tile38Connection.pings c + k)%nat = true ->
       Tile38Connection.connect ping c
       = Some (Ok tt,
               Tile38Connection.mkConnection true 0 (d * 2 ^ Z.of_nat k)
                 (Tile38Connection.slept c
                  ++ map (fun i => d * 2 ^ Z.of_nat i) (seq 0 k))
                 (Tile38Connection.pings c + S k)))
    /\ ((forall n, ping n = false) ->
        exists gaveUp,
          Tile38Connection.connect ping c
          = Some (throwKind Tile38ConnectionError "Max connection retries exceeded", gaveUp)
          /\ Tile38Connection.slept gaveUp
             = Tile38Connection.slept c ++ [d; d * 2; d * 4; d * 8]
          /\ Tile38Connection.connectionRetries gaveUp = 5
          /\ Tile38Connection.isConnected gaveUp = false
          /\ Tile38Connection.pings gaveUp = (Tile38Connection.pings c + 5)%nat
          /\ forall ping', Tile38Connection.handleReconnection ping' gaveUp = Some gaveUp).
Proof.
  intros ping c Hzero d. split.
  - intros k Hk Hfail Hok. unfold Tile38Connection.connect.
    apply connectLoop_succeeds; auto.
    + rewrite Hzero. unfold Tile38Connection.maxRetries. lia.
    + unfold Tile38Connection.maxRetries. lia.
  - intros Hfail. unfold Tile38Connection.connect.
    destruct (connectLoop_fails ping Hfail (Z.to_nat Tile38Connection.maxRetries) c)
      as (delays & Hlen & Hnth & Hloop).
    { rewrite Hzero. unfold Tile38Connection.maxRetries. lia. }
    { rewrite Hzero. unfold Tile38Connection.maxRetries. lia. }
    rewrite Hzero in Hlen. change (length delays = 4%nat) in Hlen.
    destruct delays as [|d0 [|d1 [|d2 [|d3 [|d4 more]]]]]; try discriminate.
    pose proof (Hnth 0%nat ltac:(cbn; lia)) as H0.
    pose proof (Hnth 1%nat ltac:(cbn; lia)) as H1.
    pose proof (Hnth 2%nat ltac:(cbn; lia)) as H2.
    pose proof (Hnth 3%nat ltac:(cbn; lia)) as H3.
    cbn in H0, H1, H2, H3. fold d in H0, H1, H2, H3.
    assert (d0 = d) by (inversion H0; lia).
    assert (d1 = d * 2) by (inversion H1; lia).
    assert (d2 = d * 4) by (inversion H2; lia).
    assert (d3 = d * 8) by (inversion H3; lia).
    subst d0 d1 d2 d3.
    eexists. split; [exact Hloop|].
    cbn [Tile38Connection.slept Tile38Connection.connectionRetries
         Tile38Connection.isConnected Tile38Connection.pings].
    repeat split; try reflexivity.
Qed.

(** ** ZoneManagementService: updating a zone *)

Lemma executeRead_zones {T} (operation : ConnectionManager.Operation T) (w : World) :
  (forall h w0 r w', operation h w0 = (r, w') -> serverZones w' = serverZones w0) ->
  serverZones (ConnectionManager.run_world (ConnectionManager.executeRead operation w))
  = serverZones w.
Proof.
  intros Hop. unfold ConnectionManager.executeRead.
  pose proof (attemptLoop_world ConnectionManager.getReadConnection
                "All read operation attempts failed" operation
                (fun w' => serverZones w' = serverZones w)) as Hinv.
  specialize (Hinv
    ltac:(intros w0 r w' H Hw; rewrite <- Hw; eapply getReadConnection_zones; eauto)
    ltac:(intros h w0 e w' H Hw; rewrite <- Hw; eapply Hop; eauto)
    ltac:(intros ms w0 Hw; exact Hw)
    ConnectionManager.MAX_CONNECTION_ATTEMPTS 0%nat w [] eq_refl).
  cbv zeta in Hinv.
  set (run := ConnectionManager.attemptLoop _ _ _ _ _ _ _) in *.
  destruct (ConnectionManager.run_result run) as [v|e].
  - destruct Hinv as (h & w0 & Hw0 & _ & Hrun).
    rewrite (Hop _ _ _ _ Hrun), <- Hw0.
    eapply getReadConnection_zones. apply surjective_pairing.
  - destruct Hinv as [Hw _]. exact Hw.
Qed.

Lemma getZone_zones (svc : ZoneManagementService.t) (w : World) (zoneId : string) :
  serverZones (ZoneManagementService.getZone svc w zoneId).2 = serverZones w.
Proof.
  unfold ZoneManagementService.getZone.
  destruct (ZoneManagementService.getCachedZone svc (clock w) zoneId) as [[cached|] svc1];
    [reflexivity|].
  pose proof (executeRead_zones (ZoneManagementService.opGet zoneId) w) as Hz.
  destruct (ConnectionManager.run_result _) as [[zone|]|e]; apply Hz;
    intros h w0 r w' H; unfold ZoneManagementService.opGet in H;
    destruct (serverZones w0 !! zoneId) as [[fields ring]|]; inversion H; reflexivity.
Qed.

(** X27. [updateZone] of a zone that [getZone] does not find, because there
    is none or because no connection is up, throws the
    [ZoneValidationError] "Zone not found" and writes nothing: the index
    holds what it held, and the cache is as the lookup left it. *)
Theorem updateZone_unknown_zone :
  forall (SI : BoundingBox -> list Coordinate -> bool) (M : MathLib)
         (svc : ZoneManagementService.t) (w : World)
         (request : ZoneUpdate.ZoneUpdateRequest),
    let looked := ZoneManagementService.getZone svc w (ZoneUpdate.upd_id request) in
    let out := ZoneUpdate.updateZone SI M svc w request in
    looked.1.1 = Ok None ->
    out.1.1 = Throw (mkExn ZoneValidationError
                       ("Zone not found: " ++ ZoneUpdate.upd_id request))
    /\ out.1.2 = looked.1.2
    /\ serverZones out.2 = serverZones w.
Proof.
  intros SI M svc w request looked out Hnone. subst out.
  pose proof (getZone_zones svc w (ZoneUpdate.upd_id request)) as Hz.
  unfold ZoneUpdate.updateZone. fold looked in Hz |- *.
  destruct looked as [[found svc1] w1]. cbn [fst snd] in *. subst found.
  cbn. auto.
Qed.

(** X28. [updateZone] without new coordinates runs none of the checks of
    [createZone]: once the zone is found and the primary is up it succeeds
    for every request.  The zone keeps its identifier, ring, bounding box
    and geometry; it takes the request's name unless that is missing or
    empty, and the request's risk level as it is, whatever its value; the
    index then holds the updated zone's fields and the unchanged ring
    under the identifier, and the cache holds the updated zone. *)
Theorem updateZone_without_coordinates :
  forall (SI : BoundingBox -> list Coordinate -> bool) (M : MathLib)
         (svc : ZoneManagementService.t) (w : World)
         (request : ZoneUpdate.ZoneUpdateRequest) (existingZone : Zone),
    let out := ZoneUpdate.updateZone SI M svc w request in
    primaryConnected (pool w) = true ->
    (ZoneManagementService.getZone svc w (ZoneUpdate.upd_id request)).1.1
    = Ok (Some existingZone) ->
    ZoneUpdate.upd_coordinates request = None ->
    exists updatedZone metadata,
      out.1.1 = Ok updatedZone
      /\ zone_id updatedZone = zone_id existingZone
      /\ zone_coordinates updatedZone = zone_coordinates existingZone
      /\ zone_boundingBox updatedZone = zone_boundingBox existingZone
      /\ zone_geometry updatedZone = zone_geometry existingZone
      /\ zone_name updatedZone
         = match ZoneUpdate.upd_name request with
           | Some name => if decide (name = "") then zone_name existingZone else name
           | None => zone_name existingZone
           end
      /\ zone_metadata updatedZone = Some metadata
      /\ riskLevel metadata
         = match ZoneUpdate.upd_riskLevel request with
           | Some r => r
           | None => ZoneManagementService.metadataRiskLevel existingZone
           end
      /\ serverZones out.2
         = <[zone_id existingZone :=
               (ZoneManagementService.fieldsOf updatedZone, zone_coordinates existingZone)]>
             (serverZones w)
      /\ ZoneManagementService.zoneCache out.1.2 !! zone_id existingZone = Some updatedZone.
Proof.
  intros SI M svc w request existingZone out Hup Hfound Hnone. subst out.
  pose proof (getZone_zones svc w (ZoneUpdate.upd_id request)) as Hz.
  pose proof (getZone_world svc w (ZoneUpdate.upd_id request) Hup) as [Hup1 _].
  unfold ZoneUpdate.updateZone.
  destruct (ZoneManagementService.getZone svc w (ZoneUpdate.upd_id request))
    as [[found svc1] w1].
  cbn [fst snd] in *. subst found. rewrite Hnone.
  match goal with
  | |- context [ZoneManagementService.storeZoneInTile38 w1 ?z] => set (updated := z)
  end.
  pose proof (storeZoneInTile38_zones w1 updated) as Hst.
  assert (Hok : exists w2, ZoneManagementService.storeZoneInTile38 w1 updated = (Ok tt, w2)).
  { unfold ZoneManagementService.storeZoneInTile38.
    edestruct (executeWrite_resolves (ZoneManagementService.opSet updated)
                 (fun _ => tt) _ (fun h w' => eq_refl) w1 Hup1) as [Hr Hw].
    rewrite Hr. eexists. reflexivity. }
  destruct Hok as [w2 Hok]. rewrite Hok in Hst |- *. cbn [fst snd] in *.
  destruct Hst as [Hst _]. rewrite Hz in Hst.
  exists updated, (ZoneUpdate.updatedMetadata existingZone request (clock w1)).
  split; [reflexivity|]. split; [reflexivity|]. split; [reflexivity|].
  split; [reflexivity|]. split; [reflexivity|]. split.
  { cbn. unfold falsyS. destruct (ZoneUpdate.upd_name request) as [name|]; [|reflexivity].
    destruct (decide (name = "")); reflexivity. }
  split; [reflexivity|]. split; [reflexivity|]. split; [exact Hst|].
  cbn. apply lookup_insert_eq.
Qed.

(** ** ZoneManagementService: overlapping zones and the stored geometry *)

Lemma overlapLoop_overlapping coordinates (zones : list Zone) (zone : Zone) :
  In zone zones ->
  GeospatialValidator.polygonsOverlap coordinates (zone_coordinates zone) = true ->
  throwsKind ZoneValidationError
    (ZoneManagementService.overlapLoop coordinates None zones).
Proof.
  intros Hin Hover. induction zones as [|z rest IH]; [contradiction|].
  cbn [ZoneManagementService.overlapLoop].
  destruct (GeospatialValidator.polygonsOverlap coordinates (zone_coordinates z)) eqn:E.
  - eexists. reflexivity.
  - destruct Hin as [->|Hin]; [congruence|]. apply IH. exact Hin.
Qed.

Lemma parseZonesFromTile38Results_skips_empty_id
    (objects : list (string * (ZoneFields * list Coordinate))) (zone : Zone) :
  In zone (ZoneManagementService.parseZonesFromTile38Results objects) ->
  zone_id zone <> "".
Proof.
  intros Hin. apply list_elem_of_In, list_elem_of_omap in Hin.
  destruct Hin as ([zoneId [fields ring]] & _ & Hparse).
  unfold falsyS in Hparse. destruct (decide (zoneId = "")) as [|Hne]; [discriminate|].
  unfold ZoneManagementService.parseZoneFromTile38 in Hparse.
  destruct (GeospatialValidator.calculateBoundingBox ring); [|discriminate].
  inversion Hparse. exact Hne.
Qed.

Lemma searchByBounds_finds SI (w : World) (bbox : BoundingBox) (zoneId : string)
    (fields : ZoneFields) (ring : list Coordinate) :
  primaryConnected (pool w) = true ->
  (size (serverZones w) <= 100)%nat ->
  serverZones w !! zoneId = Some (fields, ring) ->
  zoneId <> "" ->
  ring <> [] ->
  SI bbox ring = true ->
  exists zones zone,
    (ZoneManagementService.searchByBounds SI w bbox).1 = Ok zones
    /\ In zone zones /\ zone_id zone = zoneId /\ zone_coordinates zone = ring.
Proof.
  intros Hup Hsize Hlookup Hnonempty Hring Hsi.
  unfold ZoneManagementService.searchByBounds.
  edestruct (executeRead_resolves (ZoneManagementService.opIntersectsBounds SI 100 bbox)
               _ (fun w' => w') (fun h w' => eq_refl) w Hup) as [Hr Hw].
  rewrite Hr. cbn [fst serverZones ConnectionManager.setPool].
  destruct (ZoneManagementService.parseZoneFromTile38 zoneId None ring) as [zone|] eqn:Ep.
  2:{ unfold ZoneManagementService.parseZoneFromTile38 in Ep.
      destruct ring; [contradiction|]. discriminate. }
  eexists _, zone. split; [reflexivity|].
  assert (Hparsed : zone_id zone = zoneId /\ zone_coordinates zone = ring
                    /\ zone_status zone = ACTIVE).
  { unfold ZoneManagementService.parseZoneFromTile38 in Ep.
    destruct (GeospatialValidator.calculateBoundingBox ring); [|discriminate].
    inversion Ep. auto. }
  destruct Hparsed as (Hid & Hcoords & Hstatus).
  split; [|split; [exact Hid|exact Hcoords]].
  apply list_elem_of_In, list_elem_of_filter. split; [exact Hstatus|].
  apply list_elem_of_omap. exists (zoneId, (fields, ring)). split.
  2:{ unfold falsyS. destruct (decide (zoneId = "")); [contradiction|exact Ep]. }
  rewrite take_ge.
  - apply list_elem_of_filter. split; [exact Hsi|].
    apply elem_of_map_to_list. exact Hlookup.
  - etransitivity; [apply length_filter|]. rewrite length_map_to_list. exact Hsize.
Qed.

(** X29. [createZone] refuses a ring that overlaps a stored zone.  When the
    request passes the checks that come before, the primary is up, the
    index holds no more than the 100 zones a search returns, and the
    server reports a stored zone, under an id that is not the empty string,
    whose ring overlaps the new one, the call throws a
    [ZoneValidationError] and stores nothing.  The stored zone's status
    plays no part: a search reply carries no fields, so every zone in it is
    taken for an active one.  (An entry whose id is the empty string is
    skipped when the reply is parsed: lemma
    [parseZonesFromTile38Results_skips_empty_id].) *)
Theorem createZone_rejects_overlap :
  forall (SI : BoundingBox -> list Coordinate -> bool) (M : MathLib)
         (svc : ZoneManagementService.t) (w : World) (uuid : string)
         (request : ZoneManagementService.ZoneCreationRequest)
         (bbox : BoundingBox) (ring : list Coordinate)
         (existingId : string) (fields : ZoneFields) (existing : list Coordinate),
    let out := ZoneManagementService.createZone SI M svc w uuid request in
    ZoneManagementService.validateZoneCreationRequest request = Ok tt ->
    GeospatialValidator.calculateBoundingBox (ZoneManagementService.req_coordinates request)
    = Ok bbox ->
    GeospatialValidator.validateZonePolygon M (ZoneManagementService.req_coordinates request)
    = Ok ring ->
    GeospatialValidator.validateFourCoordinatePolygon ring = Ok true ->
    primaryConnected (pool w) = true ->
    (size (serverZones w) <= 100)%nat ->
    serverZones w !! existingId = Some (fields, existing) ->
    existingId <> "" ->
    existing <> [] ->
    SI bbox existing = true ->
    GeospatialValidator.polygonsOverlap ring existing = true ->
    throwsKind ZoneValidationError out.1.1
    /\ out.1.2 = svc
    /\ serverZones out.2 = serverZones w.
Proof.
  intros SI M svc w uuid request bbox ring existingId fields existing out
    Hreq Hbox Hpoly Hfour Hup Hsize Hlookup Hid Hne Hsi Hover.
  assert (Hthrow : throwsKind ZoneValidationError out.1.1).
  { subst out. unfold ZoneManagementService.createZone.
    rewrite Hreq, Hbox, Hpoly, Hfour.
    unfold ZoneManagementService.checkZoneOverlaps. cbn [zone_boundingBox zone_coordinates].
    destruct (searchByBounds_finds SI w bbox existingId fields existing
                Hup Hsize Hlookup Hid Hne Hsi)
      as (zones & zone & Hsearch & Hin & _ & Hcoords).
    destruct (ZoneManagementService.searchByBounds SI w bbox) as [found w1].
    cbn [fst] in Hsearch. subst found.
    destruct (overlapLoop_overlapping ring zones zone Hin) as [msg Hmsg];
      [rewrite Hcoords; exact Hover|].
    rewrite Hmsg. cbn. eexists. reflexivity. }
  split; [exact Hthrow|].
  destruct Hthrow as [msg Hmsg].
  destruct (createZone_failure_atomic SI M svc w uuid request _ Hmsg) as [Hsvc Hz].
  split; assumption.
Qed.

(** X30. The geometry [coordinatesToGeoJSON] builds is one closed ring: the
    coordinates as [longitude, latitude] pairs in their order, followed by
    a copy of the first pair exactly when the last pair differs from the
    first.  A list that is empty or whose last pair equals its first is
    left as it is, and no other; the ring built has the input's length or
    one more, and its first and last pairs are always equal. *)
Theorem coordinatesToGeoJSON_closed :
  forall (coordinates : list Coordinate),
    let coords := ZoneManagementService.coordinatesToRing coordinates in
    exists ring,
      ZoneManagementService.coordinatesToGeoJSON coordinates = [ring]
      /\ (ring = coords \/ ring = coords ++ take 1 coords)
      /\ (ring = coords <->
          forall first final, head coords = Some first -> last coords = Some final ->
            (first.1 == final.1)%Q /\ (first.2 == final.2)%Q)
      /\ (length coordinates <= length ring <= S (length coordinates))%nat
      /\ forall first final, head ring = Some first -> last ring = Some final ->
            (first.1 == final.1)%Q /\ (first.2 == final.2)%Q.
Proof.
  intros coordinates coords. unfold ZoneManagementService.coordinatesToGeoJSON.
  assert (Hlen : length coords = length coordinates)
    by (unfold coords, ZoneManagementService.coordinatesToRing; apply length_map).
  fold coords. clearbody coords.
  destruct coords as [|c0 rest].
  { exists []. cbn in *. split; [reflexivity|]. split; [left; reflexivity|].
    split; [split; [discriminate|reflexivity]|]. split; [lia|discriminate]. }
  cbn [lookup list_lookup].
  destruct (last (c0 :: rest)) as [cl|] eqn:El.
  2:{ apply last_None in El. discriminate. }
  assert (Hlonger : (c0 :: rest) ++ [c0] <> c0 :: rest).
  { intros Heq. apply (f_equal length) in Heq. rewrite length_app in Heq.
    cbn [length] in Heq. lia. }
  assert (Hopen : forall ring,
            ring = (c0 :: rest) ++ [c0] ->
            ~ ((c0.1 == cl.1)%Q /\ (c0.2 == cl.2)%Q) ->
            [ring] = [ring]
            /\ (ring = c0 :: rest \/ ring = (c0 :: rest) ++ take 1 (c0 :: rest))
            /\ (ring = c0 :: rest <->
                forall first final, head (c0 :: rest) = Some first ->
                  Some cl = Some final ->
                  (first.1 == final.1)%Q /\ (first.2 == final.2)%Q)
            /\ (length coordinates <= length ring <= S (length coordinates))%nat
            /\ forall first final, head ring = Some first -> last ring = Some final ->
                  (first.1 == final.1)%Q /\ (first.2 == final.2)%Q).
  { intros ring -> Hdiff. split; [reflexivity|]. split; [right; reflexivity|]. split.
    - split; [intros Heq; contradiction|].
      intros Hclosed. exfalso. apply Hdiff. apply Hclosed; reflexivity.
    - split; [rewrite length_app; cbn [length] in *; lia|].
      intros first final Hf Hl. rewrite last_snoc in Hl.
      inversion Hf; inversion Hl; subst. split; reflexivity. }
  destruct (Qeq_bool c0.1 cl.1) eqn:E1; [destruct (Qeq_bool c0.2 cl.2) eqn:E2|];
    cbn [negb orb].
  - apply Qeq_bool_iff in E1, E2.
    exists (c0 :: rest). split; [reflexivity|]. split; [left; reflexivity|]. split.
    + split; [|reflexivity]. intros _ first final Hf Hl.
      inversion Hf; inversion Hl; subst. auto.
    + split; [lia|]. intros first final Hf Hl. rewrite El in Hl.
      inversion Hf; inversion Hl; subst. auto.
  - exists ((c0 :: rest) ++ [c0]). apply Hopen; [reflexivity|].
    intros [_ H2]. apply Qeq_bool_iff in H2. congruence.
  - exists ((c0 :: rest) ++ [c0]). apply Hopen; [reflexivity|].
    intros [H1 _]. apply Qeq_bool_iff in H1. congruence.
Qed.

(** ** ZoneManagementService: a creation that fails *)

Lemma attemptLoop_ext {T} acquire exhausted (operation operation' : ConnectionManager.Operation T) :
  (forall h w, operation h w = operation' h w) ->
  forall remaining attempt w log,
    ConnectionManager.attemptLoop acquire exhausted operation remaining attempt w log
    = ConnectionManager.attemptLoop acquire exhausted operation' remaining attempt w log.
Proof.
  intros Hext. induction remaining as [|remaining IH]; intros attempt w log; [reflexivity|].
  cbn [ConnectionManager.attemptLoop].
  destruct (acquire w) as [[h|e] w1].
  - rewrite Hext. destruct (operation' h w1) as [[v|e] w2]; [reflexivity|].
    destruct (attempt <? _)%nat; apply IH.
  - destruct (attempt <? _)%nat; apply IH.
Qed.

(** With a server that answers every command, the creation is the one of
    [ZoneManagementService]. *)
Lemma createZone_answered readReply writeReply SI M svc w uuid request :
  (forall t, readReply t = Answered) ->
  (forall t, writeReply t = Answered) ->
  Unreliable.createZone readReply writeReply SI M svc w uuid request
  = ZoneManagementService.createZone SI M svc w uuid request.
Proof.
  intros Hread Hwrite.
  assert (Hsearch : forall w0 bbox,
            Unreliable.searchByBounds readReply SI w0 bbox
            = ZoneManagementService.searchByBounds SI w0 bbox).
  { intros w0 bbox.
    unfold Unreliable.searchByBounds, ZoneManagementService.searchByBounds,
      ConnectionManager.executeRead.
    rewrite (attemptLoop_ext _ _ (Unreliable.opIntersectsBounds readReply SI 100 bbox)
               (ZoneManagementService.opIntersectsBounds SI 100 bbox)); [reflexivity|].
    intros h w1. unfold Unreliable.opIntersectsBounds. rewrite Hread. reflexivity. }
  assert (Hstore : forall w0 zone,
            Unreliable.storeZoneInTile38 writeReply w0 zone
            = ZoneManagementService.storeZoneInTile38 w0 zone).
  { intros w0 zone.
    unfold Unreliable.storeZoneInTile38, ZoneManagementService.storeZoneInTile38,
      ConnectionManager.executeWrite.
    rewrite (attemptLoop_ext _ _ (Unreliable.opSet writeReply zone)
               (ZoneManagementService.opSet zone)); [reflexivity|].
    intros h w1. unfold Unreliable.opSet. rewrite Hwrite. reflexivity. }
  unfold Unreliable.createZone, ZoneManagementService.createZone,
    Unreliable.checkZoneOverlaps, ZoneManagementService.checkZoneOverlaps.
  destruct (ZoneManagementService.validateZoneCreationRequest request); [|reflexivity].
  destruct (GeospatialValidator.calculateBoundingBox _); [|reflexivity].
  destruct (GeospatialValidator.validateZonePolygon M _); [|reflexivity].
  destruct (GeospatialValidator.validateFourCoordinatePolygon _); [|reflexivity].
  rewrite Hsearch.
  destruct (ZoneManagementService.searchByBounds SI w _) as [[zones|e] w1]; [|reflexivity].
  destruct (ZoneManagementService.overlapLoop _ None zones); [|reflexivity].
  rewrite Hstore. reflexivity.
Qed.

Lemma unreliable_searchByBounds_zones readReply SI (w : World) (bbox : BoundingBox) :
  serverZones (Unreliable.searchByBounds readReply SI w bbox).2 = serverZones w.
Proof.
  unfold Unreliable.searchByBounds.
  pose proof (executeRead_zones (Unreliable.opIntersectsBounds readReply SI 100 bbox) w)
    as Hz.
  destruct (ConnectionManager.run_result _); apply Hz;
    intros h w0 r w' H; unfold Unreliable.opIntersectsBounds in H;
    destruct (readReply (clock w0)); inversion H; reflexivity.
Qed.

Lemma unreliable_checkZoneOverlaps readReply SI (w : World) (zone : Zone)
    (exclude : option string) :
  serverZones (Unreliable.checkZoneOverlaps readReply SI w zone exclude).2 = serverZones w
  /\ forall e, (Unreliable.checkZoneOverlaps readReply SI w zone exclude).1 = Throw e ->
               exn_kind e = ZoneValidationError.
Proof.
  unfold Unreliable.checkZoneOverlaps.
  pose proof (unreliable_searchByBounds_zones readReply SI w (zone_boundingBox zone)) as Hs.
  assert (Hk : forall e, (Unreliable.searchByBounds readReply SI w (zone_boundingBox zone)).1
                         = Throw e -> exn_kind e = ZoneValidationError).
  { unfold Unreliable.searchByBounds.
    destruct (ConnectionManager.run_result _); cbn; intros e1 H; inversion H; reflexivity. }
  destruct (Unreliable.searchByBounds readReply SI w (zone_boundingBox zone))
    as [[zones|e0] w1]; cbn [fst snd] in *.
  - split; [exact Hs|]. apply overlapLoop_kind.
  - split; [exact Hs|]. intros e1 H. inversion H; subst. apply Hk. reflexivity.
Qed.

(** A write that is given up leaves the index as it was, or with the zone
    stored by an attempt whose answer was lost. *)
Lemma unreliable_storeZoneInTile38_failed writeReply (w : World) (zone : Zone) (e : Exn) :
  (Unreliable.storeZoneInTile38 writeReply w zone).1 = Throw e ->
  e = mkExn Tile38ConnectionError "All write operation attempts failed"
  /\ (serverZones (Unreliable.storeZoneInTile38 writeReply w zone).2 = serverZones w
      \/ (exists t, writeReply t = AppliedUnanswered)
         /\ serverZones (Unreliable.storeZoneInTile38 writeReply w zone).2
            = <[zone_id zone := (ZoneManagementService.fieldsOf zone, zone_coordinates zone)]>
                (serverZones w)).
Proof.
  unfold Unreliable.storeZoneInTile38, ConnectionManager.executeWrite. cbn [fst snd].
  set (stored := <[zone_id zone := (ZoneManagementService.fieldsOf zone,
                                    zone_coordinates zone)]> (serverZones w)).
  pose proof (attemptLoop_world ConnectionManager.getWriteConnection
                "All write operation attempts failed" (Unreliable.opSet writeReply zone)
                (fun w' => serverZones w' = serverZones w
                           \/ (exists t, writeReply t = AppliedUnanswered)
                              /\ serverZones w' = stored)) as Hinv.
  specialize (Hinv
    ltac:(intros w0 r w' H Hw; apply getWriteConnection_world in H as [-> _]; exact Hw)).
  assert (Hop : forall h w0 e0 w',
            Unreliable.opSet writeReply zone h w0 = (Throw e0, w') ->
            serverZones w0 = serverZones w
            \/ (exists t, writeReply t = AppliedUnanswered) /\ serverZones w0 = stored ->
            serverZones w' = serverZones w
            \/ (exists t, writeReply t = AppliedUnanswered) /\ serverZones w' = stored).
  { intros h w0 e0 w' H Hw. unfold Unreliable.opSet in H.
    destruct (writeReply (clock w0)) eqn:Er.
    - discriminate.
    - right. split; [eauto|]. inversion H. cbn [serverZones].
      destruct Hw as [Hw|[_ Hw]]; rewrite Hw; [reflexivity|].
      unfold stored. apply insert_insert_eq.
    - inversion H; subst. exact Hw. }
  specialize (Hinv Hop ltac:(intros ms w0 Hw; exact Hw)
                ConnectionManager.MAX_CONNECTION_ATTEMPTS 0%nat w [] (or_introl eq_refl)).
  cbv zeta in Hinv.
  set (run := ConnectionManager.attemptLoop _ _ _ _ _ _ _) in *.
  destruct (ConnectionManager.run_result run) as [v|e0]; [discriminate|].
  intros H. inversion H; subst e0. destruct Hinv as [Hw ->]. split; [reflexivity|exact Hw].
Qed.


(** ** The periodic sweep *)

Lemma applyZoneFilters_In (zones : list Zone) (query : ZoneSearch.ZoneSearchQuery)
    (zone : Zone) :
  In zone (ZoneSearch.applyZoneFilters zones query) -> In zone zones.
Proof.
  intros Hin. apply list_elem_of_In.
  eapply elem_of_sublist; [apply list_elem_of_In; exact Hin|].
  etransitivity; [|apply matching_sublist].
  unfold ZoneSearch.applyZoneFilters.
  destruct (ZoneSearch.q_limit query) as [limit|]; [destruct (falsyZ limit)|];
    destruct (ZoneSearch.q_offset query) as [offset|];
    try destruct (falsyZ offset);
    repeat (etransitivity; [apply slice_sublist|]); reflexivity.
Qed.

(** Every zone the sweep works on was parsed from a search reply, which
    carries no fields: its alert level is [medium], its name is empty and
    its type is [SAFE], whatever the index holds for it. *)
Lemma getActiveZones_parsed (w : World) (limit : Z) (zones : list Zone) (zone : Zone) :
  (Detection.getActiveZones w limit).1 = Ok zones ->
  In zone zones ->
  GeofenceWebhookService.calculateAlertLevel zone = medium
  /\ zone_name zone = "" /\ zone_type zone = SAFE.
Proof.
  unfold Detection.getActiveZones.
  destruct (ConnectionManager.executeRead _ w) as [[found|e] w1 log] eqn:Erun;
    cbn [ConnectionManager.run_result ConnectionManager.run_world fst]; [|discriminate].
  intros H Hin. inversion H; subst zones. apply applyZoneFilters_In in Hin.
  pose proof (attemptLoop_world ConnectionManager.getReadConnection
                "All read operation attempts failed"
                (Detection.opScan (if falsyZ limit then 100 else limit))
                (fun _ => True)
                ltac:(auto) ltac:(auto) ltac:(auto)
                ConnectionManager.MAX_CONNECTION_ATTEMPTS 0%nat w [] I) as Hinv.
  cbv zeta in Hinv. unfold ConnectionManager.executeRead in Erun. rewrite Erun in Hinv.
  cbn [ConnectionManager.run_result ConnectionManager.run_world] in Hinv.
  destruct Hinv as (h & w0 & _ & _ & Hop). unfold Detection.opScan in Hop.
  inversion Hop as [[Hfound Hw]]. rewrite <- Hfound in Hin.
  apply list_elem_of_In, list_elem_of_omap in Hin.
  destruct Hin as ([zoneId [fields ring]] & _ & Hparse).
  destruct (falsyS zoneId); [discriminate|].
  split; [eapply search_reply_alert_level; exact Hparse|].
  unfold ZoneManagementService.parseZoneFromTile38 in Hparse.
  destruct (GeospatialValidator.calculateBoundingBox ring); [|discriminate].
  inversion Hparse. auto.
Qed.

Lemma processZoneIntersections_alert_level parsePoint now (users : list string) :
  forall (i : nat) (svc : GeofenceWebhookService.t) (zone : Zone) (event : GeofenceEvent),
    In event
      (GeofenceWebhookService.processZoneIntersections parsePoint now i svc zone users).2 ->
    ev_eventType event = INSIDE
    /\ ev_zoneId event = zone_id zone
    /\ ev_metadata event
       = Some (mkEventMeta (Some (GeofenceWebhookService.calculateAlertLevel zone))).
Proof.
  induction users as [| x | userId locationData rest IH] using pair_induction;
    intros i svc zone event Hin; try (cbn in Hin; contradiction).
  cbn [GeofenceWebhookService.processZoneIntersections] in Hin.
  destruct (negb (falsyS userId) && negb (falsyS locationData)).
  - destruct (GeofenceWebhookService.processZoneIntersections parsePoint now (i + 2)
                (GeofenceWebhookService.processGeofenceEvent svc
                   (GeofenceWebhookService.buildEvent parsePoint (now i) zone userId
                      locationData))
                zone rest) as [svc' events] eqn:E.
    cbn [snd] in Hin. destruct Hin as [<-|Hin]; [cbn; auto|].
    eapply IH. rewrite E. exact Hin.
  - eapply IH. exact Hin.
Qed.

Lemma sweepZones_alert_level parsePoint serverWithin (zones : list Zone) :
  forall (svc : GeofenceWebhookService.t) (w : World) (event : GeofenceEvent),
    In event (Detection.sweepZones parsePoint serverWithin svc w zones).2 ->
    exists zone, In zone zones
      /\ ev_eventType event = INSIDE
      /\ ev_zoneId event = zone_id zone
      /\ ev_metadata event
         = Some (mkEventMeta (Some (GeofenceWebhookService.calculateAlertLevel zone))).
Proof.
  induction zones as [|zone rest IH]; intros svc w event Hin; [contradiction|].
  cbn [Detection.sweepZones] in Hin.
  destruct (ConnectionManager.run_result _) as [[users|]|e]; cbn [snd] in Hin.
  - destruct (GeofenceWebhookService.processZoneIntersections _ _ _ _ zone users)
      as [svc1 events] eqn:Ep.
    destruct (Detection.sweepZones parsePoint serverWithin svc1 _ rest)
      as [[svc2 w2] later] eqn:Es.
    cbn [snd] in Hin. apply in_app_or in Hin as [Hin|Hin].
    + exists zone. split; [left; reflexivity|].
      eapply processZoneIntersections_alert_level. rewrite Ep. exact Hin.
    + assert (Hlater : In event
                (Detection.sweepZones parsePoint serverWithin svc1
                   (ConnectionManager.run_world
                      (ConnectionManager.executeRead
                         (Detection.opWithin serverWithin zone) w)) rest).2)
        by (rewrite Es; exact Hin).
      destruct (IH _ _ event Hlater) as (z & Hz & Hrest).
      exists z. split; [right; exact Hz|exact Hrest].
  - destruct (IH svc _ event Hin) as (z & Hz & Hrest).
    exists z. split; [right; exact Hz|exact Hrest].
  - contradiction.
Qed.

(** Whatever risk levels the index holds, every event of a sweep is an
    [INSIDE] event with the alert level [medium]. *)
Lemma checkGeofenceEvents_alert_level parsePoint serverWithin
    (svc : GeofenceWebhookService.t) (w : World) (event : GeofenceEvent) :
  In event (Detection.checkGeofenceEvents parsePoint serverWithin svc w).2 ->
  ev_eventType event = INSIDE
  /\ ev_metadata event = Some (mkEventMeta (Some medium)).
Proof.
  unfold Detection.checkGeofenceEvents.
  pose proof (getActiveZones_parsed w
                (GeofenceWebhookService.batchSize (GeofenceWebhookService.config svc)))
    as Hparsed.
  destruct (Detection.getActiveZones w _) as [[zones|e] w1]; [|contradiction].
  intros Hin. apply sweepZones_alert_level in Hin as (zone & Hz & Htype & _ & Hmeta).
  destruct (Hparsed zones zone eq_refl Hz) as (Hmedium & _).
  rewrite Hmedium in Hmeta. auto.
Qed.

(** C7 (evaluation at the failing input). The index holds an active safe
    zone stored with risk level 2 and an active high-risk zone stored with
    risk level 9, and the user U1 is inside both.  One sweep constructs one
    event for each pair, of type [INSIDE], with an id made of the zone id,
    the user id and the clock reading; both events carry the alert level
    [medium], where the table gives [low] for risk level 2 and [critical]
    for risk level 9.  The zones of a sweep are parsed from a search reply,
    which carries no fields, so the risk level the alert level is computed
    from is always the default 5. *)
Theorem sweep_alert_level_ignores_risk_level :
  let events :=
    (Detection.checkGeofenceEvents Examples.parsePoint Scenarios.withinReply
       (Examples.webhookService []) Scenarios.sweepWorld).2 in
  (f_riskLevel <$> (fst <$> serverZones Scenarios.sweepWorld !! "zone-safe") = Some 2%Q
   /\ f_riskLevel <$> (fst <$> serverZones Scenarios.sweepWorld !! "zone-cliff") = Some 9%Q)
  /\ map (fun event => (ev_zoneId event, ev_userId event, ev_eventType event, ev_id event))
       events
     = [("zone-safe", "U1", INSIDE, "zone-safe-U1-1700000000000");
        ("zone-cliff", "U1", INSIDE, "zone-cliff-U1-1700000000000")]
  /\ map ev_metadata events
     = [Some (mkEventMeta (Some medium)); Some (mkEventMeta (Some medium))]
  /\ alertLevelTable 2 = low
  /\ alertLevelTable 9 = critical.
Proof. vm_compute. repeat split. Qed.

(** ** The properties at concrete inputs *)


Lemma validateZonePolygon_sound_witness :
  GeospatialValidator.validateZonePolygon Examples.smallAngleMath Examples.triangle
  = Ok (Examples.triangle ++ take 1 Examples.triangle)
  /\ GeospatialValidator.isSelfIntersecting (Examples.triangle ++ take 1 Examples.triangle)
     = false.
Proof.
  assert (H : GeospatialValidator.validateZonePolygon Examples.smallAngleMath
                Examples.triangle
              = Ok (Examples.triangle ++ take 1 Examples.triangle))
    by (vm_compute; reflexivity).
  split; [exact H|].
  destruct (validateZonePolygon_sound Examples.smallAngleMath Examples.triangle _ H)
    as (_ & _ & _ & Hs & _).
  exact Hs.
Defined.

Lemma isSelfIntersecting_needs_five_witness :
  (length (Examples.triangle ++ take 1 Examples.triangle) <= 4)%nat
  /\ GeospatialValidator.isSelfIntersecting (Examples.triangle ++ take 1 Examples.triangle)
     = false.
Proof.
  assert (H : (length (Examples.triangle ++ take 1 Examples.triangle) <= 4)%nat)
    by (cbn; lia).
  split; [exact H|]. apply isSelfIntersecting_needs_five. exact H.
Defined.

Lemma getReadConnection_round_robin_witness :
  ReadConnections.consecutiveReads 3 Scenarios.worldThree
  = [Ok (Replica 0); Ok (Replica 1); Ok Primary].
Proof.
  assert (H : (0 < length (ReadConnections.availableConnections
                             (pool Scenarios.worldThree)))%nat) by (cbn; lia).
  exact (getReadConnection_round_robin Scenarios.worldThree H).
Defined.

Lemma executeWrite_primary_down_witness :
  primaryConnected (pool Scenarios.worldDown) = false
  /\ ConnectionManager.run_log
       (ConnectionManager.executeWrite Examples.alwaysRejects Scenarios.worldDown)
     = [EvAcquireFailed; EvDelay 1000; EvAcquireFailed; EvDelay 2000; EvAcquireFailed].
Proof.
  split; [reflexivity|].
  rewrite (executeWrite_primary_down unit Examples.alwaysRejects Scenarios.worldDown eq_refl).
  reflexivity.
Defined.

Lemma getCachedZone_time_to_live_witness :
  (ZoneManagementService.getCachedZone
     (ZoneManagementService.cacheZone Examples.freshService 1000 Examples.riskyZone)
     301000 "zone-9").1 = Some Examples.riskyZone
  /\ (ZoneManagementService.getCachedZone
        (ZoneManagementService.cacheZone Examples.freshService 1000 Examples.riskyZone)
        301001 "zone-9").1 = None.
Proof.
  destruct (getCachedZone_time_to_live Examples.freshService 1000 301000 Examples.riskyZone)
    as [Hfresh _].
  destruct (getCachedZone_time_to_live Examples.freshService 1000 301001 Examples.riskyZone)
    as [_ Hold].
  split.
  - change "zone-9" with (zone_id Examples.riskyZone). rewrite Hfresh; [reflexivity|lia|].
    unfold ZoneManagementService.CACHE_TTL. lia.
  - change "zone-9" with (zone_id Examples.riskyZone). rewrite Hold; [reflexivity|].
    right. unfold ZoneManagementService.CACHE_TTL. lia.
Defined.

Lemma createZone_stores_what_it_returns_witness :
  exists zone,
    (ZoneManagementService.createZone Examples.everyZone Examples.smallAngleMath
       Examples.freshService Examples.worldUp "zone-0001"
       (Examples.requestFor Examples.triangle)).1.1 = Ok zone
    /\ zone_id zone = "zone-0001"
    /\ zone_status zone = ACTIVE.
Proof.
  eexists. split; [vm_compute; reflexivity|].
  edestruct (createZone_stores_what_it_returns Examples.everyZone Examples.smallAngleMath
               Examples.freshService Examples.worldUp "zone-0001"
               (Examples.requestFor Examples.triangle))
    as (Hid & _ & _ & Hstatus & _); [vm_compute; reflexivity|].
  split; [exact Hid|exact Hstatus].
Defined.


Lemma getZone_hides_connection_failure_witness :
  is_Some (serverZones Scenarios.worldDown !! "test-zone-1")
  /\ (ZoneManagementService.getZone Examples.freshService Scenarios.worldDown
        "test-zone-1").1.1 = Ok None
  /\ (ZoneManagementService.deleteZone Examples.freshService Scenarios.worldDown
        "test-zone-1").1.1
     = Throw (mkExn ZoneValidationError "Zone not found: test-zone-1").
Proof.
  split; [eexists; vm_compute; reflexivity|].
  destruct (getZone_hides_connection_failure Examples.freshService Scenarios.worldDown
              "test-zone-1") as (Hget & Hdel & _).
  - reflexivity.
  - repeat constructor.
  - reflexivity.
  - split; [exact Hget|exact Hdel].
Defined.

Lemma createZone_then_getZone_cached_witness :
  exists zone,
    (ZoneManagementService.createZone Examples.everyZone Examples.smallAngleMath
       Examples.freshService Examples.worldUp "zone-0001"
       (Examples.requestFor Examples.triangle)).1.1 = Ok zone
    /\ (ZoneManagementService.getZone
          (ZoneManagementService.createZone Examples.everyZone Examples.smallAngleMath
             Examples.freshService Examples.worldUp "zone-0001"
             (Examples.requestFor Examples.triangle)).1.2
          Scenarios.worldDown "zone-0001").1.1 = Ok (Some zone).
Proof.
  eexists. split; [vm_compute; reflexivity|].
  erewrite (createZone_then_getZone_cached Examples.everyZone Examples.smallAngleMath
              Examples.freshService Examples.worldUp "zone-0001"
              (Examples.requestFor Examples.triangle) _ Scenarios.worldDown).
  - reflexivity.
  - vm_compute. reflexivity.
  - vm_compute. discriminate.
  - vm_compute. discriminate.
Defined.

Lemma createZone_then_getZone_from_index_witness :
  exists parsed,
    (ZoneManagementService.getZone Examples.freshService
       (ZoneManagementService.createZone Examples.everyZone Examples.smallAngleMath
          Examples.freshService Examples.worldUp "zone-0001"
          (Examples.requestFor Examples.triangle)).2
       "zone-0001").1.1 = Ok (Some parsed)
    /\ zone_name parsed = "Equator Zone"
    /\ zone_coordinates parsed = Examples.triangle ++ take 1 Examples.triangle.
Proof.
  edestruct (createZone_then_getZone_from_index Examples.everyZone Examples.smallAngleMath
               Examples.freshService Examples.freshService Examples.worldUp "zone-0001"
               (Examples.requestFor Examples.triangle))
    as (parsed & metadata & Hget & _ & Hname & _ & _ & Hring & _).
  - vm_compute. reflexivity.
  - reflexivity.
  - exists parsed. split; [exact Hget|]. split; [exact Hname|exact Hring].
Defined.

Lemma deliverWebhook_all_rejected_witness :
  exists result,
    (GeofenceWebhookService.deliverWebhook Examples.rejectingHttp
       (Examples.webhookService []) 0 (Examples.webhook "wh-1" None None)
       Scenarios.insidePayload false).1.1 = Ok result
    /\ GeofenceWebhookService.dr_retryCount result = 3
    /\ GeofenceWebhookService.dr_responseTime result = 30480.
Proof.
  destruct (deliverWebhook_all_rejected Examples.rejectingHttp (Examples.webhookService [])
              0 (Examples.webhook "wh-1" None None) Scenarios.insidePayload false
              (Some 500) "Request failed with status code 500" 120)
    as (result & Hres & _ & Hcount & _ & _ & Htime & _).
  - cbn. lia.
  - intros n. reflexivity.
  - exists result. split; [exact Hres|]. split; [exact Hcount|].
    cbn in Htime. lia.
Defined.


Lemma health_scores_stay_in_range_witness :
  map_Forall (fun _ score => 0 <= score <= 100)
    (LoadBalancer.updateConnectionHealth {[ "primary" := 100 ]} "primary" true 50)
  /\ map_Forall (fun _ score => 0 <= score <= 100)
       (LoadBalancer.penalizeUnhealthy {[ "primary" := 100 ]} "primary").
Proof.
  destruct (health_scores_stay_in_range {[ "primary" := 100 ]} "primary" true 50)
    as (Hu & Hp & _).
  - apply map_Forall_singleton. lia.
  - split; [exact Hu|exact Hp].
Defined.



Lemma processLocationBatch_chunks_witness :
  (exists chunks,
     BulkLocationProcessor.processLocationBatch BulkLocationProcessor.defaultConfig
       Scenarios.twelveItems = Some chunks
     /\ concat chunks = Scenarios.twelveItems
     /\ Z.of_nat (length chunks) <= 5)
  /\ BulkLocationProcessor.chunkLoop 1000 Scenarios.twelveItems
       (BulkLocationProcessor.chunkSize 12 (-1)) 0 = None.
Proof.
  destruct (processLocationBatch_chunks BulkLocationProcessor.defaultConfig
              Scenarios.twelveItems) as [Hpos _].
  destruct (processLocationBatch_chunks
              (BulkLocationProcessor.mkBatchConfig 100 1000 3 (-1))
              Scenarios.twelveItems) as [_ Hneg].
  split.
  - destruct Hpos as (chunks & Hsome & Hcat & Hlen & _); [cbn; lia|].
    exists chunks. split; [exact Hsome|]. split; [exact Hcat|exact Hlen].
  - apply Hneg; [cbn; lia|discriminate].
Defined.

Lemma applyZoneFilters_sound_witness :
  In (Scenarios.zoneOfType "b" RESTRICTED 7)
     (ZoneSearch.applyZoneFilters Scenarios.fiveZones
        (ZoneSearch.paged Scenarios.restrictedOnly None (Some 2)))
  /\ zone_type (Scenarios.zoneOfType "b" RESTRICTED 7) = RESTRICTED
  /\ Z.of_nat (length (ZoneSearch.applyZoneFilters Scenarios.fiveZones
                         (ZoneSearch.paged Scenarios.restrictedOnly None (Some 2)))) <= 2.
Proof.
  assert (Hin : In (Scenarios.zoneOfType "b" RESTRICTED 7)
                  (ZoneSearch.applyZoneFilters Scenarios.fiveZones
                     (ZoneSearch.paged Scenarios.restrictedOnly None (Some 2))))
    by (vm_compute; left; reflexivity).
  destruct (applyZoneFilters_sound Scenarios.fiveZones
              (ZoneSearch.paged Scenarios.restrictedOnly None (Some 2)))
    as (_ & Hall & Hlimit).
  split; [exact Hin|]. split.
  - exact (proj1 (Hall _ Hin) RESTRICTED eq_refl).
  - apply (Hlimit 2); [reflexivity|lia].
Defined.

Lemma applyZoneFilters_pages_witness :
  ZoneSearch.applyZoneFilters Scenarios.fiveZones
    (ZoneSearch.paged Scenarios.restrictedOnly (Some 1) (Some 1))
  = [Scenarios.zoneOfType "c" RESTRICTED 8]
  /\ ZoneSearch.applyZoneFilters Scenarios.fiveZones
       (ZoneSearch.paged Scenarios.restrictedOnly (Some 5) (Some 5)) = [].
Proof.
  destruct (applyZoneFilters_pages Scenarios.fiveZones Scenarios.restrictedOnly 1 1)
    as [Hpage _]; [lia|lia|].
  destruct (applyZoneFilters_pages Scenarios.fiveZones Scenarios.restrictedOnly 5 5)
    as [_ Hempty]; [lia|lia|].
  split.
  - rewrite Hpage. vm_compute. reflexivity.
  - apply Hempty; [cbn; lia|lia].
Defined.

Lemma simplifyPolygon_removes_only_witness :
  Simplification.simplifyPolygon Examples.smallAngleMath Examples.triangle (1 # 10000)
  = Examples.triangle
  /\ (2 <= length (Simplification.simplifyPolygon Examples.smallAngleMath
                     Examples.delhiSquare (1 # 10000)) <= 4)%nat.
Proof.
  destruct (simplifyPolygon_removes_only Examples.smallAngleMath Examples.triangle
              (1 # 10000)) as (_ & _ & _ & Hsmall & _).
  destruct (simplifyPolygon_removes_only Examples.smallAngleMath Examples.delhiSquare
              (1 # 10000)) as (_ & _ & _ & _ & Hlarge).
  split; [apply Hsmall; cbn; lia|apply Hlarge; cbn; lia].
Defined.

Lemma connect_backoff_witness :
  Tile38Connection.connect Scenarios.upAtThird Tile38Connection.initial
  = Some (Ok tt, Tile38Connection.mkConnection true 0 4000 [1000; 2000] 3)
  /\ exists gaveUp,
       Tile38Connection.connect Scenarios.neverUp Tile38Connection.initial
       = Some (throwKind Tile38ConnectionError "Max connection retries exceeded", gaveUp)
       /\ Tile38Connection.slept gaveUp = [1000; 2000; 4000; 8000].
Proof.
  destruct (connect_backoff Scenarios.upAtThird Tile38Connection.initial eq_refl)
    as [Hup _].
  destruct (connect_backoff Scenarios.neverUp Tile38Connection.initial eq_refl)
    as [_ Hdown].
  split.
  - rewrite (Hup 2%nat); [reflexivity|lia| |reflexivity].
    intros n Hn. destruct n as [|[|n]]; [reflexivity|reflexivity|lia].
  - destruct Hdown as (gaveUp & Hthrow & Hslept & _); [intros n; reflexivity|].
    exists gaveUp. split; [exact Hthrow|exact Hslept].
Defined.

Lemma updateZone_unknown_zone_witness :
  (ZoneManagementService.getZone Examples.freshService Examples.worldUp "test-zone-1").1.1
  = Ok None
  /\ (ZoneUpdate.updateZone Examples.everyZone Examples.smallAngleMath
        Examples.freshService Examples.worldUp (Scenarios.riskUpdate 42)).1.1
     = Throw (mkExn ZoneValidationError "Zone not found: test-zone-1").
Proof.
  assert (H : (ZoneManagementService.getZone Examples.freshService Examples.worldUp
                 "test-zone-1").1.1 = Ok None) by (vm_compute; reflexivity).
  split; [exact H|].
  destruct (updateZone_unknown_zone Examples.everyZone Examples.smallAngleMath
              Examples.freshService Examples.worldUp (Scenarios.riskUpdate 42) H)
    as (Hthrow & _).
  exact Hthrow.
Defined.

Lemma updateZone_without_coordinates_witness :
  exists updatedZone metadata,
    (ZoneUpdate.updateZone Examples.everyZone Examples.smallAngleMath
       Examples.freshService Examples.worldWithZone (Scenarios.riskUpdate 42)).1.1
    = Ok updatedZone
    /\ zone_metadata updatedZone = Some metadata
    /\ riskLevel metadata = 42%Q
    /\ zone_coordinates updatedZone = Examples.delhiSquare.
Proof.
  edestruct (updateZone_without_coordinates Examples.everyZone Examples.smallAngleMath
               Examples.freshService Examples.worldWithZone (Scenarios.riskUpdate 42))
    as (updatedZone & metadata & Hok & _ & Hring & _ & _ & _ & Hmeta & Hrisk & _).
  - reflexivity.
  - vm_compute. reflexivity.
  - reflexivity.
  - exists updatedZone, metadata. split; [exact Hok|]. split; [exact Hmeta|].
    split; [exact Hrisk|exact Hring].
Defined.

Lemma createZone_rejects_overlap_witness :
  f_status (mkZoneFields "Old Zone" SAFE INACTIVE "" 2 "admin" 1600000000000 1600000000000)
  = INACTIVE
  /\ throwsKind ZoneValidationError
       (ZoneManagementService.createZone Examples.everyZone Examples.smallAngleMath
          Examples.freshService Scenarios.worldWithTriangle "zone-0001"
          (Examples.requestFor Examples.triangle)).1.1.
Proof.
  split; [reflexivity|].
  edestruct (createZone_rejects_overlap Examples.everyZone Examples.smallAngleMath
               Examples.freshService Scenarios.worldWithTriangle "zone-0001"
               (Examples.requestFor Examples.triangle))
    as (Hthrow & _).
  - vm_compute. reflexivity.
  - reflexivity.
  - vm_compute. reflexivity.
  - vm_compute. reflexivity.
  - reflexivity.
  - unfold Scenarios.worldWithTriangle. cbn [serverZones].
    rewrite map_size_singleton. lia.
  - unfold Scenarios.worldWithTriangle. cbn [serverZones]. apply lookup_singleton_eq.
  - discriminate.
  - discriminate.
  - reflexivity.
  - vm_compute. reflexivity.
  - exact Hthrow.
Defined.

Lemma coordinatesToGeoJSON_closed_witness :
  ZoneManagementService.coordinatesToGeoJSON Examples.triangle
  = [[(0.001, 0.001); (0.002, 0.001); (0.002, 0.002); (0.001, 0.001)]%Q]
  /\ ZoneManagementService.coordinatesToGeoJSON
       (Examples.triangle ++ take 1 Examples.triangle)
     = [[(0.001, 0.001); (0.002, 0.001); (0.002, 0.002); (0.001, 0.001)]%Q].
Proof.
  split.
  - destruct (coordinatesToGeoJSON_closed Examples.triangle)
      as (ring & Hring & [Hsame|Hcopy] & Hiff & _).
    + exfalso. destruct (proj1 Hiff Hsame (0.001, 0.001)%Q (0.002, 0.002)%Q eq_refl eq_refl)
        as [H _]. vm_compute in H. discriminate.
    + rewrite Hring, Hcopy. reflexivity.
  - destruct (coordinatesToGeoJSON_closed (Examples.triangle ++ take 1 Examples.triangle))
      as (ring & Hring & _ & Hiff & _).
    rewrite Hring. f_equal. apply (proj2 Hiff).
    intros first final Hf Hl. inversion Hf; inversion Hl; subst. split; reflexivity.
Defined.
